(** * USBasp target-programming engine: a model of firmware/isp.c

    The ISP engine of the USBasp programmer drives a synchronous serial link
    to an AVR target.  This development embeds the functions of
    [firmware/isp.c] as state-passing Rocq functions and proves the
    properties its specification states about them.

    Integers are modelled as [Z] with the wrap-around of their C type written
    out ([u8] for [uchar] / [uint8_t]); registers and globals are fields of
    [state]; everything that becomes visible on the link is appended to
    [trace]. *)

From Stdlib Require Import ZArith List Lia Bool.
Import ListNotations.
Open Scope Z_scope.

(** ** Machine integers *)

(** Conversion to [uchar] / [uint8_t]. *)
Definition u8 (x : Z) : Z := x mod 256.

(** ** Constants of the headers *)

(** Bit numbers of the SPI registers of the ATmega8, from [<avr/io.h>]. *)
Definition SPE : Z := 6.
Definition MSTR : Z := 4.
Definition SPR1 : Z := 1.
Definition SPR0 : Z := 0.
Definition SPI2X : Z := 0.

(** Modelled from the spec: [isp.h] is not part of the sources at hand; it
    names the three control lines and the data-in line of port B.  The
    numbers are those of the USBasp board (PB2, PB3, PB4, PB5). *)
Definition ISP_RST : Z := 2.
Definition ISP_MOSI : Z := 3.
Definition ISP_MISO : Z := 4.
Definition ISP_SCK : Z := 5.

(** Modelled from the spec: [clock.h] is not part of the sources at hand;
    [CLOCK_T_320us] is the number of ticks of the free-running counter
    [TIMERVALUE] in one timeout window of 320 microseconds (12 MHz / 64). *)
Definition CLOCK_T_320us : Z := 60.

(** Modelled from the spec: [usbasp.h] is not part of the sources at hand.
    The speed tiers are an ordered enumeration, the automatic request being
    0 (the value [ispEnterProgrammingMode] tests [prog_sck] against) and the
    tiers numbered upwards from the slowest.  The disabled table of
    [ispSetSCKOption] fixes the seven software tiers (delays 3, 6, ..., 192
    for [USBASP_ISP_SCK_32] down to [USBASP_ISP_SCK_0_5]); the six hardware
    tiers follow in the order of their divide ratios. *)
Definition USBASP_ISP_SCK_AUTO : Z := 0.
Definition USBASP_ISP_SCK_0_5 : Z := 1.
Definition USBASP_ISP_SCK_1 : Z := 2.
Definition USBASP_ISP_SCK_2 : Z := 3.
Definition USBASP_ISP_SCK_4 : Z := 4.
Definition USBASP_ISP_SCK_8 : Z := 5.
Definition USBASP_ISP_SCK_16 : Z := 6.
Definition USBASP_ISP_SCK_32 : Z := 7.
Definition USBASP_ISP_SCK_93_75 : Z := 8.
Definition USBASP_ISP_SCK_187_5 : Z := 9.
Definition USBASP_ISP_SCK_375 : Z := 10.
Definition USBASP_ISP_SCK_750 : Z := 11.
Definition USBASP_ISP_SCK_1500 : Z := 12.
Definition USBASP_ISP_SCK_3000 : Z := 13.

(** ** Session state *)

(** The two functions the pointer [ispTransmit] can hold. *)
Inductive transmit_fn : Set :=
| ispTransmit_hw
| ispTransmit_sw.

Definition transmit_fn_eqb (f g : transmit_fn) : bool :=
  match f, g with
  | ispTransmit_hw, ispTransmit_hw => true
  | ispTransmit_sw, ispTransmit_sw => true
  | _, _ => false
  end.

(** What the engine does on the link, in the order it does it.  A byte
    exchange is one event, whichever transport makes it: the writes to
    [ISP_OUT] by which [ispTransmit_sw] shifts the byte out are part of its
    [Tx] event. *)
Inductive event : Set :=
| Tx (via : transmit_fn) (out inp : Z)    (* one full-duplex byte exchange *)
| Wait (n : Z)                            (* clockWait(n) *)
| Out (v : Z)                             (* ISP_OUT written, between exchanges *)
| Ddr (v : Z).                            (* ISP_DDR written *)

(** Globals of [isp.c] ([sck_sw_delay], [isp_hiaddr], the pointer
    [ispTransmit]), the global [prog_sck] it shares with the dispatcher, the
    registers it writes, the free-running tick counter and the link trace. *)
Record state : Type := mkState {
  sck_sw_delay : Z;
  isp_hiaddr : Z;
  prog_sck : Z;
  ispTransmit : transmit_fn;
  SPCR : Z;
  SPSR : Z;
  ISP_DDR : Z;
  ISP_OUT : Z;
  ticks : Z;
  trace : list event
}.

Definition set_sck_sw_delay (v : Z) (s : state) : state :=
  mkState v (isp_hiaddr s) (prog_sck s) (ispTransmit s) (SPCR s) (SPSR s)
          (ISP_DDR s) (ISP_OUT s) (ticks s) (trace s).

Definition set_isp_hiaddr (v : Z) (s : state) : state :=
  mkState (sck_sw_delay s) v (prog_sck s) (ispTransmit s) (SPCR s) (SPSR s)
          (ISP_DDR s) (ISP_OUT s) (ticks s) (trace s).

Definition set_prog_sck (v : Z) (s : state) : state :=
  mkState (sck_sw_delay s) (isp_hiaddr s) v (ispTransmit s) (SPCR s) (SPSR s)
          (ISP_DDR s) (ISP_OUT s) (ticks s) (trace s).

Definition set_ispTransmit (f : transmit_fn) (s : state) : state :=
  mkState (sck_sw_delay s) (isp_hiaddr s) (prog_sck s) f (SPCR s) (SPSR s)
          (ISP_DDR s) (ISP_OUT s) (ticks s) (trace s).

Definition set_SPCR (v : Z) (s : state) : state :=
  mkState (sck_sw_delay s) (isp_hiaddr s) (prog_sck s) (ispTransmit s) v (SPSR s)
          (ISP_DDR s) (ISP_OUT s) (ticks s) (trace s).

Definition set_SPSR (v : Z) (s : state) : state :=
  mkState (sck_sw_delay s) (isp_hiaddr s) (prog_sck s) (ispTransmit s) (SPCR s) v
          (ISP_DDR s) (ISP_OUT s) (ticks s) (trace s).

(** A write to [ISP_DDR] changes which lines are driven: it is logged. *)
Definition set_ISP_DDR (v : Z) (s : state) : state :=
  mkState (sck_sw_delay s) (isp_hiaddr s) (prog_sck s) (ispTransmit s) (SPCR s) (SPSR s)
          v (ISP_OUT s) (ticks s) (trace s ++ [Ddr v]).

(** A write to [ISP_OUT] changes line levels: it is logged. *)
Definition set_ISP_OUT (v : Z) (s : state) : state :=
  mkState (sck_sw_delay s) (isp_hiaddr s) (prog_sck s) (ispTransmit s) (SPCR s) (SPSR s)
          (ISP_DDR s) v (ticks s) (trace s ++ [Out v]).

(** [TIMERVALUE]: the low eight bits of the free-running counter.  The
    counter advances with what happens on the link (byte exchanges, waits);
    two reads with nothing in between see the same value. *)
Definition TIMERVALUE (s : state) : Z := u8 (ticks s).

(** Modelled from the spec: [clock.c] is not part of the sources at hand;
    [clockWait(n)] blocks for [n] windows of 320 microseconds. *)
Definition clockWait (n : Z) (s : state) : state :=
  mkState (sck_sw_delay s) (isp_hiaddr s) (prog_sck s) (ispTransmit s) (SPCR s) (SPSR s)
          (ISP_DDR s) (ISP_OUT s) (ticks s + n * CLOCK_T_320us) (trace s ++ [Wait n]).

(** The part of the trace of [s'] that was appended after [s]. *)
Definition since (s s' : state) : list event :=
  skipn (length (trace s)) (trace s').

(** The bytes sent in a stretch of the trace, in order. *)
Fixpoint sent (t : list event) : list Z :=
  match t with
  | [] => []
  | Tx _ b _ :: t' => b :: sent t'
  | _ :: t' => sent t'
  end.

(** The extended-address byte that a run of 4-byte commands leaves loaded in
    the target: the third byte of the last command whose opcode is [0x4D],
    or [acc] when there is none. *)
Fixpoint last_extended (acc : Z) (bytes : list Z) : Z :=
  match bytes with
  | c :: _ :: h :: _ :: rest => last_extended (if c =? 0x4D then h else acc) rest
  | _ => acc
  end.

(** Shape of a list of complete 4-byte commands none of which loads the
    extended address. *)
Fixpoint plain_commands (bytes : list Z) : Prop :=
  match bytes with
  | [] => True
  | c :: _ :: _ :: _ :: rest => c <> 0x4D /\ plain_commands rest
  | _ => False
  end.

(** The trace of [s'] is the trace of [s] followed by [d]. *)
Definition extends_by (s s' : state) (d : list event) : Prop :=
  trace s' = trace s ++ d.

(** [s'] continues [s] by whole 4-byte commands, and its cache follows the
    load-extended-address commands among them. *)
Definition tracked_step (s s' : state) : Prop :=
  exists d,
    extends_by s s' d /\
    (exists k, length (sent d) = (4 * k)%nat) /\
    isp_hiaddr s' = last_extended (isp_hiaddr s) (sent d).

(** The writes to [ISP_OUT] of the loop of [ispTransmit_sw], in the order
    the loop makes them: in each of the [n] passes left the data-out bit is
    set to the most significant bit of [send_byte], [send_byte] is shifted,
    and the clock bit is set and cleared again.  The result is the value
    [ISP_OUT] holds when the loop ends. *)
Fixpoint shift_pins (n : nat) (send_byte out : Z) : Z :=
  match n with
  | O => out
  | S n' =>
      let out :=
        if negb (Z.land send_byte 0x80 =? 0)
        then u8 (Z.lor out (Z.shiftl 1 ISP_MOSI))
        else u8 (Z.land out (Z.lnot (Z.shiftl 1 ISP_MOSI))) in
      let send_byte := u8 (Z.shiftl send_byte 1) in
      let out := u8 (Z.lor out (Z.shiftl 1 ISP_SCK)) in
      let out := u8 (Z.land out (Z.lnot (Z.shiftl 1 ISP_SCK))) in
      shift_pins n' send_byte out
  end.

(** The events of one handshake attempt made over [via] when [ISP_OUT] held
    [out]: reset pulse, settle wait, programming enable; [check] is the echo
    of the third byte. *)
Definition attempt_events (via : transmit_fn) (out r0 r1 check r3 : Z) : list event :=
  let high := u8 (Z.lor out (Z.shiftl 1 ISP_RST)) in
  let low := u8 (Z.land high (Z.lnot (Z.shiftl 1 ISP_RST))) in
  [Out high; Wait 1; Out low; Wait 62;
   Tx via 0xAC r0; Tx via 0x53 r1; Tx via 0x00 check; Tx via 0x00 r3].

(** The level of [ISP_OUT] after a reset pulse that started from [out]. *)
Definition after_pulse (out : Z) : Z :=
  u8 (Z.land (u8 (Z.lor out (Z.shiftl 1 ISP_RST))) (Z.lnot (Z.shiftl 1 ISP_RST))).

(** The level of [ISP_OUT] after a handshake attempt that started from
    [out]: the reset pulse, and over the software transport the four bytes
    shifted out through the port. *)
Definition after_attempt (via : transmit_fn) (out : Z) : Z :=
  match via with
  | ispTransmit_hw => after_pulse out
  | ispTransmit_sw =>
      shift_pins 8 0x00
        (shift_pins 8 0x00 (shift_pins 8 0x53 (shift_pins 8 0xAC (after_pulse out))))
  end.

(** One handshake attempt: the tier [prog_sck] it was made at, the
    transport, the state of the engine when the attempt began, and the four
    bytes the target answered. *)
Record attempt : Type := mkAttempt {
  at_tier : Z;
  at_via : transmit_fn;
  at_state : state;
  at_r0 : Z;
  at_r1 : Z;
  at_check : Z;
  at_r3 : Z
}.

Section Attempts.

(** What an attempt over a transport leaves in [ISP_OUT]. *)
Variable leaves : transmit_fn -> Z -> Z.

Fixpoint events_of_attempts (out : Z) (l : list attempt) : list event :=
  match l with
  | [] => []
  | a :: l' =>
      attempt_events (at_via a) out (at_r0 a) (at_r1 a) (at_check a) (at_r3 a)
      ++ events_of_attempts (leaves (at_via a) out) l'
  end.

Fixpoint out_of_attempts (out : Z) (l : list attempt) : Z :=
  match l with
  | [] => out
  | a :: l' => out_of_attempts (leaves (at_via a) out) l'
  end.

End Attempts.

(** The events of a run of attempts, the first of which finds [out] in
    [ISP_OUT]; each of the others finds what the one before it left. *)
Definition attempts_events : Z -> list attempt -> list event :=
  events_of_attempts after_attempt.

(** The level of [ISP_OUT] after a run of attempts. *)
Definition out_after : Z -> list attempt -> Z :=
  out_of_attempts after_attempt.

(** The transport [ispSetSCKOption] selects for a tier. *)
Definition transport_of_tier (tier : Z) : transmit_fn :=
  if tier >=? USBASP_ISP_SCK_93_75 then ispTransmit_hw else ispTransmit_sw.

(** ** The operations offered to the dispatcher *)

Inductive op : Set :=
| OpSetSCKOption (option : Z)
| OpConnect
| OpDisconnect
| OpEnterProgrammingMode
| OpReadFlash (address : Z)
| OpWriteFlash (address data pollmode : Z)
| OpFlushPage (address pollvalue : Z)
| OpReadEEPROM (address : Z)
| OpWriteEEPROM (address data : Z).

(** How a call ends: it returns nothing, it returns a value, or it is still
    inside one of its loops when the fuel runs out. *)
Inductive outcome : Set :=
| Done
| Ret (v : Z)
| Pending.

Definition outcome_of (r : option Z) : outcome :=
  match r with
  | Some v => Ret v
  | None => Pending
  end.

(** The two-valued result domain, and the domain of a byte read back. *)
Definition result_domain (o : op) (r : outcome) : Prop :=
  match o, r with
  | _, Pending => True
  | (OpSetSCKOption _ | OpConnect | OpDisconnect), Done => True
  | (OpEnterProgrammingMode | OpWriteFlash _ _ _ | OpFlushPage _ _
     | OpWriteEEPROM _ _), Ret v => v = 0 \/ v = 1
  | (OpReadFlash _ | OpReadEEPROM _), Ret v => 0 <= v < 256
  | _, _ => False
  end.

Definition is_eeprom_op (o : op) : Prop :=
  match o with
  | OpReadEEPROM _ | OpWriteEEPROM _ _ => True
  | _ => False
  end.

(** [s'] has the speed setting, the SPI registers and the line directions
    of [s]. *)
Definition same_config (s s' : state) : Prop :=
  sck_sw_delay s' = sck_sw_delay s /\
  ispTransmit s' = ispTransmit s /\
  SPCR s' = SPCR s /\
  SPSR s' = SPSR s /\
  prog_sck s' = prog_sck s /\
  ISP_DDR s' = ISP_DDR s.

(** ** The SPI clock divider *)

(** The divide ratio the SPI peripheral of the ATmega8 derives from the bits
    [SPR1], [SPR0] of its control register and [SPI2X] of its status
    register (data sheet, SPI clock rate select): 4, 16, 64 or 128, halved
    when [SPI2X] is set. *)
Definition spi_divider (spcr spsr : Z) : Z :=
  let base :=
    match Z.testbit spcr SPR1, Z.testbit spcr SPR0 with
    | false, false => 4
    | false, true => 16
    | true, false => 64
    | true, true => 128
    end in
  if Z.testbit spsr SPI2X then base / 2 else base.

(** ** The configuration of a handshake attempt *)

(** [st] has the configuration in which the attempts at the entry tier are
    made: the transport, the bit delay and the SPI clock bits of [s], the
    SPI peripheral enabled as master when the transport is the hardware
    one. *)
Definition entry_config (s st : state) : Prop :=
  ispTransmit st = ispTransmit s /\
  sck_sw_delay st = sck_sw_delay s /\
  SPSR st = SPSR s /\
  SPCR st = match ispTransmit s with
            | ispTransmit_hw =>
                u8 (Z.lor (SPCR s) (Z.lor (Z.shiftl 1 SPE) (Z.shiftl 1 MSTR)))
            | ispTransmit_sw => SPCR s
            end.

(** [st] has the configuration of [tier], a tier the ladder stepped down
    to.  A hardware tier: the SPI peripheral enabled as master, its divider
    4 for [USBASP_ISP_SCK_3000] and doubling with each tier below (8 for a
    tier above [USBASP_ISP_SCK_3000]), bit delay 1.  A software tier: the
    SPI peripheral off, the bit delay 3 for [USBASP_ISP_SCK_32] and doubling
    with each tier below. *)
Definition tier_config (tier : Z) (st : state) : Prop :=
  if tier >=? USBASP_ISP_SCK_93_75 then
    ispTransmit st = ispTransmit_hw /\
    sck_sw_delay st = 1 /\
    Z.testbit (SPCR st) SPE = true /\
    Z.testbit (SPCR st) MSTR = true /\
    spi_divider (SPCR st) (SPSR st)
    = (if tier <=? USBASP_ISP_SCK_3000
       then Z.shiftl 4 (USBASP_ISP_SCK_3000 - tier) else 8)
  else
    ispTransmit st = ispTransmit_sw /\
    sck_sw_delay st = Z.shiftl 3 (USBASP_ISP_SCK_32 - tier) /\
    SPCR st = 0.

(** ** The software transport, bit by bit *)

(** The level of the data-out line at each rising edge of the clock in a
    stretch of the trace: of every write to [ISP_OUT] that has the clock bit
    set, the data-out bit. *)
Fixpoint mosi_at_rising_edges (t : list event) : list bool :=
  match t with
  | [] => []
  | Out v :: t' =>
      if Z.testbit v ISP_SCK
      then Z.testbit v ISP_MOSI :: mosi_at_rising_edges t'
      else mosi_at_rising_edges t'
  | _ :: t' => mosi_at_rising_edges t'
  end.

(** The bits [7], [6], ... of [b], [n] of them. *)
Definition bits_msb_first (n : nat) (b : Z) : list bool :=
  map (fun k => Z.testbit b (7 - Z.of_nat k)) (seq 0 n).

Module Wire.

Section BitBang.

(** The pin register [ISP_IN], as the target and the wiring drive it: a
    function of everything that happened before. *)
Variable ISP_IN : state -> Z.

(** Ticks of the free-running counter that pass between two reads of
    [TIMERVALUE] in a busy wait. *)
Variable spin : state -> nat.

(** One pass of an empty busy-wait loop: time passes, nothing else. *)
Definition pass (s : state) : state :=
  mkState (sck_sw_delay s) (isp_hiaddr s) (prog_sck s) (ispTransmit s) (SPCR s) (SPSR s)
          (ISP_DDR s) (ISP_OUT s) (ticks s + Z.of_nat (spin s)) (trace s).

(** The loop [while ((uint8_t) (TIMERVALUE - starttime) < sck_sw_delay)] of
    [ispDelay]; the result is [None] when the fuel runs out first. *)
Fixpoint busy_wait (fuel : nat) (starttime : Z) (s : state) : option state :=
  match fuel with
  | O => None
  | S fuel' =>
      if u8 (TIMERVALUE s - starttime) <? sck_sw_delay s
      then busy_wait fuel' starttime (pass s)
      else Some s
  end.

Definition ispDelay (fuel : nat) (s : state) : option state :=
  let starttime := TIMERVALUE s in
  busy_wait fuel starttime s.

(** The statement that sets the most significant bit of [send_byte] to the
    data-out pin. *)
Definition put_mosi (send_byte : Z) (s : state) : state :=
  if negb (Z.land send_byte 0x80 =? 0)
  then set_ISP_OUT (u8 (Z.lor (ISP_OUT s) (Z.shiftl 1 ISP_MOSI))) s
  else set_ISP_OUT (u8 (Z.land (ISP_OUT s) (Z.lnot (Z.shiftl 1 ISP_MOSI)))) s.

(** The loop [for (i = 0; i < 8; i++)] of [ispTransmit_sw]; [n] is the
    number of passes still to make, [fuel] what each [ispDelay] may use. *)
Fixpoint shift_bits (n fuel : nat) (send_byte rec_byte : Z) (s : state)
  : option (Z * state) :=
  match n with
  | O => Some (rec_byte, s)
  | S n' =>
      let s := put_mosi send_byte s in
      let send_byte := u8 (Z.shiftl send_byte 1) in
      let rec_byte := u8 (Z.shiftl rec_byte 1) in
      let rec_byte :=
        if negb (Z.land (ISP_IN s) (Z.shiftl 1 ISP_MISO) =? 0)
        then u8 (rec_byte + 1) else rec_byte in
      let s := set_ISP_OUT (u8 (Z.lor (ISP_OUT s) (Z.shiftl 1 ISP_SCK))) s in
      match ispDelay fuel s with
      | None => None
      | Some s =>
          let s := set_ISP_OUT (u8 (Z.land (ISP_OUT s) (Z.lnot (Z.shiftl 1 ISP_SCK)))) s in
          match ispDelay fuel s with
          | None => None
          | Some s => shift_bits n' fuel send_byte rec_byte s
          end
      end
  end.

Definition ispTransmit_sw (fuel : nat) (send_byte : Z) (s : state)
  : option (Z * state) :=
  let rec_byte := 0 in
  shift_bits 8 fuel send_byte rec_byte s.

End BitBang.

End Wire.

(** [s'] is [s] some ticks later. *)
Definition later (s s' : state) : Prop :=
  sck_sw_delay s' = sck_sw_delay s /\
  isp_hiaddr s' = isp_hiaddr s /\
  prog_sck s' = prog_sck s /\
  ispTransmit s' = ispTransmit s /\
  SPCR s' = SPCR s /\
  SPSR s' = SPSR s /\
  ISP_DDR s' = ISP_DDR s /\
  ISP_OUT s' = ISP_OUT s /\
  trace s' = trace s /\
  ticks s <= ticks s'.

(** Every pass of a busy wait takes at least one tick and at most [most]. *)
Definition spin_within (spin : state -> nat) (most : Z) : Prop :=
  forall s, 1 <= Z.of_nat (spin s) <= most.

(** The data-in line wired to the data-out line. *)
Definition loopback (ISP_IN : state -> Z) : Prop :=
  forall s, Z.testbit (ISP_IN s) ISP_MISO = Z.testbit (ISP_OUT s) ISP_MOSI.

(** ** Simulated collaborators, for running the model *)

(** A session state before anything was configured. *)
Definition idle : state :=
  mkState 0 0 0 ispTransmit_hw 0 0 0 0 0 [].

(** A target that answers every byte with [b]. *)
Definition answers (b : Z) : state -> Z -> Z := fun _ _ => b.

(** A target that echoes [0x53] only on the software transport at the
    largest bit delay, that is at the slowest tier. *)
Definition answers_slowest_only : state -> Z -> Z :=
  fun s _ =>
    if transmit_fn_eqb (ispTransmit s) ispTransmit_sw && (sck_sw_delay s =? 192)
    then 0x53 else 0.

(** Every byte exchange takes [n] ticks. *)
Definition ticks_per_byte (n : nat) : state -> Z -> nat := fun _ _ => n.

(** The data-in pin of a programmer whose data-out pin is wired back to it,
    the other pins reading 0. *)
Definition wired_back : state -> Z :=
  fun s => if Z.testbit (ISP_OUT s) ISP_MOSI then Z.shiftl 1 ISP_MISO else 0.

(** Every pass of a busy wait takes one tick. *)
Definition one_tick_per_pass : state -> nat := fun _ => 1%nat.

Section Engine.

(** The simulated target: the byte it shifts out while [send_byte] is
    shifted in, as a function of everything that happened before. *)
Variable target : state -> Z -> Z.

(** Ticks of the free-running counter that one byte exchange takes. *)
Variable byte_ticks : state -> Z -> nat.

(** The preprocessor switch of the speed bump after the handshake. *)
Variable DANGEROUS_MODE : bool.

(** ** Transport *)

(** A call through the pointer [ispTransmit] (or its copy [spiTx]).  Both
    [ispTransmit_sw] and [ispTransmit_hw] are taken at the level of their
    contract: the argument, converted to [uchar], is exchanged for one
    byte of the target, most significant bit first, and the exchange
    completes.  The exchange is one [Tx] event of the trace.  The clock
    pulses of [ispTransmit_sw], its busy waits in [ispDelay] and the wait
    of [ispTransmit_hw] for the completion flag show as the ticks the
    exchange takes.  [ispTransmit_sw] shifts the byte out through
    [ISP_OUT] and leaves the register as its last pass wrote it;
    [ispTransmit_hw] hands the byte to the SPI peripheral and does not
    write [ISP_OUT]. *)
Definition transmit (f : transmit_fn) (send_byte : Z) (s : state) : Z * state :=
  let rec_byte := u8 (target s (u8 send_byte)) in
  let out :=
    match f with
    | ispTransmit_hw => ISP_OUT s
    | ispTransmit_sw => shift_pins 8 (u8 send_byte) (ISP_OUT s)
    end in
  (rec_byte,
   mkState (sck_sw_delay s) (isp_hiaddr s) (prog_sck s) (ispTransmit s) (SPCR s) (SPSR s)
           (ISP_DDR s) out
           (ticks s + Z.of_nat (byte_ticks s (u8 send_byte)))
           (trace s ++ [Tx f (u8 send_byte) rec_byte])).

Definition spiHWenable (s : state) : state :=
  set_SPCR (u8 (Z.lor (SPCR s) (Z.lor (Z.shiftl 1 SPE) (Z.shiftl 1 MSTR)))) s.

Definition spiHWdisable (s : state) : state := set_SPCR 0 s.

(** ** Speed controller *)

Definition ispSetSCKOption (option : Z) (s : state) : state :=
  let option :=
    if option =? USBASP_ISP_SCK_AUTO then USBASP_ISP_SCK_1500 else option in
  if option >=? USBASP_ISP_SCK_93_75 then
    let s := set_ispTransmit ispTransmit_hw s in
    let s := set_SPSR 0 s in
    let s := set_sck_sw_delay 1 s in
    if option =? USBASP_ISP_SCK_3000 then
      set_SPCR 0 s
    else if option =? USBASP_ISP_SCK_750 then
      set_SPCR (Z.shiftl 1 SPR0) s
    else if option =? USBASP_ISP_SCK_375 then
      set_SPCR (Z.shiftl 1 SPR1) (set_SPSR (Z.shiftl 1 SPI2X) s)
    else if option =? USBASP_ISP_SCK_187_5 then
      set_SPCR (Z.shiftl 1 SPR1) s
    else if option =? USBASP_ISP_SCK_93_75 then
      set_SPCR (Z.lor (Z.shiftl 1 SPR1) (Z.shiftl 1 SPR0)) s
    else (* USBASP_ISP_SCK_1500 and default, falling into the 750 case *)
      set_SPCR (Z.shiftl 1 SPR0) (set_SPSR (Z.shiftl 1 SPI2X) s)
  else
    let s := set_ispTransmit ispTransmit_sw s in
    set_sck_sw_delay (u8 (Z.shiftl 3 (USBASP_ISP_SCK_32 - option))) s.

(** ** Session manager *)

Definition ispConnect (s : state) : state :=
  let s := set_ISP_DDR (u8 (Z.lor (ISP_DDR s) (Z.shiftl 1 ISP_SCK))) s in
  let s := set_ISP_DDR (u8 (Z.lor (ISP_DDR s) (Z.shiftl 1 ISP_MOSI))) s in
  let s := set_ISP_DDR (u8 (Z.lor (ISP_DDR s) (Z.shiftl 1 ISP_RST))) s in
  let s := set_ISP_OUT (u8 (Z.lor (ISP_OUT s) (Z.shiftl 1 ISP_MISO))) s in
  let s := set_ISP_OUT (u8 (Z.lor (ISP_OUT s) (Z.shiftl 1 ISP_RST))) s in
  let s := clockWait 1 s in
  let s := set_ISP_OUT (u8 (Z.land (ISP_OUT s) (Z.lnot (Z.shiftl 1 ISP_RST)))) s in
  set_isp_hiaddr 0xff s.

(** The mask [(1 << ISP_RST) | (1 << ISP_SCK) | (1 << ISP_MOSI)]. *)
Definition isp_lines : Z :=
  Z.lor (Z.lor (Z.shiftl 1 ISP_RST) (Z.shiftl 1 ISP_SCK)) (Z.shiftl 1 ISP_MOSI).

Definition ispDisconnect (s : state) : state :=
  let s := set_ISP_DDR (u8 (Z.land (ISP_DDR s) (Z.lnot isp_lines))) s in
  let s := set_ISP_OUT (u8 (Z.land (ISP_OUT s) (Z.lnot isp_lines))) s in
  spiHWdisable s.

(** One pass through the body of the [do ... while (--tries)] loop, up to
    the test of [check]: reset pulse, settle wait ([20 / 0.320] converted
    to [uint8_t] is 62), programming enable. *)
Definition handshake_try (spiTx : transmit_fn) (s : state) : Z * state :=
  let s := set_ISP_OUT (u8 (Z.lor (ISP_OUT s) (Z.shiftl 1 ISP_RST))) s in
  let s := clockWait 1 s in
  let s := set_ISP_OUT (u8 (Z.land (ISP_OUT s) (Z.lnot (Z.shiftl 1 ISP_RST)))) s in
  let s := clockWait 62 s in
  let (_, s) := transmit spiTx 0xAC s in
  let (_, s) := transmit spiTx 0x53 s in
  let (check, s) := transmit spiTx 0 s in
  let (_, s) := transmit spiTx 0 s in
  (check, s).

(** What runs between [check == 0x53] and [return 0]. *)
Definition speed_bump (s : state) : state :=
  if DANGEROUS_MODE then
    let s := spiHWdisable s in
    let s := ispSetSCKOption (u8 (prog_sck s + 1)) s in
    if transmit_fn_eqb (ispTransmit s) ispTransmit_hw then spiHWenable s else s
  else s.

(** The loop [do { ... } while (--tries)]; [tries] is the value of the
    counter on entry to the body ([3] at the call).  The result is [true]
    when [return 0] was reached. *)
Fixpoint handshake_tries (tries : nat) (spiTx : transmit_fn) (s : state)
  : bool * state :=
  match tries with
  | O => (false, s)
  | S tries' =>
      let (check, s) := handshake_try spiTx s in
      if check =? 0x53 then (true, speed_bump s)
      else match tries' with
           | O => (false, s)
           | S _ => handshake_tries tries' spiTx s
           end
  end.

(** The loop [while (prog_sck >= USBASP_ISP_SCK_0_5)] and the final
    [return 1].  Each pass of the loop takes one unit of [fuel]; the result
    is [None], with the state reached so far, when the fuel runs out before
    the function returns. *)
Fixpoint speed_ladder (fuel : nat) (s : state) : option Z * state :=
  match fuel with
  | O => (None, s)
  | S fuel' =>
      if prog_sck s >=? USBASP_ISP_SCK_0_5 then
        let spiTx := ispTransmit s in
        let s := if transmit_fn_eqb (ispTransmit s) ispTransmit_hw
                 then spiHWenable s else s in
        let (entered, s) := handshake_tries 3 spiTx s in
        if entered then (Some 0, s)
        else
          let s := spiHWdisable s in
          let s := set_prog_sck (u8 (prog_sck s - 1)) s in
          speed_ladder fuel' (ispSetSCKOption (prog_sck s) s)
      else (Some 1, s)
  end.

Definition ispEnterProgrammingMode (fuel : nat) (s : state) : option Z * state :=
  let s := if prog_sck s =? 0 then set_prog_sck USBASP_ISP_SCK_1500 s else s in
  speed_ladder fuel s.

(** ** Addressing tracker *)

Definition ispUpdateExtended (address : Z) (s : state) : state :=
  let curr_hiaddr := u8 (Z.shiftr address 17) in
  if negb (isp_hiaddr s =? curr_hiaddr) then
    let s := set_isp_hiaddr curr_hiaddr s in
    let (_, s) := transmit (ispTransmit s) 0x4D s in
    let (_, s) := transmit (ispTransmit s) 0x00 s in
    let (_, s) := transmit (ispTransmit s) (isp_hiaddr s) s in
    let (_, s) := transmit (ispTransmit s) 0x00 s in
    s
  else s.

(** ** Memory operation engine *)

Definition ispReadFlash (address : Z) (s : state) : Z * state :=
  let s := ispUpdateExtended address s in
  let (_, s) :=
    transmit (ispTransmit s) (Z.lor 0x20 (Z.shiftl (Z.land address 1) 3)) s in
  let (_, s) := transmit (ispTransmit s) (Z.shiftr address 9) s in
  let (_, s) := transmit (ispTransmit s) (Z.shiftr address 1) s in
  transmit (ispTransmit s) 0 s.

(** The polling loop [while (retries != 0)] of [ispWriteFlash] and of
    [ispFlushPage], which differ in the value [busy] only ([0x7F] and
    [0xFF]); the loop ends in [return 0] or falls through to [return 1].
    Each pass of the loop takes one unit of [fuel]; the result is [None],
    with the state reached so far, when the fuel runs out before the
    function returns. *)
Fixpoint poll_flash (fuel : nat) (address busy retries starttime : Z) (s : state)
  : option Z * state :=
  match fuel with
  | O => (None, s)
  | S fuel' =>
      if negb (retries =? 0) then
        let (b, s) := ispReadFlash address s in
        if negb (b =? busy) then (Some 0, s)
        else if u8 (TIMERVALUE s - starttime) >? CLOCK_T_320us then
               poll_flash fuel' address busy (u8 (retries - 1)) (TIMERVALUE s) s
             else poll_flash fuel' address busy retries starttime s
      else (Some 1, s)
  end.

Definition ispWriteFlash (fuel : nat) (address data pollmode : Z) (s : state)
  : option Z * state :=
  let s := ispUpdateExtended address s in
  let (_, s) :=
    transmit (ispTransmit s) (Z.lor 0x40 (Z.shiftl (Z.land address 1) 3)) s in
  let (_, s) := transmit (ispTransmit s) (Z.shiftr address 9) s in
  let (_, s) := transmit (ispTransmit s) (Z.shiftr address 1) s in
  let (_, s) := transmit (ispTransmit s) data s in
  if pollmode =? 0 then (Some 0, s)
  else if data =? 0x7F then (Some 0, clockWait 15 s)
       else poll_flash fuel address 0x7F 30 (TIMERVALUE s) s.

Definition ispFlushPage (fuel : nat) (address pollvalue : Z) (s : state)
  : option Z * state :=
  let s := ispUpdateExtended address s in
  let (_, s) := transmit (ispTransmit s) 0x4C s in
  let (_, s) := transmit (ispTransmit s) (Z.shiftr address 9) s in
  let (_, s) := transmit (ispTransmit s) (Z.shiftr address 1) s in
  let (_, s) := transmit (ispTransmit s) 0 s in
  if pollvalue =? 0xFF then (Some 0, clockWait 15 s)
  else poll_flash fuel address 0xFF 30 (TIMERVALUE s) s.

Definition ispReadEEPROM (address : Z) (s : state) : Z * state :=
  let (_, s) := transmit (ispTransmit s) 0xA0 s in
  let (_, s) := transmit (ispTransmit s) (Z.shiftr address 8) s in
  let (_, s) := transmit (ispTransmit s) address s in
  transmit (ispTransmit s) 0 s.

Definition ispWriteEEPROM (address data : Z) (s : state) : Z * state :=
  let (_, s) := transmit (ispTransmit s) 0xC0 s in
  let (_, s) := transmit (ispTransmit s) (Z.shiftr address 8) s in
  let (_, s) := transmit (ispTransmit s) address s in
  let (_, s) := transmit (ispTransmit s) data s in
  let s := clockWait 30 s in
  (0, s).

(** A call of an operation by the dispatcher. *)
Definition run (fuel : nat) (o : op) (s : state) : outcome * state :=
  match o with
  | OpSetSCKOption option => (Done, ispSetSCKOption option s)
  | OpConnect => (Done, ispConnect s)
  | OpDisconnect => (Done, ispDisconnect s)
  | OpEnterProgrammingMode =>
      let (r, s) := ispEnterProgrammingMode fuel s in (outcome_of r, s)
  | OpReadFlash address =>
      let (b, s) := ispReadFlash address s in (Ret b, s)
  | OpWriteFlash address data pollmode =>
      let (r, s) := ispWriteFlash fuel address data pollmode s in (outcome_of r, s)
  | OpFlushPage address pollvalue =>
      let (r, s) := ispFlushPage fuel address pollvalue s in (outcome_of r, s)
  | OpReadEEPROM address =>
      let (b, s) := ispReadEEPROM address s in (Ret b, s)
  | OpWriteEEPROM address data =>
      let (r, s) := ispWriteEEPROM address data s in (Ret r, s)
  end.

(** A sequence of calls, each with the same fuel. *)
Fixpoint run_all (fuel : nat) (os : list op) (s : state) : state :=
  match os with
  | [] => s
  | o :: os' => run_all fuel os' (snd (run fuel o s))
  end.

(** [reachable n s]: [s] is reached by [ispConnect] followed by any sequence
    of other operations, and [n] is the length the trace had when that
    [ispConnect] returned, so that [skipn n (trace s)] is what happened on
    the link since.  An operation may be cut inside its polling loop. *)
Inductive reachable : nat -> state -> Prop :=
| reach_connect : forall s,
    reachable (length (trace (ispConnect s))) (ispConnect s)
| reach_op : forall n s fuel o,
    reachable n s -> o <> OpConnect -> reachable n (snd (run fuel o s)).

(** The invariant of the addressing tracker, for a session whose
    [ispConnect] returned at trace length [n]: the link saw whole 4-byte
    commands since, and the cache holds the extended-address byte of the
    last load-extended-address command among them, or [0xFF]. *)
Definition tracker_inv (n : nat) (s : state) : Prop :=
  (n <= length (trace s))%nat /\
  (exists k, length (sent (skipn n (trace s))) = (4 * k)%nat) /\
  isp_hiaddr s = last_extended 0xFF (sent (skipn n (trace s))).

(** Every readback of [address] finds the busy value. *)
Definition always_busy (address busy : Z) : Prop :=
  forall s, fst (ispReadFlash address s) = busy.

(** The tick counter advances during a readback of [address], by no more
    than the 8-bit comparison of the polling loop can see. *)
Definition readback_in_window (address : Z) : Prop :=
  forall s,
    1 <= ticks (snd (ispReadFlash address s)) - ticks s <= 255 - CLOCK_T_320us.

(** Attempt [a], number [i] of the run of attempts [l] that began in state
    [s], was made in the state [at_state a] it records: the state in which
    the engine was after the attempts before it, with [prog_sck] at the
    tier of the attempt and the pointer [ispTransmit] at its transport; and
    the echo it records is the one [handshake_try] reads there. *)
Definition made_in_run (s : state) (l : list attempt) (i : nat) (a : attempt) : Prop :=
  prog_sck (at_state a) = at_tier a /\
  ispTransmit (at_state a) = at_via a /\
  trace (at_state a) = trace s ++ attempts_events (ISP_OUT s) (firstn i l) /\
  ISP_OUT (at_state a) = out_after (ISP_OUT s) (firstn i l) /\
  at_check a = fst (handshake_try (at_via a) (at_state a)).

(** * Properties *)

#[local] Arguments Z.lor : simpl never.
#[local] Arguments Z.land : simpl never.
#[local] Arguments Z.lnot : simpl never.
#[local] Arguments Z.shiftl : simpl never.
#[local] Arguments Z.shiftr : simpl never.
#[local] Arguments Z.add : simpl never.
#[local] Arguments Z.sub : simpl never.
#[local] Arguments Z.mul : simpl never.
#[local] Arguments Z.of_nat : simpl never.
#[local] Arguments Z.gtb : simpl never.
#[local] Arguments Z.geb : simpl never.
#[local] Arguments Z.eqb : simpl never.
#[local] Arguments u8 : simpl never.
#[local] Arguments shift_pins : simpl never.
#[local] Arguments after_attempt : simpl never.
#[local] Arguments transmit : simpl never.
#[local] Arguments ispSetSCKOption : simpl never.
#[local] Arguments ispUpdateExtended : simpl never.
#[local] Arguments ispReadFlash : simpl never.
#[local] Arguments handshake_try : simpl never.
#[local] Arguments speed_bump : simpl never.

(** ** Bytes, traces *)

Lemma u8_range : forall x, 0 <= u8 x < 256.
Proof. intro x. unfold u8. apply Z.mod_pos_bound. lia. Qed.

Lemma u8_small : forall x, 0 <= x < 256 -> u8 x = x.
Proof. intros x H. unfold u8. apply Z.mod_small. exact H. Qed.

Lemma u8_idem : forall x, u8 (u8 x) = u8 x.
Proof. intro x. apply u8_small, u8_range. Qed.

Lemma u8_land : forall x, u8 x = Z.land x 255.
Proof.
  intro x. unfold u8. change 256 with (2 ^ 8). change 255 with (Z.ones 8).
  symmetry. apply Z.land_ones. lia.
Qed.

Lemma sent_app : forall t1 t2, sent (t1 ++ t2) = sent t1 ++ sent t2.
Proof.
  induction t1 as [|e t1 IH]; intro t2; simpl.
  - reflexivity.
  - destruct e; simpl; rewrite ?IH; reflexivity.
Qed.

Lemma since_extends : forall s s' d, extends_by s s' d -> since s s' = d.
Proof.
  unfold extends_by, since. intros s s' d H. rewrite H.
  rewrite skipn_app, skipn_all, Nat.sub_diag. reflexivity.
Qed.

Lemma extends_refl : forall s, extends_by s s [].
Proof. intro s. unfold extends_by. now rewrite app_nil_r. Qed.

Lemma extends_trans : forall s1 s2 s3 d1 d2,
  extends_by s1 s2 d1 -> extends_by s2 s3 d2 -> extends_by s1 s3 (d1 ++ d2).
Proof.
  unfold extends_by. intros s1 s2 s3 d1 d2 H1 H2.
  rewrite H2, H1, app_assoc. reflexivity.
Qed.

Lemma extends_since : forall s s' d, extends_by s s' d -> extends_by s s' (since s s').
Proof. intros s s' d H. rewrite (since_extends _ _ _ H). exact H. Qed.

(** ** Register bits *)

Lemma testbit_u8 : forall x n, 0 <= n < 8 -> Z.testbit (u8 x) n = Z.testbit x n.
Proof.
  intros x n H. rewrite u8_land, Z.land_spec.
  change 255 with (Z.ones 8). rewrite Z.ones_spec_low by lia. apply andb_true_r.
Qed.

Lemma testbit_line : forall k n, 0 <= k -> 0 <= n ->
  Z.testbit (Z.shiftl 1 k) n = (n =? k).
Proof.
  intros k n Hk Hn. rewrite Z.shiftl_1_l, Z.pow2_bits_eqb by lia. apply Z.eqb_sym.
Qed.

(** [reg |= (1 << k)] *)
Lemma testbit_set_line : forall x k n, 0 <= k -> 0 <= n < 8 ->
  Z.testbit (u8 (Z.lor x (Z.shiftl 1 k))) n = Z.testbit x n || (n =? k).
Proof.
  intros x k n Hk Hn. rewrite testbit_u8, Z.lor_spec, testbit_line by lia. reflexivity.
Qed.

(** [reg &= ~mask] *)
Lemma testbit_clear_mask : forall x m n, 0 <= n < 8 ->
  Z.testbit (u8 (Z.land x (Z.lnot m))) n = Z.testbit x n && negb (Z.testbit m n).
Proof.
  intros x m n Hn. rewrite testbit_u8, Z.land_spec, Z.lnot_spec by lia. reflexivity.
Qed.

(** [reg &= ~(1 << k)] *)
Lemma testbit_clear_line : forall x k n, 0 <= k -> 0 <= n < 8 ->
  Z.testbit (u8 (Z.land x (Z.lnot (Z.shiftl 1 k)))) n = Z.testbit x n && negb (n =? k).
Proof.
  intros x k n Hk Hn. rewrite testbit_clear_mask, testbit_line by lia. reflexivity.
Qed.

Lemma testbit_isp_lines : forall n, 0 <= n ->
  Z.testbit isp_lines n = (n =? ISP_RST) || (n =? ISP_SCK) || (n =? ISP_MOSI).
Proof.
  intros n Hn. unfold isp_lines.
  rewrite !Z.lor_spec, !testbit_line by (unfold ISP_RST, ISP_SCK, ISP_MOSI; lia).
  reflexivity.
Qed.

Lemma land_pow2 : forall x k, 0 <= k ->
  Z.land x (2 ^ k) = if Z.testbit x k then 2 ^ k else 0.
Proof.
  intros x k Hk. apply Z.bits_inj'. intros n Hn.
  rewrite Z.land_spec, Z.pow2_bits_eqb by lia.
  destruct (Z.testbit x k) eqn:E.
  - rewrite Z.pow2_bits_eqb by lia. destruct (k =? n) eqn:F.
    + apply Z.eqb_eq in F. subst n. rewrite E. reflexivity.
    + apply andb_false_r.
  - rewrite Z.bits_0. destruct (k =? n) eqn:F.
    + apply Z.eqb_eq in F. subst n. rewrite E. reflexivity.
    + apply andb_false_r.
Qed.

(** [(x & (1 << k)) != 0] tests bit [k]. *)
Lemma line_test : forall x k, 0 <= k ->
  negb (Z.land x (Z.shiftl 1 k) =? 0) = Z.testbit x k.
Proof.
  intros x k Hk. rewrite Z.shiftl_1_l, land_pow2 by lia.
  destruct (Z.testbit x k); [|reflexivity].
  assert (0 < 2 ^ k) by (apply Z.pow_pos_nonneg; lia).
  assert (E : (2 ^ k =? 0) = false) by (apply Z.eqb_neq; lia).
  rewrite E. reflexivity.
Qed.

(** [(send_byte & 0x80) != 0] tests bit 7. *)
Lemma msb_test : forall x, negb (Z.land x 0x80 =? 0) = Z.testbit x 7.
Proof. intro x. apply (line_test x 7). lia. Qed.

Lemma msb_ge : forall x, 0 <= x < 256 -> Z.testbit x 7 = (128 <=? x).
Proof.
  intros x Hx. pose proof (Z.testbit_spec' x 7 ltac:(lia)) as H.
  change (2 ^ 7) with 128 in H.
  assert (D : x / 128 = 0 \/ x / 128 = 1).
  { assert (0 <= x / 128 < 2)
      by (split; [apply Z.div_pos; lia | apply Z.div_lt_upper_bound; lia]).
    lia. }
  destruct (128 <=? x) eqn:E.
  - apply Z.leb_le in E. destruct D as [D|D]; rewrite D in H.
    + apply Z.div_small_iff in D; lia.
    + destruct (Z.testbit x 7); [reflexivity | discriminate].
  - apply Z.leb_gt in E. rewrite (Z.div_small x 128) in H by lia.
    destruct (Z.testbit x 7); [discriminate | reflexivity].
Qed.

(** ** The port after a byte over the software transport *)

Lemma shift_pins_S : forall n send_byte out,
  shift_pins (S n) send_byte out =
  shift_pins n (u8 (Z.shiftl send_byte 1))
    (u8 (Z.land
           (u8 (Z.lor (if Z.testbit send_byte 7
                       then u8 (Z.lor out (Z.shiftl 1 ISP_MOSI))
                       else u8 (Z.land out (Z.lnot (Z.shiftl 1 ISP_MOSI))))
                      (Z.shiftl 1 ISP_SCK)))
           (Z.lnot (Z.shiftl 1 ISP_SCK)))).
Proof.
  intros n send_byte out. rewrite <- (msb_test send_byte). reflexivity.
Qed.

(** One pass of the loop, bit by bit. *)
Lemma shift_pass_bits : forall send_byte out j,
  0 <= j < 8 ->
  Z.testbit
    (u8 (Z.land
           (u8 (Z.lor (if Z.testbit send_byte 7
                       then u8 (Z.lor out (Z.shiftl 1 ISP_MOSI))
                       else u8 (Z.land out (Z.lnot (Z.shiftl 1 ISP_MOSI))))
                      (Z.shiftl 1 ISP_SCK)))
           (Z.lnot (Z.shiftl 1 ISP_SCK)))) j
  = if j =? ISP_SCK then false
    else if j =? ISP_MOSI then Z.testbit send_byte 7
         else Z.testbit out j.
Proof.
  intros send_byte out j Hj.
  rewrite testbit_clear_line, testbit_set_line by (unfold ISP_SCK; lia).
  destruct (j =? ISP_SCK) eqn:Es; [apply andb_false_r|].
  rewrite orb_false_r, andb_true_r.
  destruct (Z.testbit send_byte 7).
  - rewrite testbit_set_line by (unfold ISP_MOSI; lia).
    destruct (j =? ISP_MOSI); [apply orb_true_r | apply orb_false_r].
  - rewrite testbit_clear_line by (unfold ISP_MOSI; lia).
    destruct (j =? ISP_MOSI); [apply andb_false_r | apply andb_true_r].
Qed.

(** After the last of [n] passes the clock bit is clear, the data-out bit
    is the last bit shifted out, and the other bits are as before. *)
Lemma shift_pins_bits : forall n send_byte out j,
  (0 < n <= 8)%nat ->
  0 <= j < 8 ->
  Z.testbit (shift_pins n send_byte out) j
  = if j =? ISP_SCK then false
    else if j =? ISP_MOSI then Z.testbit send_byte (8 - Z.of_nat n)
         else Z.testbit out j.
Proof.
  induction n as [|n IH]; intros send_byte out j Hn Hj; [lia|].
  rewrite shift_pins_S. destruct n as [|n'].
  - change (shift_pins 0 ?b ?o) with o. apply shift_pass_bits, Hj.
  - rewrite IH by lia. rewrite shift_pass_bits by exact Hj.
    destruct (j =? ISP_SCK); [reflexivity|].
    destruct (j =? ISP_MOSI); [|reflexivity].
    rewrite testbit_u8, Z.shiftl_spec by lia. f_equal. lia.
Qed.

Lemma shift_pins_range : forall n send_byte out,
  (0 < n)%nat -> 0 <= shift_pins n send_byte out < 256.
Proof.
  induction n as [|n IH]; intros send_byte out Hn; [lia|].
  rewrite shift_pins_S. destruct n as [|n'].
  - change (shift_pins 0 ?b ?o) with o. apply u8_range.
  - apply IH. lia.
Qed.

(** Two values of an 8-bit register with the same bits are equal. *)
Lemma u8_bits_eq : forall x y,
  0 <= x < 256 -> 0 <= y < 256 ->
  (forall j, 0 <= j < 8 -> Z.testbit x j = Z.testbit y j) -> x = y.
Proof.
  intros x y Hx Hy H.
  rewrite <- (u8_small x Hx), <- (u8_small y Hy), !u8_land.
  apply Z.bits_inj'. intros j Hj. rewrite !Z.land_spec.
  destruct (Z.lt_ge_cases j 8) as [Hlt|Hge].
  - rewrite H by lia. reflexivity.
  - change 255 with (Z.ones 8). rewrite Z.ones_spec_high by lia.
    rewrite !andb_false_r. reflexivity.
Qed.

Lemma after_pulse_bits : forall out j,
  0 <= j < 8 ->
  Z.testbit (after_pulse out) j = Z.testbit out j && negb (j =? ISP_RST).
Proof.
  intros out j Hj. unfold after_pulse.
  rewrite testbit_clear_line, testbit_set_line by (unfold ISP_RST; lia).
  destruct (Z.testbit out j), (j =? ISP_RST); reflexivity.
Qed.

(** A handshake attempt leaves the reset bit clear, over the software
    transport the clock and data-out bits too, and the other bits as they
    were. *)
Lemma after_attempt_bits : forall via out j,
  0 <= j < 8 ->
  Z.testbit (after_attempt via out) j
  = Z.testbit out j && negb (j =? ISP_RST)
    && match via with
       | ispTransmit_hw => true
       | ispTransmit_sw => negb (j =? ISP_SCK) && negb (j =? ISP_MOSI)
       end.
Proof.
  intros via out j Hj. unfold after_attempt. destruct via.
  - rewrite after_pulse_bits by exact Hj. symmetry. apply andb_true_r.
  - rewrite !shift_pins_bits by (exact Hj || lia).
    destruct (j =? ISP_SCK); [rewrite andb_false_r; reflexivity|].
    destruct (j =? ISP_MOSI); [rewrite andb_false_r; reflexivity|].
    rewrite after_pulse_bits by exact Hj. symmetry. apply andb_true_r.
Qed.

(** One byte exchange: what it appends and what it leaves alone. *)
Lemma transmit_frame : forall f send_byte s,
  trace (snd (transmit f send_byte s))
    = trace s ++ [Tx f (u8 send_byte) (fst (transmit f send_byte s))] /\
  isp_hiaddr (snd (transmit f send_byte s)) = isp_hiaddr s /\
  ispTransmit (snd (transmit f send_byte s)) = ispTransmit s /\
  prog_sck (snd (transmit f send_byte s)) = prog_sck s /\
  ISP_OUT (snd (transmit f send_byte s))
    = match f with
      | ispTransmit_hw => ISP_OUT s
      | ispTransmit_sw => shift_pins 8 (u8 send_byte) (ISP_OUT s)
      end /\
  0 <= fst (transmit f send_byte s) < 256.
Proof.
  intros f send_byte s. unfold transmit. cbv zeta.
  cbn [fst snd trace isp_hiaddr ispTransmit prog_sck ISP_OUT].
  repeat split; try reflexivity; apply u8_range.
Qed.

(** Names the result of the next byte exchange in the goal and records what
    [transmit_frame] says of it. *)
Ltac step_transmit :=
  match goal with
  | |- context [let (_, _) := transmit ?f ?b ?s0 in _] =>
      let T := fresh "T" in
      let r := fresh "r" in
      let s' := fresh "s" in
      pose proof (transmit_frame f b s0) as T;
      destruct (transmit f b s0) as [r s']; cbn [fst snd] in T;
      destruct T as (?Tt & ?Th & ?Tf & ?Tp & ?To & ?Tr)
  end.

(** The same for a byte exchange whose result the function returns. *)
Ltac last_transmit :=
  match goal with
  | |- context [transmit ?f ?b ?s0] =>
      destruct (transmit_frame f b s0) as (?Tt & ?Th & ?Tf & ?Tp & ?To & ?Tr)
  end.

(** ** The addressing tracker *)

Lemma ispUpdateExtended_same : forall address s,
  isp_hiaddr s = u8 (Z.shiftr address 17) -> ispUpdateExtended address s = s.
Proof.
  intros address s H. unfold ispUpdateExtended.
  rewrite H, Z.eqb_refl. reflexivity.
Qed.

Lemma ispUpdateExtended_changed : forall address s,
  isp_hiaddr s <> u8 (Z.shiftr address 17) ->
  exists r0 r1 r2 r3,
    extends_by s (ispUpdateExtended address s)
      [Tx (ispTransmit s) 0x4D r0; Tx (ispTransmit s) 0x00 r1;
       Tx (ispTransmit s) (u8 (Z.shiftr address 17)) r2; Tx (ispTransmit s) 0x00 r3].
Proof.
  intros address s H. unfold ispUpdateExtended.
  apply Z.eqb_neq in H. rewrite H. cbn [negb].
  repeat step_transmit.
  exists r, r0, r1, r2. unfold extends_by.
  rewrite Tt2, Tt1, Tt0, Tt, ?Tf1, ?Tf0, ?Tf, ?Th0, ?Th.
  cbn [set_isp_hiaddr trace isp_hiaddr ispTransmit].
  rewrite <- !app_assoc, u8_idem. reflexivity.
Qed.

Lemma ispUpdateExtended_hiaddr : forall address s,
  isp_hiaddr (ispUpdateExtended address s) = u8 (Z.shiftr address 17).
Proof.
  intros address s. unfold ispUpdateExtended.
  destruct (isp_hiaddr s =? u8 (Z.shiftr address 17)) eqn:E; simpl.
  - now apply Z.eqb_eq in E.
  - reflexivity.
Qed.

Lemma ispUpdateExtended_ispTransmit : forall address s,
  ispTransmit (ispUpdateExtended address s) = ispTransmit s.
Proof.
  intros address s. unfold ispUpdateExtended.
  destruct (isp_hiaddr s =? u8 (Z.shiftr address 17)); reflexivity.
Qed.

Lemma ispUpdateExtended_extends : forall address s,
  extends_by s (ispUpdateExtended address s) (since s (ispUpdateExtended address s)).
Proof.
  intros address s.
  destruct (Z.eq_dec (isp_hiaddr s) (u8 (Z.shiftr address 17))) as [E|E].
  - rewrite (ispUpdateExtended_same _ _ E). eapply extends_since, extends_refl.
  - destruct (ispUpdateExtended_changed _ _ E) as (r0 & r1 & r2 & r3 & H).
    eapply extends_since, H.
Qed.

(** ** Flash commands *)

Lemma ispReadFlash_extends : forall address s,
  let s1 := ispUpdateExtended address s in
  exists r0 r1 r2,
    extends_by s1 (snd (ispReadFlash address s))
      [Tx (ispTransmit s) (u8 (Z.lor 0x20 (Z.shiftl (Z.land address 1) 3))) r0;
       Tx (ispTransmit s) (u8 (Z.shiftr address 9)) r1;
       Tx (ispTransmit s) (u8 (Z.shiftr address 1)) r2;
       Tx (ispTransmit s) 0 (fst (ispReadFlash address s))].
Proof.
  intros address s s1. unfold ispReadFlash. fold s1.
  assert (F1 : ispTransmit s1 = ispTransmit s)
    by apply ispUpdateExtended_ispTransmit.
  repeat step_transmit. last_transmit.
  exists r, r0, r1. unfold extends_by.
  rewrite Tt2, Tt1, Tt0, Tt, ?Tf1, ?Tf0, ?Tf, F1, <- !app_assoc. reflexivity.
Qed.

Lemma ispReadFlash_hiaddr : forall address s,
  isp_hiaddr (snd (ispReadFlash address s)) = u8 (Z.shiftr address 17).
Proof.
  intros address s. unfold ispReadFlash.
  repeat step_transmit. last_transmit.
  rewrite Th2, Th1, Th0, Th. apply ispUpdateExtended_hiaddr.
Qed.

Lemma ispReadFlash_ispTransmit : forall address s,
  ispTransmit (snd (ispReadFlash address s)) = ispTransmit s.
Proof.
  intros address s. unfold ispReadFlash.
  repeat step_transmit. last_transmit.
  rewrite Tf2, Tf1, Tf0, Tf. apply ispUpdateExtended_ispTransmit.
Qed.

Lemma ispReadFlash_byte : forall address s, 0 <= fst (ispReadFlash address s) < 256.
Proof.
  intros address s. unfold ispReadFlash.
  repeat step_transmit. last_transmit. assumption.
Qed.

(** The write command of [ispWriteFlash] is the call without polling. *)
Lemma ispWriteFlash_command : forall fuel address data s,
  let s1 := ispUpdateExtended address s in
  exists r0 r1 r2 r3 s4,
    ispWriteFlash fuel address data 0 s = (Some 0, s4) /\
    extends_by s1 s4
      [Tx (ispTransmit s) (u8 (Z.lor 0x40 (Z.shiftl (Z.land address 1) 3))) r0;
       Tx (ispTransmit s) (u8 (Z.shiftr address 9)) r1;
       Tx (ispTransmit s) (u8 (Z.shiftr address 1)) r2;
       Tx (ispTransmit s) (u8 data) r3] /\
    isp_hiaddr s4 = u8 (Z.shiftr address 17) /\
    ispTransmit s4 = ispTransmit s.
Proof.
  intros fuel address data s s1. unfold ispWriteFlash. fold s1.
  assert (F1 : ispTransmit s1 = ispTransmit s)
    by apply ispUpdateExtended_ispTransmit.
  assert (H1 : isp_hiaddr s1 = u8 (Z.shiftr address 17))
    by apply ispUpdateExtended_hiaddr.
  repeat step_transmit.
  exists r, r0, r1, r2, s4. change (0 =? 0) with true. cbv iota.
  split; [reflexivity|]. split; [|split; congruence].
  unfold extends_by.
  rewrite Tt2, Tt1, Tt0, Tt, ?Tf1, ?Tf0, ?Tf, F1, <- !app_assoc. reflexivity.
Qed.

Lemma ispWriteFlash_unfold : forall fuel address data pollmode s,
  let w := snd (ispWriteFlash 0 address data 0 s) in
  ispWriteFlash fuel address data pollmode s =
  if pollmode =? 0 then (Some 0, w)
  else if data =? 0x7F then (Some 0, clockWait 15 w)
       else poll_flash fuel address 0x7F 30 (TIMERVALUE w) w.
Proof.
  intros fuel address data pollmode s. unfold ispWriteFlash.
  repeat step_transmit. reflexivity.
Qed.

(** The write-page command of [ispFlushPage] is the call on the fixed-wait
    path, less the wait. *)
Lemma ispFlushPage_command : forall address s,
  let s1 := ispUpdateExtended address s in
  exists r0 r1 r2 r3 s4,
    ispFlushPage 0 address 0xFF s = (Some 0, clockWait 15 s4) /\
    (forall fuel pollvalue,
       ispFlushPage fuel address pollvalue s =
       if pollvalue =? 0xFF then (Some 0, clockWait 15 s4)
       else poll_flash fuel address 0xFF 30 (TIMERVALUE s4) s4) /\
    extends_by s1 s4
      [Tx (ispTransmit s) 0x4C r0;
       Tx (ispTransmit s) (u8 (Z.shiftr address 9)) r1;
       Tx (ispTransmit s) (u8 (Z.shiftr address 1)) r2;
       Tx (ispTransmit s) 0 r3] /\
    isp_hiaddr s4 = u8 (Z.shiftr address 17) /\
    ispTransmit s4 = ispTransmit s.
Proof.
  intros address s s1. unfold ispFlushPage. fold s1.
  assert (F1 : ispTransmit s1 = ispTransmit s)
    by apply ispUpdateExtended_ispTransmit.
  assert (H1 : isp_hiaddr s1 = u8 (Z.shiftr address 17))
    by apply ispUpdateExtended_hiaddr.
  repeat step_transmit.
  exists r, r0, r1, r2, s4.
  split; [reflexivity|]. split; [intros; reflexivity|]. split; [|split; congruence].
  unfold extends_by.
  rewrite Tt2, Tt1, Tt0, Tt, ?Tf1, ?Tf0, ?Tf, F1, <- !app_assoc. reflexivity.
Qed.

(** One pass of the polling loop. *)
Lemma poll_flash_S : forall fuel address busy retries starttime s,
  poll_flash (S fuel) address busy retries starttime s =
  if retries =? 0 then (Some 1, s)
  else
    let b := fst (ispReadFlash address s) in
    let s' := snd (ispReadFlash address s) in
    if b =? busy then
      if u8 (TIMERVALUE s' - starttime) >? CLOCK_T_320us
      then poll_flash fuel address busy (u8 (retries - 1)) (TIMERVALUE s') s'
      else poll_flash fuel address busy retries starttime s'
    else (Some 0, s').
Proof.
  intros fuel address busy retries starttime s.
  change (poll_flash (S fuel) address busy retries starttime s) with
    (if negb (retries =? 0) then
       let (b, s') := ispReadFlash address s in
       if negb (b =? busy) then (Some 0, s')
       else if u8 (TIMERVALUE s' - starttime) >? CLOCK_T_320us then
              poll_flash fuel address busy (u8 (retries - 1)) (TIMERVALUE s') s'
            else poll_flash fuel address busy retries starttime s'
     else (Some 1, s)).
  destruct (retries =? 0); [reflexivity|].
  destruct (ispReadFlash address s) as [b s']. cbv beta iota zeta. cbn [fst snd].
  destruct (b =? busy); reflexivity.
Qed.

Lemma poll_flash_extends : forall fuel address busy retries starttime s,
  exists d, extends_by s (snd (poll_flash fuel address busy retries starttime s)) d.
Proof.
  induction fuel as [|fuel IH]; intros address busy retries starttime s.
  - exists []. apply extends_refl.
  - rewrite poll_flash_S. destruct (retries =? 0).
    + exists []. apply extends_refl.
    + destruct (ispReadFlash_extends address s) as (r0 & r1 & r2 & Hr).
      pose proof (ispUpdateExtended_extends address s) as Hu.
      pose proof (extends_trans _ _ _ _ _ Hu Hr) as H.
      cbv zeta.
      destruct (ispReadFlash address s) as [b s'] eqn:E. cbn [fst snd] in *.
      destruct (b =? busy).
      * destruct (u8 (TIMERVALUE s' - starttime) >? CLOCK_T_320us).
        -- destruct (IH address busy (u8 (retries - 1)) (TIMERVALUE s') s') as [d Hd].
           eexists. eapply extends_trans; eassumption.
        -- destruct (IH address busy retries starttime s') as [d Hd].
           eexists. eapply extends_trans; eassumption.
      * eexists. exact H.
Qed.

Lemma clockWait_extends : forall n s, extends_by s (clockWait n s) [Wait n].
Proof. intros n s. reflexivity. Qed.

Lemma ispWriteFlash_extends : forall fuel address data pollmode s,
  exists d,
    extends_by (ispUpdateExtended address s)
               (snd (ispWriteFlash fuel address data pollmode s)) d.
Proof.
  intros fuel address data pollmode s.
  rewrite ispWriteFlash_unfold. cbv zeta.
  destruct (ispWriteFlash_command 0 address data s)
    as (r0 & r1 & r2 & r3 & w & Hw & Hx & _).
  rewrite Hw. cbn [snd].
  destruct (pollmode =? 0); [eexists; exact Hx|].
  destruct (data =? 127).
  - eexists. eapply extends_trans; [exact Hx | apply clockWait_extends].
  - destruct (poll_flash_extends fuel address 127 30 (TIMERVALUE w) w) as [d Hd].
    eexists. eapply extends_trans; eassumption.
Qed.

Lemma ispFlushPage_extends : forall fuel address pollvalue s,
  exists d,
    extends_by (ispUpdateExtended address s)
               (snd (ispFlushPage fuel address pollvalue s)) d.
Proof.
  intros fuel address pollvalue s.
  destruct (ispFlushPage_command address s)
    as (r0 & r1 & r2 & r3 & w & _ & Hw & Hx & _).
  rewrite Hw.
  destruct (pollvalue =? 255).
  - eexists. eapply extends_trans; [exact Hx | apply clockWait_extends].
  - destruct (poll_flash_extends fuel address 255 30 (TIMERVALUE w) w) as [d Hd].
    eexists. eapply extends_trans; eassumption.
Qed.

Lemma ispConnect_hiaddr : forall s, isp_hiaddr (ispConnect s) = 0xFF.
Proof. reflexivity. Qed.

(** A flash access whose extended-address byte is not the cached one starts
    with the load-extended-address command. *)
Lemma flash_access_starts_with_load : forall address s s' d,
  isp_hiaddr s <> u8 (Z.shiftr address 17) ->
  extends_by (ispUpdateExtended address s) s' d ->
  firstn 4 (sent (since s s')) = [0x4D; 0x00; u8 (Z.shiftr address 17); 0x00].
Proof.
  intros address s s' d Hne Hd.
  destruct (ispUpdateExtended_changed _ _ Hne) as (r0 & r1 & r2 & r3 & Hu).
  rewrite (since_extends _ _ _ (extends_trans _ _ _ _ _ Hu Hd)).
  reflexivity.
Qed.

(** C1 (as amended).  [ispUpdateExtended] transmits the load-extended-address
    command [0x4D, 0x00, high byte, 0x00] if and only if the high byte
    [address >> 17] (as [uchar]) differs from the cached [isp_hiaddr], and
    the cache holds that byte afterwards.  After [ispConnect] the first
    flash access ([ispReadFlash], [ispWriteFlash], [ispFlushPage]) starts
    with this command for every address whose high byte is not [0xFF]. *)
Theorem ispUpdateExtended_emits_iff_changed :
  forall address s,
    let hi := u8 (Z.shiftr address 17) in
    let s' := ispUpdateExtended address s in
    extends_by s s' (since s s') /\
    (isp_hiaddr s <> hi -> sent (since s s') = [0x4D; 0x00; hi; 0x00]) /\
    (isp_hiaddr s = hi -> since s s' = []) /\
    isp_hiaddr s' = hi /\
    (hi <> 0xFF ->
     forall s0 fuel data pollmode pollvalue,
       let c := ispConnect s0 in
       firstn 4 (sent (since c (snd (ispReadFlash address c))))
         = [0x4D; 0x00; hi; 0x00] /\
       firstn 4 (sent (since c (snd (ispWriteFlash fuel address data pollmode c))))
         = [0x4D; 0x00; hi; 0x00] /\
       firstn 4 (sent (since c (snd (ispFlushPage fuel address pollvalue c))))
         = [0x4D; 0x00; hi; 0x00]).
Proof.
  intros address s hi s'. subst hi s'.
  split; [apply ispUpdateExtended_extends|].
  split.
  { intro Hne. destruct (ispUpdateExtended_changed _ _ Hne) as (r0 & r1 & r2 & r3 & Hu).
    rewrite (since_extends _ _ _ Hu). reflexivity. }
  split.
  { intro He. rewrite (ispUpdateExtended_same _ _ He).
    apply since_extends, extends_refl. }
  split; [apply ispUpdateExtended_hiaddr|].
  intros Hff s0 fuel data pollmode pollvalue c.
  assert (Hne : isp_hiaddr c <> u8 (Z.shiftr address 17)).
  { unfold c. rewrite ispConnect_hiaddr. congruence. }
  repeat split.
  - destruct (ispReadFlash_extends address c) as (r0 & r1 & r2 & Hr).
    eapply flash_access_starts_with_load; eassumption.
  - destruct (ispWriteFlash_extends fuel address data pollmode c) as [d Hd].
    eapply flash_access_starts_with_load; eassumption.
  - destruct (ispFlushPage_extends fuel address pollvalue c) as [d Hd].
    eapply flash_access_starts_with_load; eassumption.
Qed.

(** ** The speed controller *)

Lemma software_tier_cases : forall option,
  USBASP_ISP_SCK_0_5 <= option < USBASP_ISP_SCK_93_75 ->
  option = 1 \/ option = 2 \/ option = 3 \/ option = 4 \/
  option = 5 \/ option = 6 \/ option = 7.
Proof. unfold USBASP_ISP_SCK_0_5, USBASP_ISP_SCK_93_75. lia. Qed.

Lemma ispSetSCKOption_hw : forall option s,
  USBASP_ISP_SCK_93_75 <= option ->
  ispTransmit (ispSetSCKOption option s) = ispTransmit_hw /\
  sck_sw_delay (ispSetSCKOption option s) = 1.
Proof.
  intros option s H. unfold ispSetSCKOption.
  assert (E : (option =? USBASP_ISP_SCK_AUTO) = false).
  { apply Z.eqb_neq. unfold USBASP_ISP_SCK_AUTO, USBASP_ISP_SCK_93_75 in *. lia. }
  rewrite E.
  assert (G : (option >=? USBASP_ISP_SCK_93_75) = true).
  { apply Z.geb_le. lia. }
  rewrite G.
  repeat match goal with
         | |- context [if ?c then _ else _] => destruct c
         end; split; reflexivity.
Qed.

Lemma ispSetSCKOption_sw : forall option s,
  USBASP_ISP_SCK_0_5 <= option < USBASP_ISP_SCK_93_75 ->
  ispTransmit (ispSetSCKOption option s) = ispTransmit_sw /\
  sck_sw_delay (ispSetSCKOption option s) = Z.shiftl 3 (USBASP_ISP_SCK_32 - option).
Proof.
  intros option s H.
  destruct (software_tier_cases option H) as [E|[E|[E|[E|[E|[E|E]]]]]];
    subst option; split; reflexivity.
Qed.

(** C4.  For every option at or above [USBASP_ISP_SCK_93_75],
    [ispSetSCKOption] selects [ispTransmit_hw]; for every tier below it
    selects [ispTransmit_sw] and sets [sck_sw_delay] to
    [3 << (USBASP_ISP_SCK_32 - option)], a shift count that is 6 less the
    distance of the tier from the slowest one; the delay grows strictly as
    the tier decreases. *)
Theorem ispSetSCKOption_transport_and_delay :
  forall option s,
    (USBASP_ISP_SCK_93_75 <= option ->
       ispTransmit (ispSetSCKOption option s) = ispTransmit_hw) /\
    (USBASP_ISP_SCK_0_5 <= option < USBASP_ISP_SCK_93_75 ->
       ispTransmit (ispSetSCKOption option s) = ispTransmit_sw /\
       sck_sw_delay (ispSetSCKOption option s)
         = Z.shiftl 3 (USBASP_ISP_SCK_32 - option) /\
       USBASP_ISP_SCK_32 - option = 6 - (option - USBASP_ISP_SCK_0_5)) /\
    (forall slower,
       USBASP_ISP_SCK_0_5 <= slower < option ->
       option < USBASP_ISP_SCK_93_75 ->
       sck_sw_delay (ispSetSCKOption option s)
         < sck_sw_delay (ispSetSCKOption slower s)).
Proof.
  intros option s. split; [|split].
  - intro H. apply ispSetSCKOption_hw, H.
  - intro H. destruct (ispSetSCKOption_sw option s H) as [Ht Hd].
    repeat split; try assumption.
    unfold USBASP_ISP_SCK_32, USBASP_ISP_SCK_0_5. lia.
  - intros slower Hs Ho.
    assert (H1 : (USBASP_ISP_SCK_0_5 <= option) /\ (option < USBASP_ISP_SCK_93_75))
      by (unfold USBASP_ISP_SCK_0_5 in *; lia).
    assert (H2 : (USBASP_ISP_SCK_0_5 <= slower) /\ (slower < USBASP_ISP_SCK_93_75))
      by lia.
    destruct (ispSetSCKOption_sw option s H1) as [_ ->].
    destruct (ispSetSCKOption_sw slower s H2) as [_ ->].
    destruct (software_tier_cases option H1) as [E|[E|[E|[E|[E|[E|E]]]]]];
      destruct (software_tier_cases slower H2) as [F|[F|[F|[F|[F|[F|F]]]]]];
      subst option slower; try lia; reflexivity.
Qed.

(** ** Fixed waits, EEPROM *)

(** C5.  [ispWriteFlash] with data [0x7F] and polling requested sends its
    write command, waits [clockWait(15)] and returns 0 without reading back;
    with [pollmode] 0 it returns 0 right after the write command, with no
    wait and no readback.  Neither path enters the polling loop: no fuel is
    needed. *)
Theorem ispWriteFlash_fixed_wait_and_no_poll :
  forall fuel address s,
    let s1 := ispUpdateExtended address s in
    let command r0 r1 r2 r3 data :=
      [Tx (ispTransmit s) (u8 (Z.lor 0x40 (Z.shiftl (Z.land address 1) 3))) r0;
       Tx (ispTransmit s) (u8 (Z.shiftr address 9)) r1;
       Tx (ispTransmit s) (u8 (Z.shiftr address 1)) r2;
       Tx (ispTransmit s) data r3] in
    (forall pollmode, pollmode <> 0 ->
       exists r0 r1 r2 r3,
         fst (ispWriteFlash fuel address 0x7F pollmode s) = Some 0 /\
         extends_by s1 (snd (ispWriteFlash fuel address 0x7F pollmode s))
                    (command r0 r1 r2 r3 0x7F ++ [Wait 15])) /\
    (forall data,
       exists r0 r1 r2 r3,
         fst (ispWriteFlash fuel address data 0 s) = Some 0 /\
         extends_by s1 (snd (ispWriteFlash fuel address data 0 s))
                    (command r0 r1 r2 r3 (u8 data))).
Proof.
  intros fuel address s s1 command. split.
  - intros pollmode Hp.
    destruct (ispWriteFlash_command 0 address 0x7F s)
      as (r0 & r1 & r2 & r3 & w & Hw & Hx & _).
    rewrite ispWriteFlash_unfold. cbv zeta. rewrite Hw. cbn [snd].
    apply Z.eqb_neq in Hp. rewrite Hp. change (127 =? 127) with true. cbv iota.
    exists r0, r1, r2, r3. split; [reflexivity|].
    cbn [snd]. eapply extends_trans; [exact Hx | apply clockWait_extends].
  - intro data.
    destruct (ispWriteFlash_command fuel address data s)
      as (r0 & r1 & r2 & r3 & w & Hw & Hx & _).
    rewrite Hw. exists r0, r1, r2, r3. split; [reflexivity | exact Hx].
Qed.

Lemma ispReadEEPROM_extends : forall address s,
  exists r0 r1 r2,
    extends_by s (snd (ispReadEEPROM address s))
      [Tx (ispTransmit s) 0xA0 r0;
       Tx (ispTransmit s) (u8 (Z.shiftr address 8)) r1;
       Tx (ispTransmit s) (u8 address) r2;
       Tx (ispTransmit s) 0 (fst (ispReadEEPROM address s))] /\
    isp_hiaddr (snd (ispReadEEPROM address s)) = isp_hiaddr s /\
    0 <= fst (ispReadEEPROM address s) < 256.
Proof.
  intros address s. unfold ispReadEEPROM.
  repeat step_transmit. last_transmit.
  exists r, r0, r1. split; [|split; [congruence | assumption]].
  unfold extends_by.
  rewrite Tt2, Tt1, Tt0, Tt, ?Tf1, ?Tf0, ?Tf, <- !app_assoc. reflexivity.
Qed.

Lemma ispWriteEEPROM_extends : forall address data s,
  exists r0 r1 r2 r3,
    extends_by s (snd (ispWriteEEPROM address data s))
      [Tx (ispTransmit s) 0xC0 r0;
       Tx (ispTransmit s) (u8 (Z.shiftr address 8)) r1;
       Tx (ispTransmit s) (u8 address) r2;
       Tx (ispTransmit s) (u8 data) r3;
       Wait 30] /\
    isp_hiaddr (snd (ispWriteEEPROM address data s)) = isp_hiaddr s /\
    fst (ispWriteEEPROM address data s) = 0.
Proof.
  intros address data s. unfold ispWriteEEPROM.
  repeat step_transmit.
  exists r, r0, r1, r2. cbn [fst snd].
  split; [|split; [cbn [clockWait isp_hiaddr]; congruence | reflexivity]].
  unfold extends_by. cbn [clockWait trace].
  rewrite Tt2, Tt1, Tt0, Tt, ?Tf1, ?Tf0, ?Tf, <- !app_assoc. reflexivity.
Qed.

(** ** The result domain *)

Lemma poll_flash_result : forall fuel address busy retries starttime s,
  match fst (poll_flash fuel address busy retries starttime s) with
  | Some v => v = 0 \/ v = 1
  | None => True
  end.
Proof.
  induction fuel as [|fuel IH]; intros address busy retries starttime s.
  - exact I.
  - rewrite poll_flash_S. destruct (retries =? 0); [right; reflexivity|].
    cbv zeta. destruct (fst (ispReadFlash address s) =? busy).
    + destruct (_ >? _); apply IH.
    + left; reflexivity.
Qed.

(** The state in which the handshake at the current tier starts. *)
Lemma speed_ladder_S : forall fuel s,
  speed_ladder (S fuel) s =
  if prog_sck s >=? USBASP_ISP_SCK_0_5 then
    let s0 := if transmit_fn_eqb (ispTransmit s) ispTransmit_hw
              then spiHWenable s else s in
    let r := handshake_tries 3 (ispTransmit s) s0 in
    if fst r then (Some 0, snd r)
    else
      let s1 := set_prog_sck (u8 (prog_sck (spiHWdisable (snd r)) - 1))
                             (spiHWdisable (snd r)) in
      speed_ladder fuel (ispSetSCKOption (prog_sck s1) s1)
  else (Some 1, s).
Proof.
  intros fuel s.
  change (speed_ladder (S fuel) s) with
    (if prog_sck s >=? USBASP_ISP_SCK_0_5 then
       let spiTx := ispTransmit s in
       let s0 := if transmit_fn_eqb (ispTransmit s) ispTransmit_hw
                 then spiHWenable s else s in
       let (entered, s') := handshake_tries 3 spiTx s0 in
       if entered then (Some 0, s')
       else
         let s1 := spiHWdisable s' in
         let s2 := set_prog_sck (u8 (prog_sck s1 - 1)) s1 in
         speed_ladder fuel (ispSetSCKOption (prog_sck s2) s2)
     else (Some 1, s)).
  destruct (prog_sck s >=? USBASP_ISP_SCK_0_5); [|reflexivity].
  cbv zeta.
  destruct (handshake_tries 3 (ispTransmit s) _) as [entered s'].
  reflexivity.
Qed.

Lemma speed_ladder_result : forall fuel s,
  match fst (speed_ladder fuel s) with
  | Some v => v = 0 \/ v = 1
  | None => True
  end.
Proof.
  induction fuel as [|fuel IH]; intro s.
  - exact I.
  - rewrite speed_ladder_S.
    destruct (prog_sck s >=? USBASP_ISP_SCK_0_5); [|right; reflexivity].
    cbv zeta. destruct (fst (handshake_tries 3 _ _)).
    + left; reflexivity.
    + apply IH.
Qed.

Lemma run_result_domain : forall fuel o s, result_domain o (fst (run fuel o s)).
Proof.
  intros fuel o s. destruct o; unfold run; try exact I.
  - pose proof (speed_ladder_result fuel
      (if prog_sck s =? 0 then set_prog_sck USBASP_ISP_SCK_1500 s else s)) as H.
    unfold ispEnterProgrammingMode.
    destruct (speed_ladder fuel _) as [[v|] s']; cbn [fst] in H; exact H.
  - pose proof (ispReadFlash_byte address s) as H.
    destruct (ispReadFlash address s) as [b s']. exact H.
  - pose proof (ispWriteFlash_unfold fuel address data pollmode s) as E.
    cbv zeta in E. rewrite E. clear E.
    destruct (pollmode =? 0); [left; reflexivity|].
    destruct (data =? 127); [left; reflexivity|].
    match goal with |- context [poll_flash ?f ?a ?b ?r ?st ?w] =>
      pose proof (poll_flash_result f a b r st w) as H;
      destruct (poll_flash f a b r st w) as [[v|] s'] end; cbn [fst] in H; exact H.
  - destruct (ispFlushPage_command address s)
      as (r0 & r1 & r2 & r3 & w & _ & Hw & _).
    rewrite Hw. destruct (pollvalue =? 255); [left; reflexivity|].
    pose proof (poll_flash_result fuel address 255 30 (TIMERVALUE w) w) as H.
    destruct (poll_flash fuel address 255 30 (TIMERVALUE w) w) as [[v|] s'];
      cbn [fst] in H; exact H.
  - destruct (ispReadEEPROM_extends address s) as (r0 & r1 & r2 & _ & _ & H).
    destruct (ispReadEEPROM address s) as [b s']. exact H.
  - destruct (ispWriteEEPROM_extends address data s) as (r0 & r1 & r2 & r3 & _ & _ & H).
    destruct (ispWriteEEPROM address data s) as [b s']. left. exact H.
Qed.

(** C8.  For a 16-bit address and a data byte, [ispWriteEEPROM] sends
    [0xC0], the high and the low byte of the address and the data, waits
    [clockWait(30)] and returns 0; and every operation returns 0 or 1, or,
    for a read, a byte. *)
Theorem ispWriteEEPROM_always_succeeds :
  forall address data s,
    0 <= address < 65536 ->
    0 <= data < 256 ->
    (exists r0 r1 r2 r3,
       fst (ispWriteEEPROM address data s) = 0 /\
       extends_by s (snd (ispWriteEEPROM address data s))
         [Tx (ispTransmit s) 0xC0 r0;
          Tx (ispTransmit s) (address / 256) r1;
          Tx (ispTransmit s) (address mod 256) r2;
          Tx (ispTransmit s) data r3;
          Wait 30]) /\
    (forall fuel o s', result_domain o (fst (run fuel o s'))).
Proof.
  intros address data s Ha Hd. split; [|apply run_result_domain].
  destruct (ispWriteEEPROM_extends address data s) as (r0 & r1 & r2 & r3 & Hx & _ & Hr).
  exists r0, r1, r2, r3. split; [exact Hr|].
  rewrite (u8_small data Hd) in Hx.
  replace (u8 (Z.shiftr address 8)) with (address / 256) in Hx.
  - exact Hx.
  - rewrite Z.shiftr_div_pow2 by lia. change (2 ^ 8) with 256.
    symmetry. apply u8_small. split.
    + apply Z.div_pos; lia.
    + apply Z.div_lt_upper_bound; lia.
Qed.

(** ** Disconnecting *)

Lemma clear_lines_idem : forall x m,
  u8 (Z.land (u8 (Z.land x (Z.lnot m))) (Z.lnot m)) = u8 (Z.land x (Z.lnot m)).
Proof.
  intros x m. rewrite !u8_land. apply Z.bits_inj'. intros n Hn.
  rewrite !Z.land_spec.
  destruct (Z.testbit x n), (Z.testbit (Z.lnot m) n), (Z.testbit 255 n); reflexivity.
Qed.

(** C9.  [ispDisconnect] is idempotent: a second call right after a first
    one leaves the direction and output registers of the control lines and
    the SPI control register as the first call left them (it writes the
    same values again), and changes nothing else; the SPI peripheral is
    disabled whatever its state was. *)
Theorem ispDisconnect_idempotent :
  forall s,
    let d1 := ispDisconnect s in
    let d2 := ispDisconnect d1 in
    ISP_DDR d2 = ISP_DDR d1 /\
    ISP_OUT d2 = ISP_OUT d1 /\
    SPCR d2 = SPCR d1 /\
    SPCR d1 = 0 /\
    SPSR d2 = SPSR d1 /\
    ispTransmit d2 = ispTransmit d1 /\
    sck_sw_delay d2 = sck_sw_delay d1 /\
    isp_hiaddr d2 = isp_hiaddr d1 /\
    prog_sck d2 = prog_sck d1 /\
    ticks d2 = ticks d1 /\
    extends_by d1 d2 [Ddr (ISP_DDR d1); Out (ISP_OUT d1)].
Proof.
  intros s d1 d2. subst d1 d2. unfold ispDisconnect, spiHWdisable, extends_by.
  cbn [set_SPCR set_ISP_OUT set_ISP_DDR ISP_DDR ISP_OUT SPCR SPSR ispTransmit
       sck_sw_delay isp_hiaddr prog_sck ticks trace].
  rewrite !clear_lines_idem. rewrite <- !app_assoc.
  repeat split; reflexivity.
Qed.

(** ** EEPROM operations and the addressing tracker *)

Lemma plain_commands_app : forall l1 l2,
  plain_commands l1 -> plain_commands l2 -> plain_commands (l1 ++ l2).
Proof.
  fix IH 1. intros l1 l2 H1 H2.
  destruct l1 as [|c [|b1 [|b2 [|b3 rest]]]]; try contradiction.
  - exact H2.
  - destruct H1 as [Hc Hr]. split; [exact Hc|]. apply IH; assumption.
Qed.

Lemma eeprom_op_step : forall fuel o s,
  is_eeprom_op o ->
  exists d,
    extends_by s (snd (run fuel o s)) d /\
    plain_commands (sent d) /\
    isp_hiaddr (snd (run fuel o s)) = isp_hiaddr s.
Proof.
  intros fuel o s Ho. destruct o; try contradiction; unfold run.
  - destruct (ispReadEEPROM_extends address s) as (r0 & r1 & r2 & Hx & Hh & _).
    destruct (ispReadEEPROM address s) as [b s']. cbn [fst snd] in *.
    eexists. split; [exact Hx|]. split; [|exact Hh].
    cbn. split; [discriminate | exact I].
  - destruct (ispWriteEEPROM_extends address data s) as (r0 & r1 & r2 & r3 & Hx & Hh & _).
    destruct (ispWriteEEPROM address data s) as [b s']. cbn [fst snd] in *.
    eexists. split; [exact Hx|]. split; [|exact Hh].
    cbn. split; [discriminate | exact I].
Qed.

Lemma eeprom_ops_steps : forall fuel os s,
  Forall is_eeprom_op os ->
  exists d,
    extends_by s (run_all fuel os s) d /\
    plain_commands (sent d) /\
    isp_hiaddr (run_all fuel os s) = isp_hiaddr s.
Proof.
  intros fuel os. induction os as [|o os IH]; intros s H.
  - exists []. split; [apply extends_refl|]. split; [exact I | reflexivity].
  - inversion H as [|? ? Ho Hos]; subst.
    destruct (eeprom_op_step fuel o s Ho) as (d1 & Hx1 & Hp1 & Hh1).
    destruct (IH (snd (run fuel o s)) Hos) as (d2 & Hx2 & Hp2 & Hh2).
    exists (d1 ++ d2). cbn [run_all].
    split; [eapply extends_trans; eassumption|].
    split.
    + rewrite sent_app. apply plain_commands_app; assumption.
    + congruence.
Qed.

(** What [ispUpdateExtended] sends depends on the state through
    [isp_hiaddr] only. *)
Lemma ispUpdateExtended_sent : forall address s,
  sent (since s (ispUpdateExtended address s)) =
  if isp_hiaddr s =? u8 (Z.shiftr address 17) then []
  else [0x4D; 0x00; u8 (Z.shiftr address 17); 0x00].
Proof.
  intros address s.
  destruct (isp_hiaddr s =? u8 (Z.shiftr address 17)) eqn:E.
  - apply Z.eqb_eq in E. rewrite (ispUpdateExtended_same _ _ E).
    rewrite (since_extends _ _ _ (extends_refl s)). reflexivity.
  - apply Z.eqb_neq in E.
    destruct (ispUpdateExtended_changed _ _ E) as (r0 & r1 & r2 & r3 & Hu).
    rewrite (since_extends _ _ _ Hu). reflexivity.
Qed.

(** C10.  [ispReadEEPROM] and [ispWriteEEPROM] leave [isp_hiaddr] unchanged
    and send one command each, whose opcode is [0xA0] or [0xC0], never the
    load-extended-address opcode; after any number of EEPROM operations the
    cache is what it was, the link saw no load-extended-address command,
    and [ispUpdateExtended] sends and caches what it would have without
    them. *)
Theorem eeprom_bypasses_addressing_tracker :
  forall address data s,
    isp_hiaddr (snd (ispReadEEPROM address s)) = isp_hiaddr s /\
    isp_hiaddr (snd (ispWriteEEPROM address data s)) = isp_hiaddr s /\
    sent (since s (snd (ispReadEEPROM address s)))
      = [0xA0; u8 (Z.shiftr address 8); u8 address; 0x00] /\
    sent (since s (snd (ispWriteEEPROM address data s)))
      = [0xC0; u8 (Z.shiftr address 8); u8 address; u8 data] /\
    (forall fuel os,
       Forall is_eeprom_op os ->
       let s' := run_all fuel os s in
       isp_hiaddr s' = isp_hiaddr s /\
       extends_by s s' (since s s') /\
       plain_commands (sent (since s s')) /\
       forall flash_address,
         sent (since s' (ispUpdateExtended flash_address s'))
           = sent (since s (ispUpdateExtended flash_address s)) /\
         isp_hiaddr (ispUpdateExtended flash_address s')
           = isp_hiaddr (ispUpdateExtended flash_address s)).
Proof.
  intros address data s.
  destruct (ispReadEEPROM_extends address s) as (r0 & r1 & r2 & Hr & Hrh & _).
  destruct (ispWriteEEPROM_extends address data s) as (w0 & w1 & w2 & w3 & Hw & Hwh & _).
  split; [exact Hrh|]. split; [exact Hwh|].
  split; [rewrite (since_extends _ _ _ Hr); reflexivity|].
  split; [rewrite (since_extends _ _ _ Hw); reflexivity|].
  intros fuel os Hos s'.
  destruct (eeprom_ops_steps fuel os s Hos) as (d & Hx & Hp & Hh). fold s' in Hx, Hh.
  split; [exact Hh|].
  split; [eapply extends_since; exact Hx|].
  split; [rewrite (since_extends _ _ _ Hx); exact Hp|].
  intro flash_address.
  rewrite !ispUpdateExtended_sent, !ispUpdateExtended_hiaddr, Hh.
  split; reflexivity.
Qed.

(** ** The invariant of the addressing tracker *)

Lemma last_extended_app : forall l1 l2 acc k,
  length l1 = (4 * k)%nat ->
  last_extended acc (l1 ++ l2) = last_extended (last_extended acc l1) l2.
Proof.
  fix IH 1. intros l1 l2 acc k Hk.
  destruct l1 as [|c [|b1 [|b2 [|b3 rest]]]]; try (simpl in Hk; lia).
  - reflexivity.
  - destruct k as [|k]; [simpl in Hk; lia|].
    cbn [app last_extended]. apply (IH rest l2 _ k). simpl in Hk. lia.
Qed.

Lemma last_extended_plain : forall l acc,
  plain_commands l ->
  last_extended acc l = acc /\ exists k, length l = (4 * k)%nat.
Proof.
  fix IH 1. intros l acc H.
  destruct l as [|c [|b1 [|b2 [|b3 rest]]]]; try contradiction.
  - split; [reflexivity | exists 0%nat; reflexivity].
  - destruct H as [Hc Hr]. destruct (IH rest acc Hr) as [E [k Hk]].
    cbn [last_extended]. apply Z.eqb_neq in Hc. rewrite Hc.
    split; [exact E|]. exists (S k). simpl. lia.
Qed.

Lemma tracked_refl : forall s, tracked_step s s.
Proof.
  intro s. exists []. split; [apply extends_refl|].
  split; [exists 0%nat; reflexivity | reflexivity].
Qed.

Lemma tracked_trans : forall s1 s2 s3,
  tracked_step s1 s2 -> tracked_step s2 s3 -> tracked_step s1 s3.
Proof.
  intros s1 s2 s3 (d1 & Hx1 & [k1 Hk1] & Hh1) (d2 & Hx2 & [k2 Hk2] & Hh2).
  exists (d1 ++ d2). split; [eapply extends_trans; eassumption|].
  rewrite sent_app. split.
  - exists (k1 + k2)%nat. rewrite length_app. lia.
  - rewrite (last_extended_app _ _ _ _ Hk1). congruence.
Qed.

(** A step that sends nothing and leaves the cache alone. *)
Lemma tracked_silent : forall s s' d,
  extends_by s s' d -> sent d = [] -> isp_hiaddr s' = isp_hiaddr s ->
  tracked_step s s'.
Proof.
  intros s s' d Hx Hs Hh. exists d. split; [exact Hx|]. rewrite Hs.
  split; [exists 0%nat; reflexivity | exact Hh].
Qed.

(** A step that sends commands other than load-extended-address and leaves
    the cache alone. *)
Lemma tracked_plain : forall s s' d,
  extends_by s s' d -> plain_commands (sent d) -> isp_hiaddr s' = isp_hiaddr s ->
  tracked_step s s'.
Proof.
  intros s s' d Hx Hp Hh. exists d. split; [exact Hx|].
  destruct (last_extended_plain (sent d) (isp_hiaddr s) Hp) as [E Hk].
  split; [exact Hk | congruence].
Qed.

Lemma ispUpdateExtended_tracked : forall address s,
  tracked_step s (ispUpdateExtended address s).
Proof.
  intros address s.
  destruct (Z.eq_dec (isp_hiaddr s) (u8 (Z.shiftr address 17))) as [E|E].
  - rewrite (ispUpdateExtended_same _ _ E). apply tracked_refl.
  - destruct (ispUpdateExtended_changed _ _ E) as (r0 & r1 & r2 & r3 & Hu).
    eexists. split; [exact Hu|]. split; [exists 1%nat; reflexivity|].
    rewrite ispUpdateExtended_hiaddr. reflexivity.
Qed.

Lemma low_bit_cases : forall a, Z.land a 1 = 0 \/ Z.land a 1 = 1.
Proof.
  intro a. assert (E : Z.land a 1 = a mod 2).
  { apply (Z.land_ones a 1). lia. }
  rewrite E. pose proof (Z.mod_pos_bound a 2). lia.
Qed.

Lemma ispReadFlash_tracked : forall address s,
  tracked_step s (snd (ispReadFlash address s)).
Proof.
  intros address s.
  eapply tracked_trans; [apply ispUpdateExtended_tracked|].
  destruct (ispReadFlash_extends address s) as (r0 & r1 & r2 & Hr).
  eapply tracked_plain; [exact Hr | |].
  - cbn [sent plain_commands]. split; [|exact I].
    destruct (low_bit_cases address) as [E|E]; rewrite E; discriminate.
  - rewrite ispReadFlash_hiaddr, ispUpdateExtended_hiaddr. reflexivity.
Qed.

Lemma poll_flash_tracked : forall fuel address busy retries starttime s,
  tracked_step s (snd (poll_flash fuel address busy retries starttime s)).
Proof.
  induction fuel as [|fuel IH]; intros address busy retries starttime s.
  - apply tracked_refl.
  - rewrite poll_flash_S. destruct (retries =? 0); [apply tracked_refl|].
    cbv zeta. pose proof (ispReadFlash_tracked address s) as H.
    destruct (fst (ispReadFlash address s) =? busy); [|exact H].
    destruct (_ >? _); (eapply tracked_trans; [exact H | apply IH]).
Qed.

Lemma clockWait_tracked : forall n s, tracked_step s (clockWait n s).
Proof.
  intros n s. eapply tracked_silent; [apply clockWait_extends | |]; reflexivity.
Qed.

Lemma ispWriteFlash_tracked : forall fuel address data pollmode s,
  tracked_step s (snd (ispWriteFlash fuel address data pollmode s)).
Proof.
  intros fuel address data pollmode s.
  assert (Hw : tracked_step s (snd (ispWriteFlash 0 address data 0 s))).
  { eapply tracked_trans; [apply ispUpdateExtended_tracked|].
    destruct (ispWriteFlash_command 0 address data s)
      as (r0 & r1 & r2 & r3 & w & Hw & Hx & Hh & _).
    rewrite Hw. cbn [snd]. eapply tracked_plain; [exact Hx | |].
    - cbn [sent plain_commands]. split; [|exact I].
      destruct (low_bit_cases address) as [E|E]; rewrite E; discriminate.
    - rewrite Hh, ispUpdateExtended_hiaddr. reflexivity. }
  rewrite ispWriteFlash_unfold. cbv zeta.
  destruct (pollmode =? 0); [exact Hw|].
  destruct (data =? 127).
  - eapply tracked_trans; [exact Hw | apply clockWait_tracked].
  - eapply tracked_trans; [exact Hw | apply poll_flash_tracked].
Qed.

Lemma ispFlushPage_tracked : forall fuel address pollvalue s,
  tracked_step s (snd (ispFlushPage fuel address pollvalue s)).
Proof.
  intros fuel address pollvalue s.
  destruct (ispFlushPage_command address s)
    as (r0 & r1 & r2 & r3 & w & _ & Hw & Hx & Hh & _).
  assert (Ht : tracked_step s w).
  { eapply tracked_trans; [apply ispUpdateExtended_tracked|].
    eapply tracked_plain; [exact Hx | |].
    - cbn [sent plain_commands]. split; [discriminate | exact I].
    - rewrite Hh, ispUpdateExtended_hiaddr. reflexivity. }
  rewrite Hw. destruct (pollvalue =? 255).
  - eapply tracked_trans; [exact Ht | apply clockWait_tracked].
  - eapply tracked_trans; [exact Ht | apply poll_flash_tracked].
Qed.

(** ** The handshake *)

Lemma ispSetSCKOption_frame : forall option s,
  trace (ispSetSCKOption option s) = trace s /\
  isp_hiaddr (ispSetSCKOption option s) = isp_hiaddr s /\
  prog_sck (ispSetSCKOption option s) = prog_sck s /\
  ISP_OUT (ispSetSCKOption option s) = ISP_OUT s /\
  ISP_DDR (ispSetSCKOption option s) = ISP_DDR s /\
  ticks (ispSetSCKOption option s) = ticks s.
Proof.
  intros option s. unfold ispSetSCKOption.
  repeat match goal with
         | |- context [if ?c then _ else _] => destruct c
         end; repeat split; reflexivity.
Qed.

Lemma speed_bump_frame : forall s,
  trace (speed_bump s) = trace s /\
  isp_hiaddr (speed_bump s) = isp_hiaddr s /\
  prog_sck (speed_bump s) = prog_sck s /\
  ISP_OUT (speed_bump s) = ISP_OUT s.
Proof.
  intro s. unfold speed_bump. destruct DANGEROUS_MODE; [|repeat split; reflexivity].
  destruct (ispSetSCKOption_frame (u8 (prog_sck (spiHWdisable s) + 1)) (spiHWdisable s))
    as (Ht & Hh & Hp & Ho & _).
  destruct (transmit_fn_eqb _ _); cbn [spiHWenable set_SPCR trace isp_hiaddr prog_sck ISP_OUT];
    rewrite Ht, Hh, Hp, Ho; repeat split; reflexivity.
Qed.

Lemma same_config_refl : forall s, same_config s s.
Proof. intro s. unfold same_config. repeat split; reflexivity. Qed.

Lemma same_config_trans : forall s1 s2 s3,
  same_config s1 s2 -> same_config s2 s3 -> same_config s1 s3.
Proof.
  unfold same_config. intros s1 s2 s3 (A1 & A2 & A3 & A4 & A5 & A6)
    (B1 & B2 & B3 & B4 & B5 & B6).
  repeat split; congruence.
Qed.

Lemma transmit_same_config : forall f b s, same_config s (snd (transmit f b s)).
Proof. intros f b s. unfold transmit, same_config. repeat split; reflexivity. Qed.

Lemma handshake_try_same_config : forall spiTx s,
  same_config s (snd (handshake_try spiTx s)).
Proof.
  intros spiTx s. unfold handshake_try.
  match goal with
  | |- context [transmit spiTx 172 ?p] =>
      assert (P : same_config s p)
        by (unfold same_config; repeat split; reflexivity);
      generalize dependent p
  end.
  intros p P.
  repeat match goal with
         | |- context [let (_, _) := transmit ?f ?b ?s0 in _] =>
             let C := fresh "C" in
             pose proof (transmit_same_config f b s0) as C;
             destruct (transmit f b s0) as [? ?]; cbn [snd] in C
         end.
  cbn [snd]. repeat (eapply same_config_trans; [eassumption|]).
  apply same_config_refl.
Qed.

Lemma handshake_try_spec : forall spiTx s,
  exists r0 r1 r3,
    extends_by s (snd (handshake_try spiTx s))
      (attempt_events spiTx (ISP_OUT s) r0 r1 (fst (handshake_try spiTx s)) r3) /\
    isp_hiaddr (snd (handshake_try spiTx s)) = isp_hiaddr s /\
    prog_sck (snd (handshake_try spiTx s)) = prog_sck s /\
    ispTransmit (snd (handshake_try spiTx s)) = ispTransmit s /\
    ISP_OUT (snd (handshake_try spiTx s)) = after_attempt spiTx (ISP_OUT s).
Proof.
  intros spiTx s. unfold handshake_try.
  set (p := clockWait 62
              (set_ISP_OUT
                 (u8 (Z.land
                        (ISP_OUT (clockWait 1
                           (set_ISP_OUT (u8 (Z.lor (ISP_OUT s) (Z.shiftl 1 ISP_RST))) s)))
                        (Z.lnot (Z.shiftl 1 ISP_RST))))
                 (clockWait 1
                    (set_ISP_OUT (u8 (Z.lor (ISP_OUT s) (Z.shiftl 1 ISP_RST))) s)))).
  assert (P : trace p = trace s
                ++ [Out (u8 (Z.lor (ISP_OUT s) (Z.shiftl 1 ISP_RST))); Wait 1;
                    Out (after_pulse (ISP_OUT s)); Wait 62] /\
              isp_hiaddr p = isp_hiaddr s /\ prog_sck p = prog_sck s /\
              ispTransmit p = ispTransmit s /\
              ISP_OUT p = after_pulse (ISP_OUT s)).
  { unfold p, after_pulse. cbn [clockWait set_ISP_OUT trace isp_hiaddr prog_sck
      ispTransmit ISP_OUT]. rewrite <- !app_assoc. repeat split; reflexivity. }
  destruct P as (Pt & Ph & Pp & Pf & Po).
  repeat step_transmit. cbn [fst snd].
  exists r, r0, r2. unfold extends_by, attempt_events. cbv zeta.
  fold (after_pulse (ISP_OUT s)).
  rewrite Tt2, Tt1, Tt0, Tt, Pt, <- !app_assoc.
  split; [reflexivity|]. split; [congruence|]. split; [congruence|].
  split; [congruence|].
  rewrite To2, To1, To0, To, Po. unfold after_attempt. destruct spiTx; reflexivity.
Qed.

(** ** Runs of attempts *)

Lemma attempts_events_cons : forall out a l,
  attempts_events out (a :: l)
  = attempt_events (at_via a) out (at_r0 a) (at_r1 a) (at_check a) (at_r3 a)
    ++ attempts_events (after_attempt (at_via a) out) l.
Proof. reflexivity. Qed.

Lemma out_after_cons : forall out a l,
  out_after out (a :: l) = out_after (after_attempt (at_via a) out) l.
Proof. reflexivity. Qed.

Lemma attempts_events_app : forall l1 l2 out,
  attempts_events out (l1 ++ l2)
  = attempts_events out l1 ++ attempts_events (out_after out l1) l2.
Proof.
  induction l1 as [|a l1 IH]; intros l2 out; [reflexivity|].
  rewrite <- app_comm_cons, !attempts_events_cons, out_after_cons, IH, app_assoc.
  reflexivity.
Qed.

Lemma out_after_app : forall l1 l2 out,
  out_after out (l1 ++ l2) = out_after (out_after out l1) l2.
Proof.
  induction l1 as [|a l1 IH]; intros l2 out; [reflexivity|].
  rewrite <- app_comm_cons, !out_after_cons, IH. reflexivity.
Qed.

(** An attempt of a run is an attempt of every longer run. *)
Lemma made_in_run_prefix : forall s l1 l2 i a,
  (i <= length l1)%nat -> made_in_run s l1 i a -> made_in_run s (l1 ++ l2) i a.
Proof.
  intros s l1 l2 i a Hi H. unfold made_in_run in *.
  rewrite firstn_app. replace (i - length l1)%nat with 0%nat by lia.
  cbn [firstn]. rewrite app_nil_r. exact H.
Qed.

(** The attempts of a run that began where another run ended are attempts
    of the two runs taken together. *)
Lemma made_in_run_suffix : forall s s1 l1 l2 j a,
  trace s1 = trace s ++ attempts_events (ISP_OUT s) l1 ->
  ISP_OUT s1 = out_after (ISP_OUT s) l1 ->
  made_in_run s1 l2 j a -> made_in_run s (l1 ++ l2) (length l1 + j) a.
Proof.
  intros s s1 l1 l2 j a Ht Ho (H1 & H2 & H3 & H4 & H5). unfold made_in_run.
  rewrite firstn_app, firstn_all2 by lia.
  replace (length l1 + j - length l1)%nat with j by lia.
  rewrite attempts_events_app, out_after_app, app_assoc, <- Ht, <- Ho.
  repeat split; assumption.
Qed.

(** The same run seen from a state with the same trace and port. *)
Lemma made_in_run_from : forall s0 s l i a,
  trace s0 = trace s -> ISP_OUT s0 = ISP_OUT s ->
  made_in_run s0 l i a -> made_in_run s l i a.
Proof.
  intros s0 s l i a Ht Ho H. unfold made_in_run in *. rewrite <- Ht, <- Ho. exact H.
Qed.

(** One pass of the [do ... while (--tries)] loop. *)
Lemma handshake_tries_S : forall n spiTx s,
  handshake_tries (S n) spiTx s =
  if fst (handshake_try spiTx s) =? 0x53
  then (true, speed_bump (snd (handshake_try spiTx s)))
  else match n with
       | O => (false, snd (handshake_try spiTx s))
       | S _ => handshake_tries n spiTx (snd (handshake_try spiTx s))
       end.
Proof.
  intros n spiTx s.
  change (handshake_tries (S n) spiTx s) with
    (let (check, s1) := handshake_try spiTx s in
     if check =? 0x53 then (true, speed_bump s1)
     else match n with
          | O => (false, s1)
          | S _ => handshake_tries n spiTx s1
          end).
  destruct (handshake_try spiTx s) as [c s1]. reflexivity.
Qed.

(** The first attempt of a run is made in the state the run begins in. *)
Lemma first_attempt_made : forall spiTx s r0 r1 r3 l,
  ispTransmit s = spiTx ->
  made_in_run s
    (mkAttempt (prog_sck s) spiTx s r0 r1 (fst (handshake_try spiTx s)) r3 :: l) 0
    (mkAttempt (prog_sck s) spiTx s r0 r1 (fst (handshake_try spiTx s)) r3).
Proof.
  intros spiTx s r0 r1 r3 l Hv. unfold made_in_run.
  cbn [firstn at_state at_tier at_via at_check].
  change (attempts_events (ISP_OUT s) []) with (@nil event).
  change (out_after (ISP_OUT s) []) with (ISP_OUT s).
  rewrite app_nil_r. repeat split; try reflexivity. exact Hv.
Qed.

(** The attempts at one tier: at most [S n] of them, each made in the
    configuration the first one found, the last one the only one that can
    succeed, all of them failed when the loop falls through. *)
Lemma handshake_tries_spec : forall n spiTx s,
  ispTransmit s = spiTx ->
  exists l,
    extends_by s (snd (handshake_tries (S n) spiTx s))
               (attempts_events (ISP_OUT s) l) /\
    (1 <= length l <= S n)%nat /\
    (forall i a, nth_error l i = Some a ->
       at_tier a = prog_sck s /\
       at_via a = spiTx /\
       same_config s (at_state a) /\
       made_in_run s l i a /\
       (at_check a = 0x53 -> S i = length l)) /\
    (fst (handshake_tries (S n) spiTx s) = true <->
     exists a, In a l /\ at_check a = 0x53) /\
    (fst (handshake_tries (S n) spiTx s) = false ->
     length l = S n /\
     ispTransmit (snd (handshake_tries (S n) spiTx s)) = ispTransmit s) /\
    isp_hiaddr (snd (handshake_tries (S n) spiTx s)) = isp_hiaddr s /\
    prog_sck (snd (handshake_tries (S n) spiTx s)) = prog_sck s /\
    ISP_OUT (snd (handshake_tries (S n) spiTx s)) = out_after (ISP_OUT s) l.
Proof.
  induction n as [|n IH]; intros spiTx s Hv;
    destruct (handshake_try_spec spiTx s) as (r0 & r1 & r3 & Hx & Hh & Hp & Ht & Ho);
    pose proof (handshake_try_same_config spiTx s) as Hc;
    rewrite handshake_tries_S;
    pose proof (first_attempt_made spiTx s r0 r1 r3) as Hm;
    set (c := fst (handshake_try spiTx s)) in *;
    set (s1 := snd (handshake_try spiTx s)) in *;
    set (a0 := mkAttempt (prog_sck s) spiTx s r0 r1 c r3) in *;
    assert (He : attempts_events (ISP_OUT s) [a0]
                 = attempt_events spiTx (ISP_OUT s) r0 r1 c r3)
      by (rewrite attempts_events_cons; apply app_nil_r);
    assert (Hou : out_after (ISP_OUT s) [a0] = after_attempt spiTx (ISP_OUT s))
      by reflexivity;
    assert (H1 : forall i a, nth_error [a0] i = Some a ->
              at_tier a = prog_sck s /\ at_via a = spiTx /\
              same_config s (at_state a) /\ made_in_run s [a0] i a /\
              (at_check a = 0x53 -> S i = length [a0]))
      by (intros [|[|i]] a Hn; cbn in Hn; try discriminate; injection Hn as <-;
          split; [reflexivity|]; split; [reflexivity|];
          split; [apply same_config_refl|]; split; [apply Hm, Hv | reflexivity]);
    destruct (c =? 83) eqn:Ec.
  - (* success at the only attempt *)
    destruct (speed_bump_frame s1) as (Bt & Bh & Bp & Bo).
    exists [a0]. cbn [fst snd]. rewrite He, Hou.
    split; [unfold extends_by in *; rewrite Bt; exact Hx|].
    split; [cbn; lia|].
    split; [exact H1|].
    split; [split; [intros _; exists a0; split; [left; reflexivity | now apply Z.eqb_eq] | reflexivity]|].
    split; [discriminate|].
    rewrite Bh, Bp, Bo. repeat split; assumption.
  - (* the only attempt fails *)
    exists [a0]. cbn [fst snd]. rewrite He, Hou.
    split; [exact Hx|].
    split; [cbn; lia|].
    split; [exact H1|].
    split.
    { split; [discriminate|]. intros (a & [<-|[]] & Ha). cbn in Ha.
      apply Z.eqb_neq in Ec. contradiction. }
    split; [intros _; split; [reflexivity | exact Ht]|].
    repeat split; assumption.
  - (* success at the first of several attempts *)
    destruct (speed_bump_frame s1) as (Bt & Bh & Bp & Bo).
    exists [a0]. cbn [fst snd]. rewrite He, Hou.
    split; [unfold extends_by in *; rewrite Bt; exact Hx|].
    split; [cbn; lia|].
    split; [exact H1|].
    split; [split; [intros _; exists a0; split; [left; reflexivity | now apply Z.eqb_eq] | reflexivity]|].
    split; [discriminate|].
    rewrite Bh, Bp, Bo. repeat split; assumption.
  - (* the first attempt fails, the loop goes on *)
    assert (Hv1 : ispTransmit s1 = spiTx) by congruence.
    destruct (IH spiTx s1 Hv1) as (l & Lx & Ll & La & Ls & Lf & Lh & Lp & Lo).
    assert (T1 : trace s1 = trace s ++ attempts_events (ISP_OUT s) [a0])
      by (rewrite He; exact Hx).
    assert (O1 : ISP_OUT s1 = out_after (ISP_OUT s) [a0])
      by (rewrite Hou; exact Ho).
    exists (a0 :: l).
    split.
    { rewrite attempts_events_cons. cbn [at_via at_r0 at_r1 at_check at_r3 a0].
      eapply extends_trans; [exact Hx|]. rewrite <- Ho. exact Lx. }
    split; [cbn [length]; lia|].
    split.
    { intros [|i] a Hn; cbn [nth_error] in Hn.
      - injection Hn as <-.
        split; [reflexivity|]. split; [reflexivity|].
        split; [apply same_config_refl|]. split; [apply Hm, Hv|].
        intro Ha. cbn in Ha. apply Z.eqb_neq in Ec. contradiction.
      - destruct (La i a Hn) as (E1 & E2 & E3 & E4 & E5).
        split; [congruence|]. split; [exact E2|].
        split; [eapply same_config_trans; [exact Hc | exact E3]|].
        split; [apply (made_in_run_suffix s s1 [a0] l i a T1 O1 E4)|].
        intro Ha. cbn [length]. f_equal. apply E5, Ha. }
    split.
    { rewrite Ls. split.
      - intros (a & Ha & Hk). exists a. split; [right; exact Ha | exact Hk].
      - intros (a & [<-|Ha] & Hk).
        + cbn in Hk. apply Z.eqb_neq in Ec. contradiction.
        + exists a. split; assumption. }
    split.
    { intro Hf. destruct (Lf Hf) as [E1 E2]. split; [cbn [length]; lia | congruence]. }
    rewrite Lh, Lp, Lo, Ho, out_after_cons. repeat split; assumption.
Qed.

Lemma ispSetSCKOption_transport : forall option s,
  USBASP_ISP_SCK_0_5 <= option ->
  ispTransmit (ispSetSCKOption option s) = transport_of_tier option.
Proof.
  intros option s H. unfold transport_of_tier.
  destruct (option >=? USBASP_ISP_SCK_93_75) eqn:E.
  - apply ispSetSCKOption_hw. apply Z.geb_le in E. exact E.
  - apply ispSetSCKOption_sw. rewrite Z.geb_leb in E. apply Z.leb_gt in E. lia.
Qed.

(** ** The configuration of the attempts *)

(** The attempts at the tier [ispEnterProgrammingMode] is entered with. *)
Lemma entry_config_of_tries : forall s st,
  same_config
    (if transmit_fn_eqb (ispTransmit s) ispTransmit_hw then spiHWenable s else s) st ->
  entry_config s st.
Proof.
  intros s st. unfold entry_config, same_config.
  destruct (ispTransmit s) eqn:E;
    cbn [transmit_fn_eqb spiHWenable set_SPCR sck_sw_delay ispTransmit SPCR SPSR];
    intros (C1 & C2 & C3 & C4 & _); repeat split; congruence.
Qed.

(** The SPI registers [ispSetSCKOption] writes for a hardware tier, the
    peripheral enabled. *)
Lemma hardware_tier_clock : forall tier s,
  USBASP_ISP_SCK_93_75 <= tier ->
  Z.testbit (u8 (Z.lor (SPCR (ispSetSCKOption tier s))
                       (Z.lor (Z.shiftl 1 SPE) (Z.shiftl 1 MSTR)))) SPE = true /\
  Z.testbit (u8 (Z.lor (SPCR (ispSetSCKOption tier s))
                       (Z.lor (Z.shiftl 1 SPE) (Z.shiftl 1 MSTR)))) MSTR = true /\
  spi_divider (u8 (Z.lor (SPCR (ispSetSCKOption tier s))
                         (Z.lor (Z.shiftl 1 SPE) (Z.shiftl 1 MSTR))))
              (SPSR (ispSetSCKOption tier s))
  = (if tier <=? USBASP_ISP_SCK_3000
     then Z.shiftl 4 (USBASP_ISP_SCK_3000 - tier) else 8).
Proof.
  intros tier s H.
  destruct (Z.le_gt_cases tier USBASP_ISP_SCK_3000) as [Hle|Hgt].
  - assert (C : tier = 8 \/ tier = 9 \/ tier = 10 \/ tier = 11 \/ tier = 12 \/ tier = 13)
      by (unfold USBASP_ISP_SCK_93_75, USBASP_ISP_SCK_3000 in *; lia).
    destruct C as [E|[E|[E|[E|[E|E]]]]]; subst tier; repeat split; reflexivity.
  - assert (E : SPCR (ispSetSCKOption tier s) = Z.shiftl 1 SPR0 /\
                SPSR (ispSetSCKOption tier s) = Z.shiftl 1 SPI2X).
    { unfold ispSetSCKOption.
      assert (E0 : (tier =? USBASP_ISP_SCK_AUTO) = false)
        by (apply Z.eqb_neq; unfold USBASP_ISP_SCK_AUTO, USBASP_ISP_SCK_3000 in *; lia).
      assert (E1 : (tier >=? USBASP_ISP_SCK_93_75) = true) by (apply Z.geb_le; exact H).
      rewrite E0, E1.
      repeat match goal with
             | |- context [if ?c =? ?d then _ else _] =>
                 let E := fresh "E" in
                 destruct (c =? d) eqn:E;
                 [apply Z.eqb_eq in E;
                  unfold USBASP_ISP_SCK_3000, USBASP_ISP_SCK_750, USBASP_ISP_SCK_375,
                    USBASP_ISP_SCK_187_5, USBASP_ISP_SCK_93_75 in *; lia|]
             end.
      split; reflexivity. }
    destruct E as [Ec Es]. rewrite Ec, Es.
    assert (G : (tier <=? USBASP_ISP_SCK_3000) = false) by (apply Z.leb_gt; exact Hgt).
    rewrite G. repeat split; reflexivity.
Qed.

(** A software tier leaves the SPI registers alone. *)
Lemma software_tier_SPCR : forall tier s,
  USBASP_ISP_SCK_0_5 <= tier < USBASP_ISP_SCK_93_75 ->
  SPCR (ispSetSCKOption tier s) = SPCR s.
Proof.
  intros tier s H.
  destruct (software_tier_cases tier H) as [E|[E|[E|[E|[E|[E|E]]]]]];
    subst tier; reflexivity.
Qed.

(** The attempts at a tier the ladder stepped down to: [ispSetSCKOption]
    was called for the tier with the SPI peripheral switched off. *)
Lemma step_down_config : forall tier s1 st,
  USBASP_ISP_SCK_0_5 <= tier ->
  SPCR s1 = 0 ->
  entry_config (ispSetSCKOption tier s1) st ->
  tier_config tier st.
Proof.
  intros tier s1 st Ht H0 (Ev & Ed & Es & Ec). unfold tier_config.
  destruct (tier >=? USBASP_ISP_SCK_93_75) eqn:G.
  - apply Z.geb_le in G.
    destruct (ispSetSCKOption_hw tier s1 G) as [Tv Td].
    destruct (hardware_tier_clock tier s1 G) as (B1 & B2 & B3).
    rewrite Tv in Ev, Ec. rewrite Td in Ed. rewrite Ec, Es.
    repeat split; assumption.
  - rewrite Z.geb_leb in G. apply Z.leb_gt in G.
    destruct (ispSetSCKOption_sw tier s1 ltac:(lia)) as [Tv Td].
    rewrite Tv in Ev, Ec. rewrite Td in Ed.
    rewrite software_tier_SPCR, H0 in Ec by lia.
    repeat split; assumption.
Qed.

(** ** The ladder *)

(** The whole ladder, from the tier [prog_sck s] down. *)
Lemma speed_ladder_spec : forall n s,
  prog_sck s = Z.of_nat n ->
  (n < 256)%nat ->
  exists r s' l,
    (forall fuel, (n < fuel)%nat -> speed_ladder fuel s = (Some r, s')) /\
    extends_by s s' (attempts_events (ISP_OUT s) l) /\
    (forall i a, nth_error l i = Some a ->
       at_tier a = prog_sck s - Z.of_nat (i / 3) /\
       USBASP_ISP_SCK_0_5 <= at_tier a /\
       made_in_run s l i a /\
       (if (i <? 3)%nat then entry_config s (at_state a)
        else tier_config (at_tier a) (at_state a)) /\
       (at_check a = 0x53 -> S i = length l)) /\
    (r = 0 <-> exists a, In a l /\ at_check a = 0x53) /\
    (r = 1 -> length l = (3 * n)%nat /\ prog_sck s' = 0) /\
    (r = 0 \/ r = 1) /\
    isp_hiaddr s' = isp_hiaddr s.
Proof.
  induction n as [|m IH]; intros s Hp Hn.
  - (* prog_sck is 0: the loop is not entered *)
    exists 1, s, [].
    split.
    { intros [|fuel] Hf; [lia|]. rewrite speed_ladder_S, Hp. reflexivity. }
    split; [apply extends_refl|].
    split; [intros [|i] a Hi; discriminate|].
    split; [split; [discriminate | intros (a & [] & _)]|].
    split; [intros _; split; [reflexivity | exact Hp]|].
    split; [right; reflexivity | reflexivity].
  - (* one tier, then the rest of the ladder *)
    set (s0 := if transmit_fn_eqb (ispTransmit s) ispTransmit_hw
               then spiHWenable s else s).
    assert (F0 : trace s0 = trace s /\ isp_hiaddr s0 = isp_hiaddr s /\
                 prog_sck s0 = prog_sck s /\ ISP_OUT s0 = ISP_OUT s /\
                 ispTransmit s0 = ispTransmit s)
      by (unfold s0; destruct (transmit_fn_eqb _ _); repeat split; reflexivity).
    destruct F0 as (F0t & F0h & F0p & F0o & F0v).
    destruct (handshake_tries_spec 2 (ispTransmit s) s0 F0v)
      as (l1 & Lx & Ll & La & Ls & Lf & Lh & Lp & Lo).
    set (r1 := handshake_tries 3 (ispTransmit s) s0) in *.
    assert (Hge : (prog_sck s >=? USBASP_ISP_SCK_0_5) = true)
      by (apply Z.geb_le; unfold USBASP_ISP_SCK_0_5; lia).
    assert (Lx' : extends_by s (snd r1) (attempts_events (ISP_OUT s) l1))
      by (unfold extends_by in *; rewrite <- F0t, <- F0o; exact Lx).
    (* the attempts at this tier *)
    assert (A1 : forall i a, nth_error l1 i = Some a ->
              (i < 3)%nat /\
              at_tier a = prog_sck s /\
              made_in_run s l1 i a /\
              entry_config s (at_state a) /\
              (at_check a = 0x53 -> S i = length l1)).
    { intros i a Hi.
      assert (Hlt : (i < length l1)%nat) by (apply nth_error_Some; congruence).
      destruct (La i a Hi) as (E1 & E2 & E3 & E4 & E5).
      split; [lia|]. split; [congruence|].
      split; [exact (made_in_run_from s0 s l1 i a F0t F0o E4)|].
      split; [apply entry_config_of_tries; exact E3 | exact E5]. }
    destruct (fst r1) eqn:Er.
    + (* programming mode entered at this tier *)
      exists 0, (snd r1), l1.
      split.
      { intros [|fuel] Hf; [lia|]. rewrite speed_ladder_S, Hge. cbv zeta.
        fold s0. fold r1. rewrite Er. reflexivity. }
      split; [exact Lx'|].
      split.
      { intros i a Hi. destruct (A1 i a Hi) as (B0 & B1 & B2 & B3 & B4).
        rewrite Nat.div_small by lia.
        assert (Hi3 : (i <? 3)%nat = true) by (apply Nat.ltb_lt; lia).
        rewrite Hi3, B1, Z.sub_0_r.
        split; [reflexivity|]. split; [unfold USBASP_ISP_SCK_0_5; lia|].
        split; [exact B2|]. split; [exact B3 | exact B4]. }
      split; [split; [intros _; apply Ls; reflexivity | reflexivity]|].
      split; [discriminate|].
      split; [left; reflexivity | congruence].
    + (* three failures: step down *)
      destruct (Lf eq_refl) as [Hl3 Ltr].
      set (s1 := set_prog_sck (u8 (prog_sck (spiHWdisable (snd r1)) - 1))
                              (spiHWdisable (snd r1))).
      set (s2 := ispSetSCKOption (prog_sck s1) s1).
      assert (P1 : prog_sck s1 = Z.of_nat m).
      { unfold s1. cbn [set_prog_sck prog_sck spiHWdisable set_SPCR].
        rewrite Lp, F0p, Hp. rewrite u8_small by lia. lia. }
      assert (C1 : SPCR s1 = 0) by reflexivity.
      destruct (ispSetSCKOption_frame (prog_sck s1) s1) as (Ft & Fh & Fp & Fo & _).
      fold s2 in Ft, Fh, Fp, Fo.
      assert (T2 : trace s2 = trace s ++ attempts_events (ISP_OUT s) l1)
        by (rewrite Ft; exact Lx').
      assert (H2 : isp_hiaddr s2 = isp_hiaddr s)
        by (rewrite Fh; unfold s1; cbn [set_prog_sck isp_hiaddr spiHWdisable set_SPCR];
            congruence).
      assert (O2 : ISP_OUT s2 = out_after (ISP_OUT s) l1)
        by (rewrite Fo; unfold s1; cbn [set_prog_sck ISP_OUT spiHWdisable set_SPCR];
            congruence).
      assert (P2 : prog_sck s2 = Z.of_nat m) by congruence.
      destruct (IH s2 P2 ltac:(lia)) as (r & s' & l2 & Rf & Rx & Rn & Rs & Rr & Rd & Rh).
      exists r, s', (l1 ++ l2).
      split.
      { intros [|fuel] Hf; [lia|]. rewrite speed_ladder_S, Hge. cbv zeta.
        fold s0. fold r1. rewrite Er. fold s1. fold s2. apply Rf. lia. }
      split.
      { rewrite attempts_events_app. eapply extends_trans; [exact Lx'|].
        unfold extends_by in *. rewrite <- O2, Rx, Ft. reflexivity. }
      split.
      { intros i a Hi.
        destruct (Nat.lt_ge_cases i (length l1)) as [Hlt|Hgeq].
        - rewrite nth_error_app1 in Hi by exact Hlt.
          destruct (A1 i a Hi) as (B0 & B1 & B2 & B3 & B4).
          rewrite Nat.div_small by lia.
          assert (Hi3 : (i <? 3)%nat = true) by (apply Nat.ltb_lt; lia).
          rewrite Hi3, B1, Z.sub_0_r.
          split; [reflexivity|]. split; [unfold USBASP_ISP_SCK_0_5; lia|].
          split; [apply made_in_run_prefix; [lia | exact B2]|].
          split; [exact B3|].
          intro Hc. exfalso.
          assert (Hf : false = true)
            by (apply Ls; exists a; split; [eapply nth_error_In; eassumption | exact Hc]).
          discriminate.
        - rewrite nth_error_app2 in Hi by exact Hgeq. rewrite Hl3 in Hi.
          destruct (Rn _ _ Hi) as (E1 & E2 & E3 & E4 & E5).
          assert (Hdiv : (i / 3 = S ((i - 3) / 3))%nat).
          { replace i with (1 * 3 + (i - 3))%nat at 1 by lia.
            rewrite Nat.div_add_l by lia. reflexivity. }
          assert (Hi3 : (i <? 3)%nat = false) by (apply Nat.ltb_ge; lia).
          rewrite Hi3, Hdiv.
          split; [rewrite E1, P2, Hp; lia|].
          split; [exact E2|].
          split.
          { replace i with (length l1 + (i - 3))%nat by lia.
            exact (made_in_run_suffix s s2 l1 l2 (i - 3) a T2 O2 E3). }
          split.
          { destruct (i - 3 <? 3)%nat eqn:Ej; [|exact E4].
            apply Nat.ltb_lt in Ej. rewrite Nat.div_small in E1 by exact Ej.
            rewrite Z.sub_0_r, Fp in E1. rewrite E1 in E2 |- *.
            exact (step_down_config (prog_sck s1) s1 (at_state a) E2 C1 E4). }
          intro Hc. rewrite length_app, Hl3. specialize (E5 Hc). lia. }
      split.
      { rewrite Rs. split.
        - intros (a & Ha & Hc). exists a. split; [apply in_or_app; right; exact Ha | exact Hc].
        - intros (a & Ha & Hc). apply in_app_or in Ha. destruct Ha as [Ha|Ha].
          + exfalso.
            assert (Hf : false = true) by (apply Ls; exists a; split; assumption).
            discriminate.
          + exists a. split; assumption. }
      split.
      { intro H1. destruct (Rr H1) as [E1 E2]. split; [|exact E2].
        rewrite length_app, Hl3, E1. lia. }
      split; [exact Rd | congruence].
Qed.

(** C3.  [ispEnterProgrammingMode] returns, with 0 or 1.  What it did on
    the link is a run of handshake attempts, each one a reset pulse from the
    level the attempt before left in [ISP_OUT], the settle wait and the
    bytes [0xAC, 0x53, 0x00, 0x00].  Attempt [i] is made at tier
    [tier0 - i / 3], three attempts to a tier, from the tier [tier0] the
    function was entered with down to [USBASP_ISP_SCK_0_5] at most.  The
    three attempts at [tier0] are made in the configuration found on entry,
    with the SPI peripheral enabled when the transport is the hardware one;
    the attempts at every tier below are made in the configuration of that
    tier: over the hardware transport with the SPI divider of the tier, or
    over the software transport with the bit delay of the tier.  The echo
    of an attempt is what the target answers to its third byte in that
    state.  The result is 0 exactly when some attempt read the echo [0x53],
    and that attempt is the last one; it is 1 only after [3 * tier0] failed
    attempts, with [prog_sck] run down to 0. *)
Theorem ispEnterProgrammingMode_ladder :
  forall s,
    0 <= prog_sck s < 256 ->
    let tier0 := if prog_sck s =? 0 then USBASP_ISP_SCK_1500 else prog_sck s in
    exists r s' l,
      (forall fuel, (Z.to_nat tier0 < fuel)%nat ->
         ispEnterProgrammingMode fuel s = (Some r, s')) /\
      extends_by s s' (attempts_events (ISP_OUT s) l) /\
      (forall i a, nth_error l i = Some a ->
         at_tier a = tier0 - Z.of_nat (i / 3) /\
         USBASP_ISP_SCK_0_5 <= at_tier a /\
         at_via a = (if (i <? 3)%nat then ispTransmit s
                     else transport_of_tier (at_tier a)) /\
         made_in_run s l i a /\
         (if (i <? 3)%nat then entry_config s (at_state a)
          else tier_config (at_tier a) (at_state a)) /\
         (at_check a = 0x53 -> S i = length l)) /\
      (r = 0 <-> exists a, In a l /\ at_check a = 0x53) /\
      (r = 1 -> length l = (3 * Z.to_nat tier0)%nat /\ prog_sck s' = 0) /\
      (r = 0 \/ r = 1).
Proof.
  intros s Hs tier0.
  set (s0 := if prog_sck s =? 0 then set_prog_sck USBASP_ISP_SCK_1500 s else s).
  assert (F : trace s0 = trace s /\ ISP_OUT s0 = ISP_OUT s /\
              ispTransmit s0 = ispTransmit s /\ prog_sck s0 = tier0 /\
              sck_sw_delay s0 = sck_sw_delay s /\ SPCR s0 = SPCR s /\
              SPSR s0 = SPSR s)
    by (unfold s0, tier0; destruct (prog_sck s =? 0); repeat split; reflexivity).
  destruct F as (Ft & Fo & Fv & Fp & Fd & Fc & Fs).
  assert (Hn : 0 <= tier0 < 256).
  { unfold tier0. destruct (prog_sck s =? 0); [|exact Hs].
    unfold USBASP_ISP_SCK_1500. lia. }
  destruct (speed_ladder_spec (Z.to_nat tier0) s0) as
    (r & s' & l & Rf & Rx & Rn & Rs & Rr & Rd & _).
  { rewrite Fp. lia. }
  { lia. }
  exists r, s', l.
  split; [intros fuel Hf; unfold ispEnterProgrammingMode; fold s0; apply Rf, Hf|].
  split; [unfold extends_by in *; rewrite <- Ft, <- Fo; exact Rx|].
  split.
  { intros i a Hi. destruct (Rn i a Hi) as (E1 & E2 & E3 & E4 & E5).
    pose proof (made_in_run_from s0 s l i a Ft Fo E3) as M.
    rewrite Fp in E1.
    split; [exact E1|]. split; [exact E2|].
    destruct (i <? 3)%nat.
    - destruct E4 as (C1 & C2 & C3 & C4).
      rewrite Fv in C1, C4. rewrite Fd in C2. rewrite Fs in C3. rewrite Fc in C4.
      split; [destruct M as (_ & M2 & _); congruence|].
      split; [exact M|]. split; [|exact E5].
      unfold entry_config. repeat split; assumption.
    - split; [|split; [exact M|split; [exact E4 | exact E5]]].
      destruct M as (_ & M2 & _). rewrite <- M2.
      unfold tier_config, transport_of_tier in *.
      destruct (at_tier a >=? USBASP_ISP_SCK_93_75); apply E4. }
  split; [exact Rs|]. split; [exact Rr | exact Rd].
Qed.

(** ** Every operation but [ispConnect] keeps the tracker in step *)

Lemma handshake_try_tracked : forall spiTx s,
  tracked_step s (snd (handshake_try spiTx s)).
Proof.
  intros spiTx s.
  destruct (handshake_try_spec spiTx s) as (r0 & r1 & r3 & Hx & Hh & _).
  eapply tracked_plain; [exact Hx | | exact Hh].
  cbn. split; [discriminate | exact I].
Qed.

Lemma speed_bump_tracked : forall s, tracked_step s (speed_bump s).
Proof.
  intro s. destruct (speed_bump_frame s) as (Bt & Bh & _).
  eapply (tracked_silent _ _ []); [|reflexivity | exact Bh].
  unfold extends_by. rewrite Bt, app_nil_r. reflexivity.
Qed.

Lemma handshake_tries_tracked : forall n spiTx s,
  tracked_step s (snd (handshake_tries n spiTx s)).
Proof.
  induction n as [|n IH]; intros spiTx s; [apply tracked_refl|].
  rewrite handshake_tries_S.
  pose proof (handshake_try_tracked spiTx s) as H.
  destruct (_ =? 83).
  - eapply tracked_trans; [exact H | apply speed_bump_tracked].
  - destruct n; [exact H|]. eapply tracked_trans; [exact H | apply IH].
Qed.

(** A change of configuration: nothing on the link, the cache untouched. *)
Lemma tracked_config : forall s s',
  trace s' = trace s -> isp_hiaddr s' = isp_hiaddr s -> tracked_step s s'.
Proof.
  intros s s' Ht Hh. eapply (tracked_silent _ _ []); [|reflexivity | exact Hh].
  unfold extends_by. rewrite Ht, app_nil_r. reflexivity.
Qed.

Lemma ispSetSCKOption_tracked : forall option s,
  tracked_step s (ispSetSCKOption option s).
Proof.
  intros option s. destruct (ispSetSCKOption_frame option s) as (Ht & Hh & _).
  apply tracked_config; assumption.
Qed.

Lemma speed_ladder_tracked : forall fuel s, tracked_step s (snd (speed_ladder fuel s)).
Proof.
  induction fuel as [|fuel IH]; intro s; [apply tracked_refl|].
  rewrite speed_ladder_S.
  destruct (prog_sck s >=? USBASP_ISP_SCK_0_5); [|apply tracked_refl].
  cbv zeta.
  set (s0 := if transmit_fn_eqb (ispTransmit s) ispTransmit_hw
             then spiHWenable s else s).
  assert (H0 : tracked_step s s0)
    by (unfold s0; destruct (transmit_fn_eqb _ _);
        [apply tracked_config; reflexivity | apply tracked_refl]).
  pose proof (handshake_tries_tracked 3 (ispTransmit s) s0) as H1.
  pose proof (tracked_trans _ _ _ H0 H1) as H.
  destruct (fst (handshake_tries 3 (ispTransmit s) s0)); [exact H|].
  eapply tracked_trans; [exact H|].
  eapply tracked_trans; [|apply IH].
  eapply tracked_trans; [|apply ispSetSCKOption_tracked].
  apply tracked_config; reflexivity.
Qed.

Lemma run_tracked : forall fuel o s,
  o <> OpConnect -> tracked_step s (snd (run fuel o s)).
Proof.
  intros fuel o s Ho. destruct o; unfold run.
  - apply ispSetSCKOption_tracked.
  - contradiction.
  - cbn [snd].
    eapply (tracked_silent _ _ [Ddr _; Out _]); [|reflexivity|reflexivity].
    unfold extends_by, ispDisconnect, spiHWdisable.
    cbn [set_SPCR set_ISP_OUT set_ISP_DDR trace]. rewrite <- app_assoc. reflexivity.
  - unfold ispEnterProgrammingMode.
    set (s0 := if prog_sck s =? 0 then set_prog_sck USBASP_ISP_SCK_1500 s else s).
    assert (H0 : tracked_step s s0)
      by (unfold s0; destruct (prog_sck s =? 0);
          [apply tracked_config; reflexivity | apply tracked_refl]).
    pose proof (speed_ladder_tracked fuel s0) as H.
    destruct (speed_ladder fuel s0) as [r s']. cbn [snd] in *.
    eapply tracked_trans; eassumption.
  - pose proof (ispReadFlash_tracked address s) as H.
    destruct (ispReadFlash address s) as [b s']. exact H.
  - pose proof (ispWriteFlash_tracked fuel address data pollmode s) as H.
    destruct (ispWriteFlash fuel address data pollmode s) as [r s']. exact H.
  - pose proof (ispFlushPage_tracked fuel address pollvalue s) as H.
    destruct (ispFlushPage fuel address pollvalue s) as [r s']. exact H.
  - destruct (eeprom_op_step fuel (OpReadEEPROM address) s I) as (d & Hx & Hp & Hh).
    eapply tracked_plain; eassumption.
  - destruct (eeprom_op_step fuel (OpWriteEEPROM address data) s I) as (d & Hx & Hp & Hh).
    eapply tracked_plain; eassumption.
Qed.

Lemma tracker_inv_connect : forall s,
  tracker_inv (length (trace (ispConnect s))) (ispConnect s).
Proof.
  intro s. unfold tracker_inv. rewrite skipn_all.
  split; [lia|]. split; [exists 0%nat; reflexivity | reflexivity].
Qed.

Lemma tracker_inv_step : forall n s s',
  tracker_inv n s -> tracked_step s s' -> tracker_inv n s'.
Proof.
  intros n s s' (Hn & [k Hk] & Hh) (d & Hx & [k' Hk'] & Hh').
  assert (E : sent (skipn n (trace s')) = sent (skipn n (trace s)) ++ sent d).
  { rewrite Hx, skipn_app, sent_app.
    replace (n - length (trace s))%nat with 0%nat by lia. reflexivity. }
  unfold tracker_inv.
  split; [rewrite Hx, length_app; lia|].
  split.
  - exists (k + k')%nat. rewrite E, length_app. lia.
  - rewrite E, (last_extended_app _ _ _ _ Hk). congruence.
Qed.

(** C6.  [ispConnect] establishes the invariant of the addressing tracker,
    every other operation preserves it, and so in every state reached after
    [ispConnect] the cache [isp_hiaddr] is the extended-address byte of the
    last load-extended-address command sent since, or [0xFF] when none
    was. *)
Theorem isp_hiaddr_is_last_extended_address_sent :
  (forall s, tracker_inv (length (trace (ispConnect s))) (ispConnect s)) /\
  (forall n s fuel o,
     o <> OpConnect -> tracker_inv n s -> tracker_inv n (snd (run fuel o s))) /\
  (forall n s,
     reachable n s ->
     isp_hiaddr s = last_extended 0xFF (sent (skipn n (trace s)))).
Proof.
  split; [exact tracker_inv_connect|].
  split.
  - intros n s fuel o Ho Hi. eapply tracker_inv_step; [exact Hi|].
    apply run_tracked, Ho.
  - intros n s H.
    assert (Hi : tracker_inv n s).
    { induction H as [s|n s fuel o H IH Ho].
      - apply tracker_inv_connect.
      - eapply tracker_inv_step; [exact IH | apply run_tracked, Ho]. }
    apply Hi.
Qed.

(** ** The automatic speed *)

Lemma tracked_extends : forall s s', tracked_step s s' -> exists d, extends_by s s' d.
Proof. intros s s' (d & Hx & _). exists d. exact Hx. Qed.

Lemma handshake_tries_after_first : forall n spiTx s,
  tracked_step (snd (handshake_try spiTx s)) (snd (handshake_tries (S n) spiTx s)).
Proof.
  intros n spiTx s. rewrite handshake_tries_S. destruct (_ =? 83).
  - apply speed_bump_tracked.
  - destruct n; [apply tracked_refl | apply handshake_tries_tracked].
Qed.

(** C7 (as amended).  [ispSetSCKOption] resolves the automatic request to
    [USBASP_ISP_SCK_1500] before it configures anything: hardware
    transport, divider 8.  [ispEnterProgrammingMode] entered with
    [prog_sck] 0 records [USBASP_ISP_SCK_1500] in [prog_sck] and goes on as
    if entered with it: it does not call [ispSetSCKOption], and its first
    handshake attempt is made over the transport, with the bit delay and
    the SPI clock bits, that were in place (the SPI peripheral enabled when
    that transport is the hardware one). *)
Theorem automatic_speed_is_tier_1500 :
  forall s,
    ispSetSCKOption USBASP_ISP_SCK_AUTO s = ispSetSCKOption USBASP_ISP_SCK_1500 s /\
    ispTransmit (ispSetSCKOption USBASP_ISP_SCK_AUTO s) = ispTransmit_hw /\
    SPCR (ispSetSCKOption USBASP_ISP_SCK_AUTO s) = Z.shiftl 1 SPR0 /\
    SPSR (ispSetSCKOption USBASP_ISP_SCK_AUTO s) = Z.shiftl 1 SPI2X /\
    (prog_sck s = 0 ->
     forall fuel,
       let s0 := set_prog_sck USBASP_ISP_SCK_1500 s in
       let s1 := if transmit_fn_eqb (ispTransmit s) ispTransmit_hw
                 then spiHWenable s0 else s0 in
       ispEnterProgrammingMode fuel s = speed_ladder fuel s0 /\
       exists rest,
         since s (snd (ispEnterProgrammingMode (S fuel) s))
         = since s1 (snd (handshake_try (ispTransmit s) s1)) ++ rest).
Proof.
  intro s. repeat (split; [reflexivity|]).
  intros Hp fuel s0 s1.
  assert (E : forall f, ispEnterProgrammingMode f s = speed_ladder f s0)
    by (intro f; unfold ispEnterProgrammingMode; rewrite Hp; reflexivity).
  split; [apply E|].
  rewrite E, speed_ladder_S.
  change (prog_sck s0 >=? USBASP_ISP_SCK_0_5) with true. cbv iota zeta.
  change (ispTransmit s0) with (ispTransmit s). fold s1.
  assert (T1 : trace s1 = trace s)
    by (unfold s1; destruct (transmit_fn_eqb _ _); reflexivity).
  destruct (handshake_try_spec (ispTransmit s) s1) as (r0 & r1 & r3 & Hx & _).
  pose proof (handshake_tries_after_first 2 (ispTransmit s) s1) as H1.
  set (r := handshake_tries 3 (ispTransmit s) s1) in *.
  assert (H : exists d, extends_by (snd (handshake_try (ispTransmit s) s1))
                (snd (if fst r then (Some 0, snd r)
                      else speed_ladder fuel
                             (ispSetSCKOption
                                (prog_sck (set_prog_sck (u8 (prog_sck (spiHWdisable (snd r)) - 1))
                                                        (spiHWdisable (snd r))))
                                (set_prog_sck (u8 (prog_sck (spiHWdisable (snd r)) - 1))
                                              (spiHWdisable (snd r)))))) d).
  { apply tracked_extends. destruct (fst r); [exact H1|].
    eapply tracked_trans; [exact H1|].
    eapply tracked_trans; [|apply speed_ladder_tracked].
    eapply tracked_trans; [|apply ispSetSCKOption_tracked].
    apply tracked_config; reflexivity. }
  destruct H as [d Hd]. exists d.
  pose proof (extends_trans _ _ _ _ _ Hx Hd) as Hall.
  rewrite (since_extends _ _ _ Hx).
  apply since_extends. unfold extends_by in *. rewrite <- T1. exact Hall.
Qed.

(** ** The polling loop against a target that stays busy *)

Lemma u8_sub : forall a b, u8 (u8 a - u8 b) = u8 (a - b).
Proof. intros a b. unfold u8. symmetry. apply Zminus_mod. Qed.

Section PollTimeout.

Variable address busy : Z.
Hypothesis Hbusy : always_busy address busy.
Hypothesis Hwin : readback_in_window address.

(** A pass of the loop that reads the busy value. *)
Lemma poll_pass_busy : forall fuel retries starttime s,
  retries <> 0 ->
  poll_flash (S fuel) address busy retries starttime s =
  if u8 (TIMERVALUE (snd (ispReadFlash address s)) - starttime) >? CLOCK_T_320us
  then poll_flash fuel address busy (u8 (retries - 1))
                  (TIMERVALUE (snd (ispReadFlash address s)))
                  (snd (ispReadFlash address s))
  else poll_flash fuel address busy retries starttime (snd (ispReadFlash address s)).
Proof.
  intros fuel retries starttime s Hr. rewrite poll_flash_S.
  apply Z.eqb_neq in Hr. rewrite Hr. cbv zeta.
  rewrite (Hbusy s), Z.eqb_refl. reflexivity.
Qed.

(** One timeout window: from a state [s] in a window that started at tick
    [now0] and has not expired, the loop goes on reading until it sees the
    window expired, more than [CLOCK_T_320us] and at most 255 ticks after
    [now0], and then takes one retry off. *)
Lemma poll_window : forall k retries now0 s,
  0 < retries < 256 ->
  0 <= ticks s - now0 <= CLOCK_T_320us ->
  CLOCK_T_320us + 1 - (ticks s - now0) <= Z.of_nat k ->
  exists n s1,
    (0 < n)%nat /\
    now0 + CLOCK_T_320us + 1 <= ticks s1 <= now0 + 255 /\
    (forall fuel,
       poll_flash (n + fuel) address busy retries (u8 now0) s
       = poll_flash fuel address busy (retries - 1) (TIMERVALUE s1) s1) /\
    (forall m, (m < n)%nat ->
       fst (poll_flash m address busy retries (u8 now0) s) = None).
Proof.
  induction k as [|k IH]; intros retries now0 s Hr He Hk.
  - unfold CLOCK_T_320us in *. lia.
  - pose proof (Hwin s) as Hd.
    set (s' := snd (ispReadFlash address s)) in *.
    assert (Hseen : u8 (TIMERVALUE s' - u8 now0) = ticks s' - now0).
    { unfold TIMERVALUE. rewrite u8_sub. apply u8_small.
      unfold CLOCK_T_320us in *. lia. }
    assert (Hr0 : retries <> 0) by lia.
    destruct (ticks s' - now0 >? CLOCK_T_320us) eqn:Ex.
    + (* the window is seen expired *)
      exists 1%nat, s'.
      split; [lia|].
      split; [apply Z.gtb_lt in Ex; unfold CLOCK_T_320us in *; lia|].
      split.
      * intro fuel. cbn [Nat.add]. rewrite (poll_pass_busy _ _ _ _ Hr0).
        fold s'. rewrite Hseen, Ex. rewrite u8_small by lia. reflexivity.
      * intros m Hm. replace m with 0%nat by lia. reflexivity.
    + (* not yet: another pass *)
      rewrite Z.gtb_ltb in Ex. apply Z.ltb_ge in Ex.
      destruct (IH retries now0 s' Hr) as (n & s1 & Hn & Ht & Hf & Hm).
      { unfold CLOCK_T_320us in *. lia. }
      { unfold CLOCK_T_320us in *. lia. }
      assert (Ex' : (ticks s' - now0 >? CLOCK_T_320us) = false)
        by (rewrite Z.gtb_ltb; apply Z.ltb_ge; exact Ex).
      exists (S n), s1.
      split; [lia|]. split; [exact Ht|]. split.
      * intro fuel. cbn [Nat.add]. rewrite (poll_pass_busy _ _ _ _ Hr0).
        fold s'. rewrite Hseen, Ex'. apply Hf.
      * intros [|m] Hlt; [reflexivity|].
        rewrite (poll_pass_busy _ _ _ _ Hr0). fold s'. rewrite Hseen, Ex'.
        apply Hm. lia.
Qed.

(** The whole budget: [retries] windows, then failure. *)
Lemma poll_budget : forall retries s,
  (retries < 256)%nat ->
  exists n s',
    (forall fuel, (n <= fuel)%nat ->
       poll_flash fuel address busy (Z.of_nat retries) (TIMERVALUE s) s = (Some 1, s')) /\
    (forall m, (m < n)%nat ->
       fst (poll_flash m address busy (Z.of_nat retries) (TIMERVALUE s) s) = None) /\
    ticks s + Z.of_nat retries * (CLOCK_T_320us + 1) <= ticks s'
      <= ticks s + Z.of_nat retries * 255.
Proof.
  induction retries as [|r IH]; intros s Hr.
  - exists 1%nat, s. split; [|split].
    + intros [|fuel] Hf; [lia|]. rewrite poll_flash_S. reflexivity.
    + intros m Hm. replace m with 0%nat by lia. reflexivity.
    + lia.
  - destruct (poll_window (Z.to_nat (CLOCK_T_320us + 1)) (Z.of_nat (S r)) (ticks s) s)
      as (n1 & s1 & Hn1 & Ht1 & Hf1 & Hm1).
    { lia. }
    { unfold CLOCK_T_320us. lia. }
    { unfold CLOCK_T_320us. lia. }
    destruct (IH s1) as (n2 & s' & Hf2 & Hm2 & Ht2); [lia|].
    replace (Z.of_nat (S r) - 1) with (Z.of_nat r) in Hf1 by lia.
    fold (TIMERVALUE s) in Hf1, Hm1.
    exists (n1 + n2)%nat, s'. split; [|split].
    + intros fuel Hf. replace fuel with (n1 + (fuel - n1))%nat by lia.
      rewrite Hf1. apply Hf2. lia.
    + intros m Hm. destruct (Nat.lt_ge_cases m n1) as [Hlt|Hge].
      * apply Hm1, Hlt.
      * replace m with (n1 + (m - n1))%nat by lia. rewrite Hf1. apply Hm2. lia.
    + unfold CLOCK_T_320us in *. lia.
Qed.

End PollTimeout.

(** Where the 8-bit comparison of the polling loop can see the time that
    passes, the budget is kept.  Let every readback of the address take at
    least one tick of the free-running counter and at most
    [255 - CLOCK_T_320us].  Then [ispWriteFlash] with polling requested and
    data other than [0x7F], against a target whose readback stays [0x7F],
    returns 1, and so does [ispFlushPage] with a poll value other than
    [0xFF] against a target whose readback stays [0xFF]: after exactly 30
    timeout windows, each longer than [CLOCK_T_320us] ticks and no longer
    than 255, counted from the state in which polling starts; with less
    fuel than that takes the call is still polling.  And a pass of the
    polling loop that reads anything but the busy value returns 0 at
    once. *)
Theorem poll_times_out_after_30_windows :
  forall address,
    readback_in_window address ->
    (forall data pollmode s,
       pollmode <> 0 -> data <> 0x7F -> always_busy address 0x7F ->
       let polling_from := snd (ispWriteFlash 0 address data pollmode s) in
       exists n s',
         (forall fuel, (n <= fuel)%nat ->
            ispWriteFlash fuel address data pollmode s = (Some 1, s')) /\
         (forall fuel, (fuel < n)%nat ->
            fst (ispWriteFlash fuel address data pollmode s) = None) /\
         30 * (CLOCK_T_320us + 1) <= ticks s' - ticks polling_from <= 30 * 255) /\
    (forall pollvalue s,
       pollvalue <> 0xFF -> always_busy address 0xFF ->
       let polling_from := snd (ispFlushPage 0 address pollvalue s) in
       exists n s',
         (forall fuel, (n <= fuel)%nat ->
            ispFlushPage fuel address pollvalue s = (Some 1, s')) /\
         (forall fuel, (fuel < n)%nat ->
            fst (ispFlushPage fuel address pollvalue s) = None) /\
         30 * (CLOCK_T_320us + 1) <= ticks s' - ticks polling_from <= 30 * 255) /\
    (forall fuel busy retries starttime s,
       retries <> 0 ->
       fst (ispReadFlash address s) <> busy ->
       poll_flash (S fuel) address busy retries starttime s
       = (Some 0, snd (ispReadFlash address s))).
Proof.
  intros address Hwin. split; [|split].
  - intros data pollmode s Hp Hd Hbusy polling_from.
    assert (E : forall fuel,
              ispWriteFlash fuel address data pollmode s
              = poll_flash fuel address 0x7F 30
                  (TIMERVALUE (snd (ispWriteFlash 0 address data 0 s)))
                  (snd (ispWriteFlash 0 address data 0 s))).
    { intro fuel. rewrite ispWriteFlash_unfold. cbv zeta.
      apply Z.eqb_neq in Hp, Hd. rewrite Hp, Hd. reflexivity. }
    assert (Ew : polling_from = snd (ispWriteFlash 0 address data 0 s))
      by (unfold polling_from; rewrite E; reflexivity).
    rewrite Ew.
    destruct (poll_budget address 0x7F Hbusy Hwin 30
                (snd (ispWriteFlash 0 address data 0 s)))
      as (n & s' & Hf & Hm & Ht); [lia|].
    exists n, s'. split; [|split].
    + intros fuel Hn. rewrite E. apply Hf, Hn.
    + intros fuel Hn. rewrite E. apply Hm, Hn.
    + unfold CLOCK_T_320us in *. lia.
  - intros pollvalue s Hp Hbusy polling_from.
    destruct (ispFlushPage_command address s)
      as (r0 & r1 & r2 & r3 & w & _ & Hw & _).
    assert (E : forall fuel,
              ispFlushPage fuel address pollvalue s
              = poll_flash fuel address 0xFF 30 (TIMERVALUE w) w).
    { intro fuel. rewrite Hw. apply Z.eqb_neq in Hp. rewrite Hp. reflexivity. }
    assert (Ew : polling_from = w) by (unfold polling_from; rewrite E; reflexivity).
    rewrite Ew.
    destruct (poll_budget address 0xFF Hbusy Hwin 30 w)
      as (n & s' & Hf & Hm & Ht); [lia|].
    exists n, s'. split; [|split].
    + intros fuel Hn. rewrite E. apply Hf, Hn.
    + intros fuel Hn. rewrite E. apply Hm, Hn.
    + unfold CLOCK_T_320us in *. lia.
  - intros fuel busy retries starttime s Hr Hb.
    rewrite poll_flash_S. apply Z.eqb_neq in Hr, Hb. rewrite Hr. cbv zeta.
    rewrite Hb. reflexivity.
Qed.

(** * Further properties of the engine *)

(** ** The clock dividers of the hardware tiers *)

(** X1.  For each of the six hardware tiers [ispSetSCKOption] writes the
    divider bits of the ratio its comments name: 4 for
    [USBASP_ISP_SCK_3000], doubling with each tier down to 128 for
    [USBASP_ISP_SCK_93_75]; the automatic request and every option above
    [USBASP_ISP_SCK_3000] get the ratio 8 of [USBASP_ISP_SCK_1500].  In all
    these cases [SPCR] is written without [SPE] and [MSTR]: the peripheral
    is left disabled, and [spiHWenable] afterwards sets the two bits and
    keeps the ratio. *)
Theorem ispSetSCKOption_divider :
  forall option s,
    (USBASP_ISP_SCK_93_75 <= option <= USBASP_ISP_SCK_3000 ->
       spi_divider (SPCR (ispSetSCKOption option s)) (SPSR (ispSetSCKOption option s))
       = Z.shiftl 4 (USBASP_ISP_SCK_3000 - option)) /\
    (option = USBASP_ISP_SCK_AUTO \/ USBASP_ISP_SCK_3000 < option ->
       spi_divider (SPCR (ispSetSCKOption option s)) (SPSR (ispSetSCKOption option s))
       = 8) /\
    (option = USBASP_ISP_SCK_AUTO \/ USBASP_ISP_SCK_93_75 <= option ->
       Z.testbit (SPCR (ispSetSCKOption option s)) SPE = false /\
       Z.testbit (SPCR (ispSetSCKOption option s)) MSTR = false /\
       Z.testbit (SPCR (spiHWenable (ispSetSCKOption option s))) SPE = true /\
       Z.testbit (SPCR (spiHWenable (ispSetSCKOption option s))) MSTR = true /\
       spi_divider (SPCR (spiHWenable (ispSetSCKOption option s)))
                   (SPSR (spiHWenable (ispSetSCKOption option s)))
       = spi_divider (SPCR (ispSetSCKOption option s))
                     (SPSR (ispSetSCKOption option s))).
Proof.
  intros option s.
  assert (Hw : USBASP_ISP_SCK_93_75 <= option <= USBASP_ISP_SCK_3000 ->
               option = 8 \/ option = 9 \/ option = 10 \/ option = 11 \/
               option = 12 \/ option = 13)
    by (unfold USBASP_ISP_SCK_93_75, USBASP_ISP_SCK_3000; lia).
  split; [|split].
  - intro H. destruct (Hw H) as [E|[E|[E|[E|[E|E]]]]]; subst option; reflexivity.
  - intros [E|H]; [subst option; reflexivity|].
    unfold ispSetSCKOption.
    assert (E0 : (option =? USBASP_ISP_SCK_AUTO) = false)
      by (apply Z.eqb_neq; unfold USBASP_ISP_SCK_AUTO, USBASP_ISP_SCK_3000 in *; lia).
    assert (E1 : (option >=? USBASP_ISP_SCK_93_75) = true)
      by (apply Z.geb_le; unfold USBASP_ISP_SCK_93_75, USBASP_ISP_SCK_3000 in *; lia).
    rewrite E0, E1.
    repeat match goal with
           | |- context [if ?c =? ?d then _ else _] =>
               let E := fresh "E" in
               destruct (c =? d) eqn:E;
               [apply Z.eqb_eq in E;
                unfold USBASP_ISP_SCK_3000, USBASP_ISP_SCK_750, USBASP_ISP_SCK_375,
                  USBASP_ISP_SCK_187_5, USBASP_ISP_SCK_93_75 in *; lia|]
           end.
    reflexivity.
  - intro H.
    assert (C : SPCR (ispSetSCKOption option s) = 0 \/
                SPCR (ispSetSCKOption option s) = 1 \/
                SPCR (ispSetSCKOption option s) = 2 \/
                SPCR (ispSetSCKOption option s) = 3).
    { unfold ispSetSCKOption.
      destruct (option =? USBASP_ISP_SCK_AUTO) eqn:E0.
      - right; left; reflexivity.
      - assert (E1 : (option >=? USBASP_ISP_SCK_93_75) = true).
        { apply Z.geb_le. apply Z.eqb_neq in E0.
          destruct H as [H|H]; [contradiction | exact H]. }
        rewrite E1.
        repeat match goal with
               | |- context [if ?c then _ else _] => destruct c
               end; cbn [SPCR set_SPCR]; auto. }
    unfold spiHWenable. cbn [SPCR SPSR set_SPCR].
    destruct C as [C|[C|[C|C]]]; rewrite C; repeat split; reflexivity.
Qed.

(** X2.  A call of [ispSetSCKOption] for a hardware tier (or the automatic
    request) determines the transport, the bit delay and both SPI registers
    whatever an earlier call had set: the last call wins.  A call for a
    software tier sets the transport and the bit delay and never writes the
    SPI registers: they stay as the earlier call left them. *)
Theorem ispSetSCKOption_last_call_wins :
  forall option earlier s,
    (option = USBASP_ISP_SCK_AUTO \/ USBASP_ISP_SCK_93_75 <= option ->
       ispSetSCKOption option (ispSetSCKOption earlier s) = ispSetSCKOption option s) /\
    (USBASP_ISP_SCK_0_5 <= option < USBASP_ISP_SCK_93_75 ->
       ispTransmit (ispSetSCKOption option (ispSetSCKOption earlier s))
         = ispTransmit_sw /\
       sck_sw_delay (ispSetSCKOption option (ispSetSCKOption earlier s))
         = Z.shiftl 3 (USBASP_ISP_SCK_32 - option) /\
       SPCR (ispSetSCKOption option (ispSetSCKOption earlier s))
         = SPCR (ispSetSCKOption earlier s) /\
       SPSR (ispSetSCKOption option (ispSetSCKOption earlier s))
         = SPSR (ispSetSCKOption earlier s)).
Proof.
  intros option earlier s. split.
  - intro H.
    assert (F : forall s1 s2,
              isp_hiaddr s1 = isp_hiaddr s2 -> prog_sck s1 = prog_sck s2 ->
              ISP_DDR s1 = ISP_DDR s2 -> ISP_OUT s1 = ISP_OUT s2 ->
              ticks s1 = ticks s2 -> trace s1 = trace s2 ->
              ispSetSCKOption option s1 = ispSetSCKOption option s2).
    { intros s1 s2 H1 H2 H3 H4 H5 H6.
      destruct s1, s2. cbn [isp_hiaddr prog_sck ISP_DDR ISP_OUT ticks trace] in *.
      subst. unfold ispSetSCKOption.
      destruct (option =? USBASP_ISP_SCK_AUTO) eqn:E0; [reflexivity|].
      assert (E1 : (option >=? USBASP_ISP_SCK_93_75) = true).
      { apply Z.geb_le. apply Z.eqb_neq in E0.
        destruct H as [H|H]; [contradiction | exact H]. }
      rewrite E1.
      repeat match goal with
             | |- context [if ?c then _ else _] => destruct c
             end; reflexivity. }
    destruct (ispSetSCKOption_frame earlier s) as (Ft & Fh & Fp & Fo & Fd & Fk).
    apply F; assumption.
  - intro H.
    destruct (ispSetSCKOption_sw option (ispSetSCKOption earlier s) H) as [Ht Hd].
    split; [exact Ht|]. split; [exact Hd|].
    destruct (software_tier_cases option H) as [E|[E|[E|[E|[E|[E|E]]]]]];
      subst option; split; reflexivity.
Qed.

(** ** The control lines *)

(** X3.  [ispConnect] makes the clock, data-out and reset lines outputs and
    leaves the direction of every other pin of the port alone; it switches
    the pull-up of the data-in line on, ends with the reset line low and
    leaves every other output bit alone; on the way the reset line is high
    for one wait of 320 microseconds.  It resets the cache to [0xFF] and
    touches neither the SPI registers nor the speed setting. *)
Theorem ispConnect_lines :
  forall s,
    (forall n, 0 <= n < 8 ->
       Z.testbit (ISP_DDR (ispConnect s)) n
       = Z.testbit (ISP_DDR s) n
         || (n =? ISP_SCK) || (n =? ISP_MOSI) || (n =? ISP_RST)) /\
    (forall n, 0 <= n < 8 ->
       Z.testbit (ISP_OUT (ispConnect s)) n
       = (Z.testbit (ISP_OUT s) n || (n =? ISP_MISO)) && negb (n =? ISP_RST)) /\
    (exists d1 d2 pulled high,
       since s (ispConnect s)
       = [Ddr d1; Ddr d2; Ddr (ISP_DDR (ispConnect s));
          Out pulled; Out high; Wait 1; Out (ISP_OUT (ispConnect s))] /\
       Z.testbit high ISP_RST = true) /\
    isp_hiaddr (ispConnect s) = 0xFF /\
    SPCR (ispConnect s) = SPCR s /\
    SPSR (ispConnect s) = SPSR s /\
    ispTransmit (ispConnect s) = ispTransmit s /\
    sck_sw_delay (ispConnect s) = sck_sw_delay s /\
    prog_sck (ispConnect s) = prog_sck s.
Proof.
  intro s. unfold ispConnect.
  cbn [set_ISP_DDR set_ISP_OUT set_isp_hiaddr clockWait ISP_DDR ISP_OUT isp_hiaddr
       SPCR SPSR ispTransmit sck_sw_delay prog_sck].
  split; [|split; [|split]].
  - intros n Hn.
    rewrite !testbit_set_line by (unfold ISP_RST, ISP_MOSI, ISP_SCK; lia).
    reflexivity.
  - intros n Hn.
    rewrite testbit_clear_line, !testbit_set_line
      by (unfold ISP_RST, ISP_MISO; lia).
    destruct (Z.testbit (ISP_OUT s) n), (n =? ISP_MISO), (n =? ISP_RST); reflexivity.
  - do 4 eexists. split.
    + apply since_extends. unfold extends_by.
      cbn [set_ISP_DDR set_ISP_OUT set_isp_hiaddr clockWait trace].
      rewrite <- !app_assoc. reflexivity.
    + rewrite testbit_set_line by (unfold ISP_RST; lia).
      rewrite Z.eqb_refl. apply orb_true_r.
  - repeat split; reflexivity.
Qed.

(** X4.  [ispDisconnect] makes the reset, clock and data-out lines inputs
    and clears their output bits; it leaves every other bit of the two
    registers alone, the pull-up of the data-in line included: after
    [ispConnect] and [ispDisconnect] that pull-up is still on.  When the
    three lines were inputs before [ispConnect], the direction register is
    back to what it was. *)
Theorem ispDisconnect_lines :
  forall s,
    (forall n, 0 <= n < 8 ->
       Z.testbit (ISP_DDR (ispDisconnect s)) n
       = Z.testbit (ISP_DDR s) n
         && negb ((n =? ISP_RST) || (n =? ISP_SCK) || (n =? ISP_MOSI))) /\
    (forall n, 0 <= n < 8 ->
       Z.testbit (ISP_OUT (ispDisconnect s)) n
       = Z.testbit (ISP_OUT s) n
         && negb ((n =? ISP_RST) || (n =? ISP_SCK) || (n =? ISP_MOSI))) /\
    Z.testbit (ISP_OUT (ispDisconnect (ispConnect s))) ISP_MISO = true /\
    (0 <= ISP_DDR s < 256 ->
     Z.land (ISP_DDR s) isp_lines = 0 ->
     ISP_DDR (ispDisconnect (ispConnect s)) = ISP_DDR s).
Proof.
  intro s.
  assert (D : forall s0 n, 0 <= n < 8 ->
              Z.testbit (ISP_DDR (ispDisconnect s0)) n
              = Z.testbit (ISP_DDR s0) n
                && negb ((n =? ISP_RST) || (n =? ISP_SCK) || (n =? ISP_MOSI))).
  { intros s0 n Hn. unfold ispDisconnect, spiHWdisable.
    cbn [set_ISP_DDR set_ISP_OUT set_SPCR ISP_DDR].
    rewrite testbit_clear_mask, testbit_isp_lines by lia. reflexivity. }
  assert (O : forall s0 n, 0 <= n < 8 ->
              Z.testbit (ISP_OUT (ispDisconnect s0)) n
              = Z.testbit (ISP_OUT s0) n
                && negb ((n =? ISP_RST) || (n =? ISP_SCK) || (n =? ISP_MOSI))).
  { intros s0 n Hn. unfold ispDisconnect, spiHWdisable.
    cbn [set_ISP_DDR set_ISP_OUT set_SPCR ISP_OUT].
    rewrite testbit_clear_mask, testbit_isp_lines by lia. reflexivity. }
  destruct (ispConnect_lines s) as (Cd & Co & _).
  split; [apply D|]. split; [apply O|]. split.
  - rewrite O, Co by (unfold ISP_MISO; lia). unfold ISP_MISO, ISP_RST, ISP_SCK, ISP_MOSI.
    cbn. rewrite orb_true_r. reflexivity.
  - intros Hr Hz.
    assert (R : 0 <= ISP_DDR (ispDisconnect (ispConnect s)) < 256).
    { unfold ispDisconnect, spiHWdisable. cbn [set_ISP_DDR set_ISP_OUT set_SPCR ISP_DDR].
      apply u8_range. }
    apply Z.bits_inj'. intros n Hn.
    destruct (Z.lt_ge_cases n 8) as [Hlt|Hge].
    + rewrite D, Cd by lia.
      assert (B : Z.testbit (Z.land (ISP_DDR s) isp_lines) n = false)
        by (rewrite Hz; apply Z.bits_0).
      rewrite Z.land_spec, testbit_isp_lines in B by lia.
      destruct (Z.testbit (ISP_DDR s) n), (n =? ISP_RST), (n =? ISP_SCK),
        (n =? ISP_MOSI); cbn in *; congruence.
    + assert (P : forall x, 0 <= x < 256 -> Z.testbit x n = false).
      { intros x Hx. destruct (Z.eq_dec x 0) as [->|Hx0]; [apply Z.bits_0|].
        apply Z.bits_above_log2; [lia|].
        apply Z.log2_lt_pow2; [lia|].
        apply Z.lt_le_trans with (2 ^ 8); [change (2 ^ 8) with 256; lia|].
        apply Z.pow_le_mono_r; lia. }
      rewrite (P _ R), (P _ Hr). reflexivity.
Qed.

(** ** Flash addresses on the wire *)

Lemma transmit_u8_eq : forall f b b' s, u8 b = u8 b' -> transmit f b s = transmit f b' s.
Proof. intros f b b' s H. unfold transmit. rewrite H. reflexivity. Qed.

(** Addresses [2^25] apart give the same bytes. *)
Lemma alias_shiftr : forall a,
  u8 (Z.shiftr (a + 33554432) 17) = u8 (Z.shiftr a 17) /\
  u8 (Z.shiftr (a + 33554432) 9) = u8 (Z.shiftr a 9) /\
  u8 (Z.shiftr (a + 33554432) 1) = u8 (Z.shiftr a 1) /\
  Z.land (a + 33554432) 1 = Z.land a 1.
Proof.
  intro a. rewrite !Z.shiftr_div_pow2 by lia. unfold u8.
  change (2 ^ 17) with 131072. change (2 ^ 9) with 512. change (2 ^ 1) with 2.
  assert (L : forall x, Z.land x 1 = x mod 2)
    by (intro x; apply (Z.land_ones x 1); lia).
  rewrite !L. repeat split.
  - replace (a + 33554432) with (a + 256 * 131072) by lia.
    rewrite Z.div_add by lia. apply (Z_mod_plus_full _ 1 256).
  - replace (a + 33554432) with (a + 65536 * 512) by lia.
    rewrite Z.div_add by lia. apply (Z_mod_plus_full _ 256 256).
  - replace (a + 33554432) with (a + 16777216 * 2) by lia.
    rewrite Z.div_add by lia. apply (Z_mod_plus_full _ 65536 256).
  - apply (Z_mod_plus_full a 16777216 2).
Qed.

Lemma ispUpdateExtended_alias : forall a s,
  ispUpdateExtended (a + 33554432) s = ispUpdateExtended a s.
Proof.
  intros a s. unfold ispUpdateExtended.
  destruct (alias_shiftr a) as (E & _). rewrite E. reflexivity.
Qed.

Lemma ispReadFlash_alias : forall a s,
  ispReadFlash (a + 33554432) s = ispReadFlash a s.
Proof.
  intros a s. unfold ispReadFlash.
  destruct (alias_shiftr a) as (_ & E9 & E1 & E0).
  rewrite ispUpdateExtended_alias, E0.
  step_transmit.
  rewrite (transmit_u8_eq _ (Z.shiftr (a + 33554432) 9) (Z.shiftr a 9) _ E9).
  step_transmit.
  rewrite (transmit_u8_eq _ (Z.shiftr (a + 33554432) 1) (Z.shiftr a 1) _ E1).
  reflexivity.
Qed.

Lemma poll_flash_alias : forall fuel a busy retries starttime s,
  poll_flash fuel (a + 33554432) busy retries starttime s
  = poll_flash fuel a busy retries starttime s.
Proof.
  induction fuel as [|fuel IH]; intros a busy retries starttime s; [reflexivity|].
  rewrite !poll_flash_S, ispReadFlash_alias. cbv zeta.
  destruct (retries =? 0); [reflexivity|].
  destruct (_ =? busy); [|reflexivity].
  destruct (_ >? _); apply IH.
Qed.

(** X5.  The byte address of a flash access goes out as the cached
    extended-address byte, two address bytes and bit 3 of the opcode, and
    below [2^25] nothing of it is lost: the four parts give the address
    back.  From [2^25] on the extended-address byte wraps: [ispReadFlash]
    and [ispWriteFlash] do at [address + 2^25] exactly what they do at
    [address]. *)
Theorem flash_address_on_the_wire :
  forall address s,
    (0 <= address < 33554432 ->
     exists op b1 b2,
       sent (since (ispUpdateExtended address s) (snd (ispReadFlash address s)))
       = [op; b1; b2; 0] /\
       (op = 0x20 \/ op = 0x28) /\
       address
       = isp_hiaddr (snd (ispReadFlash address s)) * 131072
         + b1 * 512 + b2 * 2 + (op - 0x20) / 8) /\
    ispReadFlash (address + 33554432) s = ispReadFlash address s /\
    (forall fuel data pollmode,
       ispWriteFlash fuel (address + 33554432) data pollmode s
       = ispWriteFlash fuel address data pollmode s).
Proof.
  intros address s. split; [|split].
  - intro Ha.
    destruct (ispReadFlash_extends address s) as (r0 & r1 & r2 & Hx).
    rewrite (since_extends _ _ _ Hx), ispReadFlash_hiaddr. cbn [sent].
    do 3 eexists. split; [reflexivity|].
    assert (L : Z.land address 1 = address mod 2)
      by (apply (Z.land_ones address 1); lia).
    rewrite !Z.shiftr_div_pow2 by lia. unfold u8.
    change (2 ^ 17) with 131072. change (2 ^ 9) with 512. change (2 ^ 1) with 2.
    destruct (low_bit_cases address) as [E|E]; rewrite E; rewrite E in L.
    + split; [left; reflexivity|].
      change ((Z.lor 32 (Z.shiftl 0 3)) mod 256) with 32.
      change ((32 - 32) / 8) with 0.
      rewrite (Z.mod_small (address / 131072) 256)
        by (split; [apply Z.div_pos; lia | apply Z.div_lt_upper_bound; lia]).
      pose proof (Z.div_mod address 2 ltac:(lia)).
      pose proof (Z.div_mod (address / 2) 256 ltac:(lia)).
      pose proof (Z.div_mod (address / 512) 256 ltac:(lia)).
      assert (address / 2 / 256 = address / 512) by (rewrite Z.div_div by lia; reflexivity).
      assert (address / 512 / 256 = address / 131072)
        by (rewrite Z.div_div by lia; reflexivity).
      lia.
    + split; [right; reflexivity|].
      change ((Z.lor 32 (Z.shiftl 1 3)) mod 256) with 40.
      change ((40 - 32) / 8) with 1.
      rewrite (Z.mod_small (address / 131072) 256)
        by (split; [apply Z.div_pos; lia | apply Z.div_lt_upper_bound; lia]).
      pose proof (Z.div_mod address 2 ltac:(lia)).
      pose proof (Z.div_mod (address / 2) 256 ltac:(lia)).
      pose proof (Z.div_mod (address / 512) 256 ltac:(lia)).
      assert (address / 2 / 256 = address / 512) by (rewrite Z.div_div by lia; reflexivity).
      assert (address / 512 / 256 = address / 131072)
        by (rewrite Z.div_div by lia; reflexivity).
      lia.
  - apply ispReadFlash_alias.
  - intros fuel data pollmode.
    destruct (alias_shiftr address) as (_ & E9 & E1 & E0).
    unfold ispWriteFlash. rewrite ispUpdateExtended_alias, E0.
    step_transmit.
    rewrite (transmit_u8_eq _ (Z.shiftr (address + 33554432) 9) (Z.shiftr address 9) _ E9).
    step_transmit.
    rewrite (transmit_u8_eq _ (Z.shiftr (address + 33554432) 1) (Z.shiftr address 1) _ E1).
    step_transmit. step_transmit.
    rewrite poll_flash_alias. reflexivity.
Qed.

(** ** Reads in one address window *)

Lemma run_read_flash : forall fuel address s,
  snd (run fuel (OpReadFlash address) s) = snd (ispReadFlash address s).
Proof.
  intros fuel address s. unfold run. destruct (ispReadFlash address s). reflexivity.
Qed.

Lemma ispReadFlash_plain : forall address s,
  exists d,
    extends_by (ispUpdateExtended address s) (snd (ispReadFlash address s)) d /\
    plain_commands (sent d) /\ length (sent d) = 4%nat.
Proof.
  intros address s.
  destruct (ispReadFlash_extends address s) as (r0 & r1 & r2 & Hx).
  eexists. split; [exact Hx|]. cbn [sent plain_commands length].
  split; [|reflexivity]. split; [|exact I].
  destruct (low_bit_cases address) as [E|E]; rewrite E; discriminate.
Qed.

Lemma reads_with_cache_in_step : forall fuel window addresses s,
  Forall (fun a => u8 (Z.shiftr a 17) = window) addresses ->
  isp_hiaddr s = window ->
  exists d,
    extends_by s (run_all fuel (map OpReadFlash addresses) s) d /\
    plain_commands (sent d) /\
    length (sent d) = (4 * length addresses)%nat /\
    isp_hiaddr (run_all fuel (map OpReadFlash addresses) s) = window.
Proof.
  intros fuel window addresses.
  induction addresses as [|a l IH]; intros s Hall Hs.
  - exists []. split; [apply extends_refl|].
    split; [exact I|]. split; [reflexivity | exact Hs].
  - apply Forall_cons_iff in Hall. destruct Hall as [Ha Hl].
    cbn [map run_all]. rewrite run_read_flash.
    destruct (ispReadFlash_plain a s) as (d1 & Hx1 & Hp1 & Hl1).
    rewrite (ispUpdateExtended_same a s) in Hx1 by congruence.
    destruct (IH (snd (ispReadFlash a s)) Hl) as (d2 & Hx2 & Hp2 & Hl2 & Hh2);
      [rewrite ispReadFlash_hiaddr; exact Ha|].
    exists (d1 ++ d2). split; [eapply extends_trans; eassumption|].
    rewrite sent_app, length_app, Hl1, Hl2.
    split; [apply plain_commands_app; assumption|].
    split; [cbn [length]; lia | exact Hh2].
Qed.

(** X6.  A run of flash reads whose addresses lie in one window loads the
    extended address at most once: once, before the first read command,
    when the cache held another window on entry, never when it held this
    one.  What follows is one read command of four bytes to an address, and
    the cache holds the window. *)
Theorem reads_in_one_window_load_once :
  forall fuel window addresses s,
    Forall (fun a => u8 (Z.shiftr a 17) = window) addresses ->
    addresses <> [] ->
    exists reads,
      sent (since s (run_all fuel (map OpReadFlash addresses) s))
      = (if isp_hiaddr s =? window then [] else [0x4D; 0x00; window; 0x00]) ++ reads /\
      plain_commands reads /\
      length reads = (4 * length addresses)%nat /\
      isp_hiaddr (run_all fuel (map OpReadFlash addresses) s) = window.
Proof.
  intros fuel window addresses s Hall Hne.
  destruct addresses as [|a l]; [contradiction|].
  apply Forall_cons_iff in Hall. destruct Hall as [Ha Hl].
  cbn [map run_all]. rewrite run_read_flash.
  destruct (ispReadFlash_plain a s) as (d1 & Hx1 & Hp1 & Hl1).
  destruct (reads_with_cache_in_step fuel window l (snd (ispReadFlash a s)) Hl)
    as (d2 & Hx2 & Hp2 & Hl2 & Hh2); [rewrite ispReadFlash_hiaddr; exact Ha|].
  pose proof (ispUpdateExtended_extends a s) as Hu.
  pose proof (extends_trans _ _ _ _ _ (extends_trans _ _ _ _ _ Hu Hx1) Hx2) as Hall'.
  exists (sent d1 ++ sent d2).
  rewrite (since_extends _ _ _ Hall'), !sent_app, ispUpdateExtended_sent, <- app_assoc.
  rewrite Ha. split; [reflexivity|].
  split; [apply plain_commands_app; assumption|].
  rewrite length_app, Hl1, Hl2. split; [cbn [length]; lia | exact Hh2].
Qed.

(** ** Page flush and polling *)

(** X7.  [ispFlushPage] with poll value [0xFF] sends the write-page command
    [0x4C], the two address bytes and [0x00], waits [clockWait(15)] and
    returns 0: it reads nothing back and never enters the polling loop,
    whatever the fuel. *)
Theorem ispFlushPage_fixed_wait :
  forall fuel address s,
    exists r0 r1 r2 r3,
      fst (ispFlushPage fuel address 0xFF s) = Some 0 /\
      extends_by (ispUpdateExtended address s) (snd (ispFlushPage fuel address 0xFF s))
        [Tx (ispTransmit s) 0x4C r0;
         Tx (ispTransmit s) (u8 (Z.shiftr address 9)) r1;
         Tx (ispTransmit s) (u8 (Z.shiftr address 1)) r2;
         Tx (ispTransmit s) 0x00 r3;
         Wait 15].
Proof.
  intros fuel address s.
  destruct (ispFlushPage_command address s) as (r0 & r1 & r2 & r3 & w & _ & Hw & Hx & _).
  exists r0, r1, r2, r3. rewrite Hw. change (255 =? 255) with true. cbv iota.
  split; [reflexivity|]. cbn [snd].
  apply (extends_trans _ _ _ _ [Wait 15] Hx). apply clockWait_extends.
Qed.

(** The read command of [address]. *)
Lemma poll_flash_reads : forall fuel address busy retries starttime s,
  isp_hiaddr s = u8 (Z.shiftr address 17) ->
  exists n,
    (n <= fuel)%nat /\
    sent (since s (snd (poll_flash fuel address busy retries starttime s)))
    = concat (repeat [u8 (Z.lor 0x20 (Z.shiftl (Z.land address 1) 3));
                      u8 (Z.shiftr address 9); u8 (Z.shiftr address 1); 0] n).
Proof.
  induction fuel as [|fuel IH]; intros address busy retries starttime s Hs.
  - exists 0%nat. split; [lia|]. cbn [poll_flash snd].
    rewrite (since_extends _ _ _ (extends_refl s)). reflexivity.
  - rewrite poll_flash_S. destruct (retries =? 0).
    + exists 0%nat. split; [lia|]. cbn [snd].
      rewrite (since_extends _ _ _ (extends_refl s)). reflexivity.
    + cbv zeta.
      destruct (ispReadFlash_extends address s) as (r0 & r1 & r2 & Hx).
      rewrite (ispUpdateExtended_same address s Hs) in Hx.
      pose proof (ispReadFlash_hiaddr address s) as Hh.
      set (s1 := snd (ispReadFlash address s)) in *.
      assert (One : forall s2 d n,
                extends_by s1 s2 d ->
                sent d = concat (repeat [u8 (Z.lor 0x20 (Z.shiftl (Z.land address 1) 3));
                                         u8 (Z.shiftr address 9);
                                         u8 (Z.shiftr address 1); 0] n) ->
                sent (since s s2)
                = concat (repeat [u8 (Z.lor 0x20 (Z.shiftl (Z.land address 1) 3));
                                  u8 (Z.shiftr address 9);
                                  u8 (Z.shiftr address 1); 0] (S n))).
      { intros s2 d n Hd Hn.
        rewrite (since_extends _ _ _ (extends_trans _ _ _ _ _ Hx Hd)), sent_app, Hn.
        reflexivity. }
      assert (Rec : forall r st,
                exists n, (n <= S fuel)%nat /\
                  sent (since s (snd (poll_flash fuel address busy r st s1)))
                  = concat (repeat [u8 (Z.lor 0x20 (Z.shiftl (Z.land address 1) 3));
                                    u8 (Z.shiftr address 9);
                                    u8 (Z.shiftr address 1); 0] n)).
      { intros r st. destruct (IH address busy r st s1 Hh) as (n & Hn & Hr).
        destruct (poll_flash_extends fuel address busy r st s1) as [d Hd].
        exists (S n). split; [lia|].
        apply (One _ d n Hd). rewrite <- Hr, (since_extends _ _ _ Hd). reflexivity. }
      destruct (_ =? busy).
      * destruct (_ >? _); apply Rec.
      * exists 1%nat. split; [lia|].
        apply (One s1 [] 0%nat); [apply extends_refl | reflexivity].
Qed.

(** X8.  While [ispWriteFlash] and [ispFlushPage] poll, all they send is the
    read command of the address, over and over, at most once for each unit
    of fuel: the extended address is not loaded again and nothing is
    written. *)
Theorem polling_sends_read_commands_only :
  forall fuel address s,
    let read_command :=
      [u8 (Z.lor 0x20 (Z.shiftl (Z.land address 1) 3));
       u8 (Z.shiftr address 9); u8 (Z.shiftr address 1); 0] in
    (forall data pollmode,
       pollmode <> 0 -> data <> 0x7F ->
       exists n,
         (n <= fuel)%nat /\
         sent (since (snd (ispWriteFlash 0 address data pollmode s))
                     (snd (ispWriteFlash fuel address data pollmode s)))
         = concat (repeat read_command n)) /\
    (forall pollvalue,
       pollvalue <> 0xFF ->
       exists n,
         (n <= fuel)%nat /\
         sent (since (snd (ispFlushPage 0 address pollvalue s))
                     (snd (ispFlushPage fuel address pollvalue s)))
         = concat (repeat read_command n)).
Proof.
  intros fuel address s read_command. split.
  - intros data pollmode Hp Hd.
    destruct (ispWriteFlash_command 0 address data s)
      as (r0 & r1 & r2 & r3 & w & Hw & _ & Hh & _).
    assert (E : forall f, ispWriteFlash f address data pollmode s
                          = poll_flash f address 0x7F 30 (TIMERVALUE w) w).
    { intro f. rewrite ispWriteFlash_unfold. cbv zeta. rewrite Hw. cbn [snd].
      apply Z.eqb_neq in Hp, Hd. rewrite Hp, Hd. reflexivity. }
    rewrite !E. cbn [poll_flash snd].
    apply poll_flash_reads. exact Hh.
  - intros pollvalue Hp.
    destruct (ispFlushPage_command address s)
      as (r0 & r1 & r2 & r3 & w & _ & Hw & _ & Hh & _).
    rewrite !Hw. apply Z.eqb_neq in Hp. rewrite Hp. cbn [poll_flash snd].
    apply poll_flash_reads. exact Hh.
Qed.

(** ** The state a handshake ends in *)

Lemma speed_bump_ISP_DDR : forall s, ISP_DDR (speed_bump s) = ISP_DDR s.
Proof.
  intro s. unfold speed_bump. destruct DANGEROUS_MODE; [|reflexivity].
  destruct (ispSetSCKOption_frame (u8 (prog_sck (spiHWdisable s) + 1)) (spiHWdisable s))
    as (_ & _ & _ & _ & Hd & _).
  destruct (transmit_fn_eqb _ _); cbn [spiHWenable set_SPCR ISP_DDR]; rewrite Hd;
    reflexivity.
Qed.

(** The attempts at a tier leave the configuration alone when they fail,
    and also when they succeed unless the speed bump is compiled in; the
    line directions they leave alone in any case. *)
Lemma handshake_tries_same_config : forall n spiTx s,
  (fst (handshake_tries n spiTx s) = false \/ DANGEROUS_MODE = false ->
   same_config s (snd (handshake_tries n spiTx s))) /\
  ISP_DDR (snd (handshake_tries n spiTx s)) = ISP_DDR s.
Proof.
  induction n as [|n IH]; intros spiTx s.
  - split; [intros _; apply same_config_refl | reflexivity].
  - rewrite handshake_tries_S.
    pose proof (handshake_try_same_config spiTx s) as C.
    set (s1 := snd (handshake_try spiTx s)) in *.
    destruct (_ =? 83).
    + cbn [fst snd]. split.
      * intros [H|H]; [discriminate|]. unfold speed_bump. rewrite H. exact C.
      * rewrite speed_bump_ISP_DDR. apply C.
    + destruct n as [|n'].
      * cbn [fst snd]. split; [intros _; exact C | apply C].
      * destruct (IH spiTx s1) as [IH1 IH2]. split.
        -- intro H. eapply same_config_trans; [exact C | apply IH1, H].
        -- rewrite IH2. apply C.
Qed.

Lemma spiHWenable_bits : forall s,
  Z.testbit (SPCR (spiHWenable s)) SPE = true /\
  Z.testbit (SPCR (spiHWenable s)) MSTR = true.
Proof.
  intro s. unfold spiHWenable. cbn [SPCR set_SPCR].
  rewrite !testbit_u8, !Z.lor_spec, !testbit_line by (unfold SPE, MSTR; lia).
  unfold SPE, MSTR. cbn. rewrite !orb_true_r. split; reflexivity.
Qed.

(** The state the ladder ends in. *)
Lemma speed_ladder_end : forall fuel s,
  0 <= prog_sck s < 256 ->
  (fst (speed_ladder fuel s) = Some 1 ->
   1 <= prog_sck s ->
   ispTransmit (snd (speed_ladder fuel s)) = ispTransmit_hw /\
   SPCR (snd (speed_ladder fuel s)) = Z.shiftl 1 SPR0 /\
   SPSR (snd (speed_ladder fuel s)) = Z.shiftl 1 SPI2X /\
   sck_sw_delay (snd (speed_ladder fuel s)) = 1 /\
   prog_sck (snd (speed_ladder fuel s)) = 0) /\
  (fst (speed_ladder fuel s) = Some 0 ->
   DANGEROUS_MODE = false ->
   1 <= prog_sck (snd (speed_ladder fuel s)) <= prog_sck s /\
   (ispTransmit (snd (speed_ladder fuel s)) = ispTransmit_hw ->
    Z.testbit (SPCR (snd (speed_ladder fuel s))) SPE = true /\
    Z.testbit (SPCR (snd (speed_ladder fuel s))) MSTR = true) /\
   (prog_sck (snd (speed_ladder fuel s)) = prog_sck s ->
    ispTransmit (snd (speed_ladder fuel s)) = ispTransmit s /\
    sck_sw_delay (snd (speed_ladder fuel s)) = sck_sw_delay s /\
    SPSR (snd (speed_ladder fuel s)) = SPSR s) /\
   (prog_sck (snd (speed_ladder fuel s)) < prog_sck s ->
    ispTransmit (snd (speed_ladder fuel s))
    = transport_of_tier (prog_sck (snd (speed_ladder fuel s))))).
Proof.
  induction fuel as [|fuel IH]; intros s Hs.
  - split; discriminate.
  - rewrite speed_ladder_S.
    destruct (prog_sck s >=? USBASP_ISP_SCK_0_5) eqn:Hge.
    2:{ split; [|discriminate]. intros _ H1. rewrite Z.geb_leb in Hge.
        apply Z.leb_gt in Hge. unfold USBASP_ISP_SCK_0_5 in Hge. lia. }
    apply Z.geb_le in Hge. unfold USBASP_ISP_SCK_0_5 in Hge. cbv zeta.
    set (s0 := if transmit_fn_eqb (ispTransmit s) ispTransmit_hw
               then spiHWenable s else s).
    assert (C0 : sck_sw_delay s0 = sck_sw_delay s /\ ispTransmit s0 = ispTransmit s /\
                 SPSR s0 = SPSR s /\ prog_sck s0 = prog_sck s)
      by (unfold s0; destruct (transmit_fn_eqb _ _); repeat split; reflexivity).
    destruct C0 as (C0d & C0t & C0s & C0p).
    destruct (handshake_tries_same_config 3 (ispTransmit s) s0) as [C1 _].
    set (r1 := handshake_tries 3 (ispTransmit s) s0) in *.
    destruct (fst r1) eqn:Er.
    + (* entered at this tier *)
      cbn [fst snd]. split; [discriminate|]. intros _ HD.
      destruct (C1 (or_intror HD)) as (D1 & D2 & D3 & D4 & D5 & _).
      split; [lia|]. split; [|split].
      * intro Hhw. rewrite D3.
        assert (E : ispTransmit s = ispTransmit_hw) by congruence.
        unfold s0. rewrite E. cbn [transmit_fn_eqb]. apply spiHWenable_bits.
      * intros _. repeat split; congruence.
      * intro Hlt. lia.
    + (* three failures: one tier down *)
      destruct (C1 (or_introl eq_refl)) as (_ & _ & _ & _ & D5 & _).
      set (s1 := set_prog_sck (u8 (prog_sck (spiHWdisable (snd r1)) - 1))
                              (spiHWdisable (snd r1))).
      set (s2 := ispSetSCKOption (prog_sck s1) s1).
      assert (P1 : prog_sck s1 = prog_sck s - 1).
      { unfold s1. cbn [set_prog_sck prog_sck spiHWdisable set_SPCR].
        rewrite D5, C0p. apply u8_small. lia. }
      destruct (ispSetSCKOption_frame (prog_sck s1) s1) as (_ & _ & Fp & _).
      fold s2 in Fp.
      assert (P2 : prog_sck s2 = prog_sck s - 1) by congruence.
      destruct (IH s2 ltac:(lia)) as [IH1 IH2].
      split.
      * intros H1 _.
        destruct (Z.eq_dec (prog_sck s) 1) as [E1|N1].
        -- (* the slowest tier was the last one *)
           assert (Z1 : prog_sck s1 = 0) by lia.
           destruct fuel as [|fuel']; [discriminate|].
           rewrite speed_ladder_S in H1 |- *.
           assert (G : (prog_sck s2 >=? USBASP_ISP_SCK_0_5) = false)
             by (rewrite P2, E1; reflexivity).
           rewrite G. cbn [snd]. unfold s2. rewrite Z1.
           destruct (ispSetSCKOption_frame 0 s1) as (_ & _ & Fp0 & _).
           split; [reflexivity|]. split; [reflexivity|]. split; [reflexivity|].
           split; [reflexivity|]. rewrite Fp0. exact Z1.
        -- apply IH1; [exact H1 | lia].
      * intros H0 HD. destruct (IH2 H0 HD) as (B1 & B2 & B3 & B4).
        split; [lia|]. split; [exact B2|]. split; [intro; lia|].
        intros _.
        destruct (Z.eq_dec (prog_sck (snd (speed_ladder fuel s2))) (prog_sck s2))
          as [E|N].
        -- destruct (B3 E) as (T & _). rewrite T, E, Fp. unfold s2.
           apply ispSetSCKOption_transport.
           unfold USBASP_ISP_SCK_0_5. lia.
        -- apply B4. lia.
Qed.

(** X9.  When [ispEnterProgrammingMode] returns 1 it leaves the engine as
    [ispSetSCKOption(USBASP_ISP_SCK_AUTO)] sets it up: hardware transport,
    the divider of [USBASP_ISP_SCK_1500], bit delay 1, but with the SPI
    peripheral disabled ([SPE] and [MSTR] clear), and with [prog_sck] 0, so
    that the next call starts the ladder from [USBASP_ISP_SCK_1500]
    again. *)
Theorem failed_handshake_leaves_default_tier :
  forall fuel s,
    0 <= prog_sck s < 256 ->
    fst (ispEnterProgrammingMode fuel s) = Some 1 ->
    ispTransmit (snd (ispEnterProgrammingMode fuel s)) = ispTransmit_hw /\
    SPCR (snd (ispEnterProgrammingMode fuel s)) = Z.shiftl 1 SPR0 /\
    SPSR (snd (ispEnterProgrammingMode fuel s)) = Z.shiftl 1 SPI2X /\
    sck_sw_delay (snd (ispEnterProgrammingMode fuel s)) = 1 /\
    Z.testbit (SPCR (snd (ispEnterProgrammingMode fuel s))) SPE = false /\
    Z.testbit (SPCR (snd (ispEnterProgrammingMode fuel s))) MSTR = false /\
    prog_sck (snd (ispEnterProgrammingMode fuel s)) = 0 /\
    (forall fuel',
       ispEnterProgrammingMode fuel' (snd (ispEnterProgrammingMode fuel s))
       = speed_ladder fuel'
           (set_prog_sck USBASP_ISP_SCK_1500 (snd (ispEnterProgrammingMode fuel s)))).
Proof.
  intros fuel s Hs H1. unfold ispEnterProgrammingMode in *.
  set (s0 := if prog_sck s =? 0 then set_prog_sck USBASP_ISP_SCK_1500 s else s) in *.
  assert (P0 : 1 <= prog_sck s0 < 256).
  { unfold s0. destruct (prog_sck s =? 0) eqn:E.
    - cbn [prog_sck set_prog_sck]. unfold USBASP_ISP_SCK_1500. lia.
    - apply Z.eqb_neq in E. lia. }
  destruct (speed_ladder_end fuel s0 ltac:(lia)) as [L _].
  destruct (L H1 ltac:(lia)) as (A1 & A2 & A3 & A4 & A5).
  repeat split; try assumption.
  - rewrite A2. reflexivity.
  - rewrite A2. reflexivity.
  - intro fuel'. rewrite A5. reflexivity.
Qed.

(** X10.  Without the speed bump compiled in, when
    [ispEnterProgrammingMode] returns 0 [prog_sck] holds the tier of the
    attempt that succeeded, between [USBASP_ISP_SCK_0_5] and the tier the
    function was entered with; the transport is the one in place on entry
    when that is the entry tier, and the one [ispSetSCKOption] selects for
    the tier when the ladder stepped down; and when the transport is the
    hardware one the SPI peripheral is enabled as master. *)
Theorem successful_handshake_state :
  forall fuel s,
    DANGEROUS_MODE = false ->
    0 <= prog_sck s < 256 ->
    fst (ispEnterProgrammingMode fuel s) = Some 0 ->
    let tier0 := if prog_sck s =? 0 then USBASP_ISP_SCK_1500 else prog_sck s in
    USBASP_ISP_SCK_0_5 <= prog_sck (snd (ispEnterProgrammingMode fuel s)) <= tier0 /\
    (ispTransmit (snd (ispEnterProgrammingMode fuel s)) = ispTransmit_hw ->
     Z.testbit (SPCR (snd (ispEnterProgrammingMode fuel s))) SPE = true /\
     Z.testbit (SPCR (snd (ispEnterProgrammingMode fuel s))) MSTR = true) /\
    (prog_sck (snd (ispEnterProgrammingMode fuel s)) = tier0 ->
     ispTransmit (snd (ispEnterProgrammingMode fuel s)) = ispTransmit s /\
     sck_sw_delay (snd (ispEnterProgrammingMode fuel s)) = sck_sw_delay s /\
     SPSR (snd (ispEnterProgrammingMode fuel s)) = SPSR s) /\
    (prog_sck (snd (ispEnterProgrammingMode fuel s)) < tier0 ->
     ispTransmit (snd (ispEnterProgrammingMode fuel s))
     = transport_of_tier (prog_sck (snd (ispEnterProgrammingMode fuel s)))).
Proof.
  intros fuel s HD Hs H0 tier0. unfold ispEnterProgrammingMode in *.
  set (s0 := if prog_sck s =? 0 then set_prog_sck USBASP_ISP_SCK_1500 s else s) in *.
  assert (F : prog_sck s0 = tier0 /\ ispTransmit s0 = ispTransmit s /\
              sck_sw_delay s0 = sck_sw_delay s /\ SPSR s0 = SPSR s)
    by (unfold s0, tier0; destruct (prog_sck s =? 0); repeat split; reflexivity).
  destruct F as (Fp & Ft & Fd & Fs).
  assert (P0 : 0 <= prog_sck s0 < 256).
  { rewrite Fp. unfold tier0. destruct (prog_sck s =? 0); [|exact Hs].
    unfold USBASP_ISP_SCK_1500. lia. }
  destruct (speed_ladder_end fuel s0 P0) as [_ L].
  destruct (L H0 HD) as (B1 & B2 & B3 & B4).
  rewrite <- Fp, <- Ft, <- Fd, <- Fs. unfold USBASP_ISP_SCK_0_5.
  split; [lia|]. split; [exact B2|]. split; [exact B3 | exact B4].
Qed.

(** What a run of attempts over one transport leaves in [ISP_OUT]. *)
Lemma out_after_bits : forall via l out j,
  (forall a, In a l -> at_via a = via) ->
  l <> [] ->
  0 <= j < 8 ->
  Z.testbit (out_after out l) j
  = Z.testbit out j && negb (j =? ISP_RST)
    && match via with
       | ispTransmit_hw => true
       | ispTransmit_sw => negb (j =? ISP_SCK) && negb (j =? ISP_MOSI)
       end.
Proof.
  induction l as [|a l IH]; intros out j Hv Hl Hj; [contradiction|].
  rewrite out_after_cons, (Hv a (or_introl eq_refl)).
  destruct l as [|b l'].
  - change (out_after ?o []) with o. apply after_attempt_bits, Hj.
  - rewrite IH; [| intros; apply Hv; right; assumption | discriminate | exact Hj].
    rewrite after_attempt_bits by exact Hj.
    destruct (Z.testbit out j), (j =? ISP_RST), via, (j =? ISP_SCK), (j =? ISP_MOSI);
      reflexivity.
Qed.

(** The port after the attempts at one tier. *)
Lemma handshake_tries_lines : forall s j,
  0 <= j < 8 ->
  Z.testbit
    (ISP_OUT
       (snd (handshake_tries 3 (ispTransmit s)
               (if transmit_fn_eqb (ispTransmit s) ispTransmit_hw
                then spiHWenable s else s)))) j
  = Z.testbit (ISP_OUT s) j && negb (j =? ISP_RST)
    && match ispTransmit s with
       | ispTransmit_hw => true
       | ispTransmit_sw => negb (j =? ISP_SCK) && negb (j =? ISP_MOSI)
       end.
Proof.
  intros s j Hj.
  set (s0 := if transmit_fn_eqb (ispTransmit s) ispTransmit_hw
             then spiHWenable s else s).
  assert (F0 : ISP_OUT s0 = ISP_OUT s /\ ispTransmit s0 = ispTransmit s)
    by (unfold s0; destruct (transmit_fn_eqb _ _); split; reflexivity).
  destruct F0 as (F0o & F0v).
  destruct (handshake_tries_spec 2 (ispTransmit s) s0 F0v)
    as (l & _ & Ll & La & _ & _ & _ & _ & Lo).
  rewrite Lo, F0o. apply out_after_bits; [| |exact Hj].
  - intros a Ha. destruct (In_nth_error _ _ Ha) as [i Hi].
    destruct (La i a Hi) as (_ & E & _). exact E.
  - intro E. rewrite E in Ll. cbn in Ll. lia.
Qed.

(** The lines through the whole ladder: the directions stay, no output bit
    is ever raised, and only the reset bit is touched as long as every
    attempt goes over the hardware transport. *)
Lemma speed_ladder_lines : forall fuel s,
  ISP_DDR (snd (speed_ladder fuel s)) = ISP_DDR s /\
  (forall n, 0 <= n < 8 -> n <> ISP_RST -> n <> ISP_SCK -> n <> ISP_MOSI ->
     Z.testbit (ISP_OUT (snd (speed_ladder fuel s))) n = Z.testbit (ISP_OUT s) n) /\
  (forall n, 0 <= n < 8 ->
     Z.testbit (ISP_OUT (snd (speed_ladder fuel s))) n = true ->
     Z.testbit (ISP_OUT s) n = true) /\
  ((0 < fuel)%nat -> USBASP_ISP_SCK_0_5 <= prog_sck s ->
   Z.testbit (ISP_OUT (snd (speed_ladder fuel s))) ISP_RST = false /\
   (ispTransmit s = ispTransmit_sw ->
    Z.testbit (ISP_OUT (snd (speed_ladder fuel s))) ISP_SCK = false /\
    Z.testbit (ISP_OUT (snd (speed_ladder fuel s))) ISP_MOSI = false)) /\
  (0 <= prog_sck s < 256 ->
   prog_sck (snd (speed_ladder fuel s)) <= prog_sck s /\
   (ispTransmit s = ispTransmit_hw ->
    USBASP_ISP_SCK_93_75 <= prog_sck (snd (speed_ladder fuel s)) ->
    forall n, 0 <= n < 8 -> n <> ISP_RST ->
      Z.testbit (ISP_OUT (snd (speed_ladder fuel s))) n = Z.testbit (ISP_OUT s) n)).
Proof.
  induction fuel as [|fuel IH]; intro s.
  - cbn [speed_ladder snd].
    split; [reflexivity|]. split; [reflexivity|]. split; [intros n _ H; exact H|].
    split; [intro H; lia|]. intros _. split; [lia | reflexivity].
  - rewrite speed_ladder_S.
    destruct (prog_sck s >=? USBASP_ISP_SCK_0_5) eqn:Hge.
    2:{ cbn [snd]. rewrite Z.geb_leb in Hge. apply Z.leb_gt in Hge.
        split; [reflexivity|]. split; [reflexivity|]. split; [intros n _ H; exact H|].
        split; [intros _ H; lia|]. intros _. split; [lia | reflexivity]. }
    apply Z.geb_le in Hge. cbv zeta.
    pose proof (handshake_tries_lines s) as B.
    set (s0 := if transmit_fn_eqb (ispTransmit s) ispTransmit_hw
               then spiHWenable s else s) in *.
    assert (F0 : ISP_DDR s0 = ISP_DDR s /\ ispTransmit s0 = ispTransmit s /\
                 prog_sck s0 = prog_sck s)
      by (unfold s0; destruct (transmit_fn_eqb _ _); repeat split; reflexivity).
    destruct F0 as (F0d & F0v & F0p).
    destruct (handshake_tries_same_config 3 (ispTransmit s) s0) as [_ Cd].
    destruct (handshake_tries_spec 2 (ispTransmit s) s0 F0v)
      as (l & _ & _ & _ & _ & _ & _ & Lp & _).
    set (r1 := handshake_tries 3 (ispTransmit s) s0) in *.
    rewrite F0d in Cd. rewrite F0p in Lp.
    assert (Bk : forall n, 0 <= n < 8 -> n <> ISP_RST -> n <> ISP_SCK -> n <> ISP_MOSI ->
                 Z.testbit (ISP_OUT (snd r1)) n = Z.testbit (ISP_OUT s) n).
    { intros n Hn H1 H2 H3. rewrite B by exact Hn.
      apply Z.eqb_neq in H1, H2, H3. rewrite H1, H2, H3.
      destruct (ispTransmit s), (Z.testbit (ISP_OUT s) n); reflexivity. }
    assert (Bl : forall n, 0 <= n < 8 ->
                 Z.testbit (ISP_OUT (snd r1)) n = true -> Z.testbit (ISP_OUT s) n = true).
    { intros n Hn H. rewrite B in H by exact Hn.
      apply andb_prop in H. destruct H as [H _].
      apply andb_prop in H. apply H. }
    assert (Br : Z.testbit (ISP_OUT (snd r1)) ISP_RST = false).
    { rewrite B by (unfold ISP_RST; lia). rewrite Z.eqb_refl.
      rewrite andb_false_r. reflexivity. }
    assert (Bs : ispTransmit s = ispTransmit_sw ->
                 Z.testbit (ISP_OUT (snd r1)) ISP_SCK = false /\
                 Z.testbit (ISP_OUT (snd r1)) ISP_MOSI = false).
    { intro E. rewrite !B by (unfold ISP_SCK, ISP_MOSI; lia). rewrite E, !Z.eqb_refl.
      cbn [negb]. rewrite !andb_false_r. split; reflexivity. }
    assert (Bh : ispTransmit s = ispTransmit_hw ->
                 forall n, 0 <= n < 8 -> n <> ISP_RST ->
                   Z.testbit (ISP_OUT (snd r1)) n = Z.testbit (ISP_OUT s) n).
    { intros E n Hn H1. rewrite B by exact Hn. apply Z.eqb_neq in H1.
      rewrite E, H1. rewrite !andb_true_r. reflexivity. }
    destruct (fst r1).
    + cbn [snd].
      split; [exact Cd|]. split; [exact Bk|]. split; [exact Bl|].
      split; [intros _ _; split; [exact Br | exact Bs]|].
      intros _. split; [lia|]. intros E _. apply Bh, E.
    + set (s1 := set_prog_sck (u8 (prog_sck (spiHWdisable (snd r1)) - 1))
                              (spiHWdisable (snd r1))).
      destruct (ispSetSCKOption_frame (prog_sck s1) s1) as (_ & _ & Fp & Fo & Fd & _).
      set (s2 := ispSetSCKOption (prog_sck s1) s1) in *.
      assert (O2 : ISP_OUT s2 = ISP_OUT (snd r1)) by (rewrite Fo; reflexivity).
      assert (D2 : ISP_DDR s2 = ISP_DDR s) by (rewrite Fd; exact Cd).
      assert (P2 : prog_sck s2 = u8 (prog_sck s - 1))
        by (rewrite Fp; unfold s1; cbn [set_prog_sck prog_sck spiHWdisable set_SPCR];
            rewrite Lp; reflexivity).
      destruct (IH s2) as (I1 & I2 & I3 & _ & I5).
      rewrite O2 in I2, I3, I5.
      split; [congruence|].
      split; [intros n Hn H1 H2 H3; rewrite I2 by assumption; apply Bk; assumption|].
      split; [intros n Hn H; apply Bl; [exact Hn | apply I3; assumption]|].
      split.
      { intros _ _. split.
        - destruct (Z.testbit (ISP_OUT (snd (speed_ladder fuel s2))) ISP_RST) eqn:E;
            [|reflexivity].
          apply I3 in E; [congruence | unfold ISP_RST; lia].
        - intro Ev. destruct (Bs Ev) as [Bs1 Bs2]. split.
          + destruct (Z.testbit (ISP_OUT (snd (speed_ladder fuel s2))) ISP_SCK) eqn:E;
              [|reflexivity].
            apply I3 in E; [congruence | unfold ISP_SCK; lia].
          + destruct (Z.testbit (ISP_OUT (snd (speed_ladder fuel s2))) ISP_MOSI) eqn:E;
              [|reflexivity].
            apply I3 in E; [congruence | unfold ISP_MOSI; lia]. }
      intro Hs. unfold USBASP_ISP_SCK_0_5 in Hge.
      rewrite u8_small in P2 by lia.
      destruct (I5 ltac:(lia)) as [J1 J2].
      split; [lia|].
      intros Ev Hp n Hn H1.
      assert (G : USBASP_ISP_SCK_93_75 <= prog_sck s1) by (rewrite <- Fp; lia).
      destruct (ispSetSCKOption_hw (prog_sck s1) s1 G) as [Tv _]. fold s2 in Tv.
      rewrite (J2 Tv Hp n Hn H1). apply Bh; assumption.
Qed.

(** X11.  Whatever its outcome, once [ispEnterProgrammingMode] has made an
    attempt it leaves the reset line low and the line directions untouched;
    it raises no output bit of the port, and leaves every bit but those of
    the reset, clock and data-out lines as it was.  Entered over the
    software transport it leaves the clock and data-out bits low, as the
    last byte shifted out leaves them.  Entered over the hardware
    transport, and as long as it has not stepped down to a software tier
    ([prog_sck] still at [USBASP_ISP_SCK_93_75] or above), the reset bit is
    the only one it has touched. *)
Theorem handshake_leaves_reset_low :
  forall fuel s,
    (0 < fuel)%nat ->
    0 <= prog_sck s ->
    Z.testbit (ISP_OUT (snd (ispEnterProgrammingMode fuel s))) ISP_RST = false /\
    (forall n, 0 <= n < 8 -> n <> ISP_RST -> n <> ISP_SCK -> n <> ISP_MOSI ->
       Z.testbit (ISP_OUT (snd (ispEnterProgrammingMode fuel s))) n
       = Z.testbit (ISP_OUT s) n) /\
    (forall n, 0 <= n < 8 ->
       Z.testbit (ISP_OUT (snd (ispEnterProgrammingMode fuel s))) n = true ->
       Z.testbit (ISP_OUT s) n = true) /\
    (ispTransmit s = ispTransmit_sw ->
     Z.testbit (ISP_OUT (snd (ispEnterProgrammingMode fuel s))) ISP_SCK = false /\
     Z.testbit (ISP_OUT (snd (ispEnterProgrammingMode fuel s))) ISP_MOSI = false) /\
    (ispTransmit s = ispTransmit_hw ->
     prog_sck s < 256 ->
     USBASP_ISP_SCK_93_75 <= prog_sck (snd (ispEnterProgrammingMode fuel s)) ->
     forall n, 0 <= n < 8 -> n <> ISP_RST ->
       Z.testbit (ISP_OUT (snd (ispEnterProgrammingMode fuel s))) n
       = Z.testbit (ISP_OUT s) n) /\
    ISP_DDR (snd (ispEnterProgrammingMode fuel s)) = ISP_DDR s.
Proof.
  intros fuel s Hf Hs. unfold ispEnterProgrammingMode.
  set (s0 := if prog_sck s =? 0 then set_prog_sck USBASP_ISP_SCK_1500 s else s).
  assert (F : ISP_OUT s0 = ISP_OUT s /\ ISP_DDR s0 = ISP_DDR s /\
              ispTransmit s0 = ispTransmit s /\
              USBASP_ISP_SCK_0_5 <= prog_sck s0 /\
              (prog_sck s < 256 -> prog_sck s0 < 256)).
  { unfold s0. destruct (prog_sck s =? 0) eqn:E.
    - repeat split; cbn [prog_sck set_prog_sck];
        unfold USBASP_ISP_SCK_0_5, USBASP_ISP_SCK_1500; lia.
    - apply Z.eqb_neq in E. repeat split; [unfold USBASP_ISP_SCK_0_5; lia | tauto]. }
  destruct F as (Fo & Fd & Fv & Fp & Fq).
  destruct (speed_ladder_lines fuel s0) as (Ld & Lk & Ll & Lr & Lh).
  rewrite Fo in Lk, Ll, Lh. rewrite Fv in Lr, Lh.
  destruct (Lr Hf Fp) as [R1 R2].
  split; [exact R1|]. split; [exact Lk|]. split; [exact Ll|]. split; [exact R2|].
  split; [|congruence].
  intros Ev Hq. unfold USBASP_ISP_SCK_0_5 in Fp.
  destruct (Lh ltac:(split; [lia | apply Fq, Hq])) as [_ H]. apply H, Ev.
Qed.

End Engine.

(** * The software transport *)

Section SoftwareTransport.

Variable ISP_IN : state -> Z.
Variable spin : state -> nat.

(** ** The busy wait *)

Lemma later_refl : forall s, later s s.
Proof. intro s. unfold later. repeat split; solve [reflexivity | lia]. Qed.

Lemma later_trans : forall s1 s2 s3, later s1 s2 -> later s2 s3 -> later s1 s3.
Proof.
  unfold later.
  intros s1 s2 s3 (A1 & A2 & A3 & A4 & A5 & A6 & A7 & A8 & A9 & A10)
    (B1 & B2 & B3 & B4 & B5 & B6 & B7 & B8 & B9 & B10).
  repeat split; solve [congruence | lia].
Qed.

Lemma pass_later : forall s, later s (Wire.pass spin s).
Proof.
  intro s. unfold later, Wire.pass. cbn [sck_sw_delay isp_hiaddr prog_sck ispTransmit
    SPCR SPSR ISP_DDR ISP_OUT trace ticks].
  repeat split; solve [reflexivity | lia].
Qed.

Lemma busy_wait_S : forall fuel starttime s,
  Wire.busy_wait spin (S fuel) starttime s =
  if u8 (TIMERVALUE s - starttime) <? sck_sw_delay s
  then Wire.busy_wait spin fuel starttime (Wire.pass spin s)
  else Some s.
Proof. reflexivity. Qed.

(** When the wait ends, the state is the one it started in, later, and the
    8-bit difference of the counter has reached the delay. *)
Lemma busy_wait_returns : forall fuel starttime s s',
  Wire.busy_wait spin fuel starttime s = Some s' ->
  later s s' /\ sck_sw_delay s <= u8 (TIMERVALUE s' - starttime).
Proof.
  induction fuel as [|fuel IH]; intros starttime s s' H; [discriminate|].
  rewrite busy_wait_S in H.
  destruct (u8 (TIMERVALUE s - starttime) <? sck_sw_delay s) eqn:E.
  - destruct (IH _ _ _ H) as [L B]. split.
    + eapply later_trans; [apply pass_later | exact L].
    + exact B.
  - injection H as <-. split; [apply later_refl|]. apply Z.ltb_ge in E. exact E.
Qed.

Lemma ispDelay_returns : forall fuel s s',
  Wire.ispDelay spin fuel s = Some s' ->
  later s s' /\ sck_sw_delay s <= ticks s' - ticks s.
Proof.
  intros fuel s s' H. unfold Wire.ispDelay in H.
  destruct (busy_wait_returns _ _ _ _ H) as [L B]. split; [exact L|].
  unfold TIMERVALUE in B. rewrite u8_sub in B.
  assert (0 <= ticks s' - ticks s) by (destruct L as (_&_&_&_&_&_&_&_&_&T); lia).
  pose proof (Z.mod_le (ticks s' - ticks s) 256 ltac:(lia) ltac:(lia)).
  unfold u8 in B. lia.
Qed.

Lemma busy_wait_terminates : forall k s t0,
  spin_within spin (256 - sck_sw_delay s) ->
  0 <= ticks s - t0 <= 255 ->
  sck_sw_delay s - (ticks s - t0) <= Z.of_nat k ->
  exists s',
    (forall fuel, (k < fuel)%nat -> Wire.busy_wait spin fuel (u8 t0) s = Some s') /\
    ticks s' - t0 <= 255.
Proof.
  induction k as [|k IH]; intros s t0 Hspin He Hk;
    assert (Hseen : u8 (TIMERVALUE s - u8 t0) = ticks s - t0)
      by (unfold TIMERVALUE; rewrite u8_sub; apply u8_small; lia).
  - exists s. split; [|lia]. intros [|fuel] Hf; [lia|].
    rewrite busy_wait_S, Hseen.
    assert (E : (ticks s - t0 <? sck_sw_delay s) = false) by (apply Z.ltb_ge; lia).
    rewrite E. reflexivity.
  - destruct (ticks s - t0 <? sck_sw_delay s) eqn:E.
    + apply Z.ltb_lt in E. pose proof (Hspin s) as Hs.
      destruct (IH (Wire.pass spin s) t0) as (s' & Hf & Ht).
      * exact Hspin.
      * cbn [Wire.pass ticks]. lia.
      * cbn [Wire.pass ticks sck_sw_delay]. lia.
      * exists s'. split; [|exact Ht]. intros [|fuel] Hlt; [lia|].
        rewrite busy_wait_S, Hseen.
        assert (E' : (ticks s - t0 <? sck_sw_delay s) = true) by (apply Z.ltb_lt; lia).
        rewrite E'. apply Hf. lia.
    + exists s. split; [|lia]. intros [|fuel] Hf; [lia|].
      rewrite busy_wait_S, Hseen, E. reflexivity.
Qed.

Lemma ispDelay_total : forall s,
  0 <= sck_sw_delay s ->
  spin_within spin (256 - sck_sw_delay s) ->
  exists s',
    (forall fuel, (Z.to_nat (sck_sw_delay s) < fuel)%nat ->
       Wire.ispDelay spin fuel s = Some s') /\
    ticks s' - ticks s <= 255.
Proof.
  intros s Hd Hspin.
  destruct (busy_wait_terminates (Z.to_nat (sck_sw_delay s)) s (ticks s) Hspin)
    as (s' & Hf & Ht); [lia | lia |].
  exists s'. split; [exact Hf | exact Ht].
Qed.

(** X12.  When every pass of its loop takes at least one tick and no more
    than 256 less the delay, [ispDelay] returns, after at least
    [sck_sw_delay] ticks and at most 255, having changed nothing; with
    [sck_sw_delay] 0 it returns at once. *)
Theorem ispDelay_waits_sck_sw_delay :
  forall s,
    0 <= sck_sw_delay s ->
    spin_within spin (256 - sck_sw_delay s) ->
    exists s',
      (forall fuel, (Z.to_nat (sck_sw_delay s) < fuel)%nat ->
         Wire.ispDelay spin fuel s = Some s') /\
      later s s' /\
      sck_sw_delay s <= ticks s' - ticks s <= 255 /\
      (sck_sw_delay s = 0 -> s' = s).
Proof.
  intros s Hd Hspin.
  destruct (ispDelay_total s Hd Hspin) as (s' & Hf & Ht).
  assert (H1 : Wire.ispDelay spin (S (Z.to_nat (sck_sw_delay s))) s = Some s')
    by (apply Hf; lia).
  destruct (ispDelay_returns _ _ _ H1) as [L B].
  exists s'. split; [exact Hf|]. split; [exact L|]. split; [lia|].
  intro H0. unfold Wire.ispDelay in H1. rewrite busy_wait_S in H1.
  replace (TIMERVALUE s - TIMERVALUE s) with 0 in H1 by lia.
  rewrite H0 in H1. change (u8 0 <? 0) with false in H1. cbv iota in H1.
  congruence.
Qed.

(** ** Shifting a byte *)

(** The data-out pin after the statement that sets it. *)
Lemma put_mosi_spec : forall send_byte s,
  trace (Wire.put_mosi send_byte s) = trace s ++ [Out (ISP_OUT (Wire.put_mosi send_byte s))] /\
  (forall j, 0 <= j < 8 ->
     Z.testbit (ISP_OUT (Wire.put_mosi send_byte s)) j
     = if j =? ISP_MOSI then Z.testbit send_byte 7 else Z.testbit (ISP_OUT s) j) /\
  ISP_DDR (Wire.put_mosi send_byte s) = ISP_DDR s /\
  sck_sw_delay (Wire.put_mosi send_byte s) = sck_sw_delay s /\
  ticks (Wire.put_mosi send_byte s) = ticks s.
Proof.
  intros send_byte s. unfold Wire.put_mosi. rewrite msb_test.
  destruct (Z.testbit send_byte 7);
    cbn [set_ISP_OUT trace ISP_OUT ISP_DDR sck_sw_delay ticks];
    (split; [reflexivity|]); (split; [|repeat split; reflexivity]); intros j Hj.
  - rewrite testbit_set_line by (unfold ISP_MOSI; lia).
    destruct (j =? ISP_MOSI); [apply orb_true_r | apply orb_false_r].
  - rewrite testbit_clear_line by (unfold ISP_MOSI; lia).
    destruct (j =? ISP_MOSI); [apply andb_false_r | apply andb_true_r].
Qed.

(** One clock pulse: high, [ispDelay], low, [ispDelay]. *)
Lemma clock_pulse : forall fuel m c l,
  Wire.ispDelay spin fuel
    (set_ISP_OUT (u8 (Z.lor (ISP_OUT m) (Z.shiftl 1 ISP_SCK))) m) = Some c ->
  Wire.ispDelay spin fuel
    (set_ISP_OUT (u8 (Z.land (ISP_OUT c) (Z.lnot (Z.shiftl 1 ISP_SCK)))) c) = Some l ->
  trace l = trace m ++ [Out (u8 (Z.lor (ISP_OUT m) (Z.shiftl 1 ISP_SCK)));
                        Out (ISP_OUT l)] /\
  (forall j, 0 <= j < 8 ->
     Z.testbit (ISP_OUT l) j = Z.testbit (ISP_OUT m) j && negb (j =? ISP_SCK)) /\
  ISP_DDR l = ISP_DDR m /\
  sck_sw_delay l = sck_sw_delay m /\
  2 * sck_sw_delay m <= ticks l - ticks m.
Proof.
  intros fuel m c l Hc Hl.
  destruct (ispDelay_returns _ _ _ Hc) as [(C1 & _ & _ & _ & _ & _ & C7 & C8 & C9 & C10) Cd].
  destruct (ispDelay_returns _ _ _ Hl) as [(L1 & _ & _ & _ & _ & _ & L7 & L8 & L9 & L10) Ld].
  cbn [set_ISP_OUT sck_sw_delay ISP_DDR ISP_OUT trace ticks] in *.
  split; [rewrite L9, C9, L8, C8, <- app_assoc; reflexivity|].
  split.
  - intros j Hj. rewrite L8, C8.
    rewrite testbit_clear_line, testbit_set_line by (unfold ISP_SCK; lia).
    destruct (Z.testbit (ISP_OUT m) j), (j =? ISP_SCK); reflexivity.
  - split; [congruence|]. split; [congruence|]. lia.
Qed.

Lemma shift_bits_S : forall n fuel send_byte rec_byte s,
  Wire.shift_bits ISP_IN spin (S n) fuel send_byte rec_byte s =
  match Wire.ispDelay spin fuel
          (set_ISP_OUT (u8 (Z.lor (ISP_OUT (Wire.put_mosi send_byte s))
                                  (Z.shiftl 1 ISP_SCK)))
                       (Wire.put_mosi send_byte s)) with
  | None => None
  | Some c =>
      match Wire.ispDelay spin fuel
              (set_ISP_OUT (u8 (Z.land (ISP_OUT c) (Z.lnot (Z.shiftl 1 ISP_SCK)))) c) with
      | None => None
      | Some l =>
          Wire.shift_bits ISP_IN spin n fuel (u8 (Z.shiftl send_byte 1))
            (if Z.testbit (ISP_IN (Wire.put_mosi send_byte s)) ISP_MISO
             then u8 (u8 (Z.shiftl rec_byte 1) + 1)
             else u8 (Z.shiftl rec_byte 1))
            l
      end
  end.
Proof.
  intros n fuel send_byte rec_byte s.
  rewrite <- (line_test (ISP_IN (Wire.put_mosi send_byte s)) ISP_MISO)
    by (unfold ISP_MISO; lia).
  reflexivity.
Qed.

Lemma mosi_at_rising_edges_app : forall t1 t2,
  mosi_at_rising_edges (t1 ++ t2) = mosi_at_rising_edges t1 ++ mosi_at_rising_edges t2.
Proof.
  induction t1 as [|e t1 IH]; intro t2; [reflexivity|].
  destruct e; cbn [app mosi_at_rising_edges]; rewrite IH; try reflexivity.
  destruct (Z.testbit v ISP_SCK); reflexivity.
Qed.

Lemma bits_msb_first_S : forall n b,
  (n < 8)%nat ->
  bits_msb_first (S n) b = Z.testbit b 7 :: bits_msb_first n (u8 (Z.shiftl b 1)).
Proof.
  intros n b Hn. unfold bits_msb_first. cbn [seq map]. f_equal.
  rewrite <- seq_shift, map_map. apply map_ext_in. intros k Hk.
  apply in_seq in Hk.
  rewrite testbit_u8, Z.shiftl_spec by lia. f_equal. lia.
Qed.

(** What a run of the loop that returns has done. *)
Lemma shift_bits_returns : forall n fuel send_byte rec_byte s r s',
  (n <= 8)%nat ->
  Wire.shift_bits ISP_IN spin n fuel send_byte rec_byte s = Some (r, s') ->
  exists d,
    extends_by s s' d /\
    sent d = [] /\
    (Z.testbit (ISP_OUT s) ISP_SCK = false ->
     mosi_at_rising_edges d = bits_msb_first n send_byte) /\
    ((0 < n)%nat ->
     Z.testbit (ISP_OUT s') ISP_SCK = false /\
     Z.testbit (ISP_OUT s') ISP_MOSI = Z.testbit send_byte (8 - Z.of_nat n) /\
     0 <= r < 256) /\
    (forall j, 0 <= j < 8 -> j <> ISP_SCK -> j <> ISP_MOSI ->
       Z.testbit (ISP_OUT s') j = Z.testbit (ISP_OUT s) j) /\
    ISP_DDR s' = ISP_DDR s /\
    sck_sw_delay s' = sck_sw_delay s /\
    2 * Z.of_nat n * sck_sw_delay s <= ticks s' - ticks s.
Proof.
  induction n as [|n IH]; intros fuel send_byte rec_byte s r s' Hn H.
  - cbn [Wire.shift_bits] in H. injection H as <- <-.
    exists []. split; [apply extends_refl|]. split; [reflexivity|].
    split; [reflexivity|]. split; [lia|]. repeat split; try reflexivity. lia.
  - rewrite shift_bits_S in H.
    destruct (put_mosi_spec send_byte s) as (Mt & Mb & Md & Ms & Mk).
    set (m := Wire.put_mosi send_byte s) in *.
    destruct (Wire.ispDelay spin fuel _) as [c|] eqn:Hc; [|discriminate].
    destruct (Wire.ispDelay spin fuel (set_ISP_OUT _ c)) as [l|] eqn:Hl; [|discriminate].
    destruct (clock_pulse _ _ _ _ Hc Hl) as (Pt & Pb & Pd & Ps & Pk).
    match type of H with
    | Wire.shift_bits _ _ _ _ _ ?rec' _ = _ => set (rec1 := rec') in *
    end.
    destruct (IH _ _ _ _ _ _ ltac:(lia) H) as (d & Dx & Dn & De & Dl & Do & Dd & Ds & Dk).
    assert (Lsck : Z.testbit (ISP_OUT l) ISP_SCK = false).
    { rewrite Pb by (unfold ISP_SCK; lia). rewrite Z.eqb_refl. apply andb_false_r. }
    assert (Lmosi : Z.testbit (ISP_OUT l) ISP_MOSI = Z.testbit send_byte 7).
    { rewrite Pb, Mb by (unfold ISP_MOSI; lia). rewrite Z.eqb_refl.
      apply andb_true_r. }
    exists ([Out (ISP_OUT m);
             Out (u8 (Z.lor (ISP_OUT m) (Z.shiftl 1 ISP_SCK)));
             Out (ISP_OUT l)] ++ d).
    split.
    { unfold extends_by in *. rewrite Dx, Pt, Mt, <- !app_assoc. reflexivity. }
    split; [rewrite sent_app, Dn; reflexivity|].
    split.
    { intro Hs. rewrite mosi_at_rising_edges_app, (De Lsck), bits_msb_first_S by lia.
      cbn [mosi_at_rising_edges].
      assert (E1 : Z.testbit (ISP_OUT m) ISP_SCK = false)
        by (rewrite Mb by (unfold ISP_SCK; lia); exact Hs).
      assert (E2 : Z.testbit (u8 (Z.lor (ISP_OUT m) (Z.shiftl 1 ISP_SCK))) ISP_SCK = true)
        by (rewrite testbit_set_line by (unfold ISP_SCK; lia);
            rewrite Z.eqb_refl; apply orb_true_r).
      assert (E3 : Z.testbit (u8 (Z.lor (ISP_OUT m) (Z.shiftl 1 ISP_SCK))) ISP_MOSI
                   = Z.testbit send_byte 7).
      { rewrite testbit_set_line, Mb by (unfold ISP_SCK, ISP_MOSI; lia).
        rewrite Z.eqb_refl. apply orb_false_r. }
      rewrite E1, E2, E3, Lsck. reflexivity. }
    split.
    { intros _. destruct n as [|n'].
      - cbn [Wire.shift_bits] in H. injection H as <- <-.
        split; [exact Lsck|]. split; [exact Lmosi|].
        unfold rec1. destruct (Z.testbit _ ISP_MISO); apply u8_range.
      - destruct (Dl ltac:(lia)) as (Q1 & Q2 & Q3).
        split; [exact Q1|]. split; [|exact Q3].
        rewrite Q2, testbit_u8, Z.shiftl_spec by lia. f_equal. lia. }
    split.
    { intros j Hj H1 H2. rewrite (Do j Hj H1 H2), Pb, Mb by lia.
      apply Z.eqb_neq in H1, H2. rewrite H1, H2. apply andb_true_r. }
    split; [congruence|]. split; [congruence|].
    rewrite Ps, Ms in Dk. rewrite Ms in Pk. lia.
Qed.

(** With the data-in line wired to the data-out line the loop shifts in what
    it shifts out. *)
Lemma shift_bits_loopback : forall n fuel send_byte rec_byte s r s' P,
  loopback ISP_IN ->
  P * 2 ^ Z.of_nat n = 256 ->
  0 < P ->
  0 <= send_byte < 256 ->
  0 <= rec_byte < P ->
  Wire.shift_bits ISP_IN spin n fuel send_byte rec_byte s = Some (r, s') ->
  r = rec_byte * 2 ^ Z.of_nat n + send_byte / P.
Proof.
  induction n as [|n IH]; intros fuel send_byte rec_byte s r s' P Hloop HP Hpos Hs Hr H.
  - cbn [Wire.shift_bits] in H. injection H as <- _.
    change (2 ^ Z.of_nat 0) with 1 in *. rewrite Z.div_small by lia. lia.
  - rewrite shift_bits_S in H.
    destruct (put_mosi_spec send_byte s) as (_ & Mb & _).
    rewrite Hloop, Mb, Z.eqb_refl, (msb_ge _ Hs) in H by (unfold ISP_MOSI; lia).
    destruct (Wire.ispDelay spin fuel _) as [c|]; [|discriminate].
    destruct (Wire.ispDelay spin fuel (set_ISP_OUT _ c)) as [l|]; [|discriminate].
    rewrite Nat2Z.inj_succ, Z.pow_succ_r in HP |- * by lia.
    set (q := 2 ^ Z.of_nat n) in *.
    assert (Hq : 0 < q) by (apply Z.pow_pos_nonneg; lia).
    assert (HP' : 2 * P * q = 256) by lia.
    assert (Hrec : u8 (Z.shiftl rec_byte 1) = 2 * rec_byte).
    { rewrite Z.shiftl_mul_pow2 by lia. change (2 ^ 1) with 2.
      rewrite Z.mul_comm. apply u8_small. nia. }
    assert (Hsend : Z.shiftl send_byte 1 = 2 * send_byte)
      by (rewrite Z.shiftl_mul_pow2 by lia; change (2 ^ 1) with 2; lia).
    rewrite Hrec, Hsend in H.
    destruct (128 <=? send_byte) eqn:E.
    + apply Z.leb_le in E.
      assert (Hs' : u8 (2 * send_byte) = 2 * (send_byte - 128)).
      { unfold u8. replace (2 * send_byte) with (2 * (send_byte - 128) + 1 * 256) by lia.
        rewrite Z_mod_plus_full. apply Z.mod_small. lia. }
      rewrite Hs' in H.
      assert (Hr' : u8 (2 * rec_byte + 1) = 2 * rec_byte + 1) by (apply u8_small; nia).
      rewrite Hr' in H.
      apply (IH _ _ _ _ _ _ (2 * P) Hloop) in H; [|lia ..]. rewrite H.
      rewrite Z.div_mul_cancel_l by lia.
      replace send_byte with ((send_byte - 128) + q * P) at 2 by nia.
      rewrite Z.div_add by lia. lia.
    + apply Z.leb_gt in E.
      assert (Hs' : u8 (2 * send_byte) = 2 * send_byte) by (apply u8_small; lia).
      rewrite Hs' in H.
      apply (IH _ _ _ _ _ _ (2 * P) Hloop) in H; [|lia ..]. rewrite H.
      rewrite Z.div_mul_cancel_l by lia. lia.
Qed.

Lemma shift_bits_total : forall n send_byte rec_byte s,
  0 <= sck_sw_delay s ->
  spin_within spin (256 - sck_sw_delay s) ->
  exists r s',
    (forall fuel, (Z.to_nat (sck_sw_delay s) < fuel)%nat ->
       Wire.shift_bits ISP_IN spin n fuel send_byte rec_byte s = Some (r, s')) /\
    ticks s' - ticks s <= 2 * Z.of_nat n * 255.
Proof.
  induction n as [|n IH]; intros send_byte rec_byte s Hd Hspin.
  - exists rec_byte, s. split; [reflexivity | lia].
  - destruct (put_mosi_spec send_byte s) as (_ & _ & _ & Ms & Mk).
    set (m := Wire.put_mosi send_byte s) in *.
    set (h := set_ISP_OUT (u8 (Z.lor (ISP_OUT m) (Z.shiftl 1 ISP_SCK))) m).
    assert (Sh : sck_sw_delay h = sck_sw_delay s) by exact Ms.
    assert (Kh : ticks h = ticks s) by exact Mk.
    destruct (ispDelay_total h) as (c & Hc & Tc);
      [lia | rewrite Sh; exact Hspin |].
    assert (Lc : sck_sw_delay c = sck_sw_delay h)
      by (eapply ispDelay_returns, (Hc (S (Z.to_nat (sck_sw_delay h)))); lia).
    set (w := set_ISP_OUT (u8 (Z.land (ISP_OUT c) (Z.lnot (Z.shiftl 1 ISP_SCK)))) c).
    assert (Sw : sck_sw_delay w = sck_sw_delay s)
      by (unfold w; cbn [set_ISP_OUT sck_sw_delay]; congruence).
    assert (Kw : ticks w = ticks c) by reflexivity.
    destruct (ispDelay_total w) as (l & Hl & Tl);
      [lia | rewrite Sw; exact Hspin |].
    assert (Ll : sck_sw_delay l = sck_sw_delay w)
      by (eapply ispDelay_returns, (Hl (S (Z.to_nat (sck_sw_delay w)))); lia).
    assert (Sl : sck_sw_delay l = sck_sw_delay s) by congruence.
    destruct (IH (u8 (Z.shiftl send_byte 1))
                 (if Z.testbit (ISP_IN m) ISP_MISO
                  then u8 (u8 (Z.shiftl rec_byte 1) + 1)
                  else u8 (Z.shiftl rec_byte 1)) l) as (r & s' & Hr & Tr);
      [lia | rewrite Sl; exact Hspin |].
    exists r, s'. split.
    + intros fuel Hf. rewrite shift_bits_S. fold m. fold h.
      rewrite (Hc fuel) by lia. fold w. rewrite (Hl fuel) by lia.
      apply Hr. lia.
    + rewrite Nat2Z.inj_succ. lia.
Qed.

(** X13.  Loopback round trip of [ispTransmit_sw]: with the data-in pin
    wired to the data-out pin, and every pass of the busy wait taking at
    least one tick and no more than 256 less the bit delay, the function
    returns, and what it returns is the byte it was given. *)
Theorem ispTransmit_sw_loopback :
  forall send_byte s,
    0 <= send_byte < 256 ->
    0 <= sck_sw_delay s ->
    spin_within spin (256 - sck_sw_delay s) ->
    loopback ISP_IN ->
    exists s',
      forall fuel, (Z.to_nat (sck_sw_delay s) < fuel)%nat ->
        Wire.ispTransmit_sw ISP_IN spin fuel send_byte s = Some (send_byte, s').
Proof.
  intros send_byte s Hs Hd Hspin Hloop.
  destruct (shift_bits_total 8 send_byte 0 s Hd Hspin) as (r & s' & H & _).
  exists s'. intros fuel Hf. unfold Wire.ispTransmit_sw. cbv zeta.
  rewrite (H fuel Hf). f_equal. f_equal.
  rewrite (shift_bits_loopback 8 fuel send_byte 0 s r s' 1 Hloop
             ltac:(reflexivity) ltac:(lia) Hs ltac:(lia) (H fuel Hf)).
  rewrite Z.div_1_r. lia.
Qed.

(** X14.  Whenever [ispTransmit_sw] returns: it has put the bits of
    [send_byte] on the data-out pin most significant bit first, each one in
    place at its rising clock edge (the clock being low on entry); it leaves
    the clock low, the data-out pin at bit 0 of [send_byte], every other
    output bit and the line directions as they were; it has exchanged no
    byte through [ispTransmit]; the byte took at least 16 times
    [sck_sw_delay] ticks, and the result is a byte. *)
Theorem ispTransmit_sw_shifts_msb_first :
  forall fuel send_byte s r s',
    Wire.ispTransmit_sw ISP_IN spin fuel send_byte s = Some (r, s') ->
    extends_by s s' (since s s') /\
    sent (since s s') = [] /\
    (Z.testbit (ISP_OUT s) ISP_SCK = false ->
     mosi_at_rising_edges (since s s') = bits_msb_first 8 send_byte) /\
    Z.testbit (ISP_OUT s') ISP_SCK = false /\
    Z.testbit (ISP_OUT s') ISP_MOSI = Z.testbit send_byte 0 /\
    (forall j, 0 <= j < 8 -> j <> ISP_SCK -> j <> ISP_MOSI ->
       Z.testbit (ISP_OUT s') j = Z.testbit (ISP_OUT s) j) /\
    ISP_DDR s' = ISP_DDR s /\
    16 * sck_sw_delay s <= ticks s' - ticks s /\
    0 <= r < 256.
Proof.
  intros fuel send_byte s r s' H. unfold Wire.ispTransmit_sw in H. cbv zeta in H.
  destruct (shift_bits_returns 8 fuel send_byte 0 s r s' ltac:(lia) H)
    as (d & Dx & Dn & De & Dl & Do & Dd & Ds & Dk).
  destruct (Dl ltac:(lia)) as (Q1 & Q2 & Q3).
  rewrite (since_extends _ _ _ Dx).
  split; [exact Dx|]. split; [exact Dn|]. split; [exact De|].
  split; [exact Q1|]. split; [exact Q2|]. split; [exact Do|].
  split; [exact Dd|]. split; [|exact Q3].
  change (Z.of_nat 8) with 8 in Dk. lia.
Qed.

(** X15.  When every pass of the busy wait takes at least one tick and no
    more than 256 less the bit delay, [ispTransmit_sw] returns whatever the
    data-in pin reads, and the byte takes at least 16 times [sck_sw_delay]
    ticks and at most 16 times 255. *)
Theorem ispTransmit_sw_returns_in_time :
  forall send_byte s,
    0 <= sck_sw_delay s ->
    spin_within spin (256 - sck_sw_delay s) ->
    exists r s',
      (forall fuel, (Z.to_nat (sck_sw_delay s) < fuel)%nat ->
         Wire.ispTransmit_sw ISP_IN spin fuel send_byte s = Some (r, s')) /\
      16 * sck_sw_delay s <= ticks s' - ticks s <= 16 * 255.
Proof.
  intros send_byte s Hd Hspin.
  destruct (shift_bits_total 8 send_byte 0 s Hd Hspin) as (r & s' & H & T).
  exists r, s'. split; [exact H|].
  destruct (shift_bits_returns 8 _ send_byte 0 s r s' ltac:(lia)
              (H (S (Z.to_nat (sck_sw_delay s))) ltac:(lia)))
    as (_ & _ & _ & _ & _ & _ & _ & _ & K).
  change (Z.of_nat 8) with 8 in *. lia.
Qed.

(** ** The byte-level transport and the bit-level one *)

Lemma put_mosi_out : forall send_byte s,
  ISP_OUT (Wire.put_mosi send_byte s)
  = if Z.testbit send_byte 7
    then u8 (Z.lor (ISP_OUT s) (Z.shiftl 1 ISP_MOSI))
    else u8 (Z.land (ISP_OUT s) (Z.lnot (Z.shiftl 1 ISP_MOSI))).
Proof.
  intros send_byte s. unfold Wire.put_mosi. rewrite msb_test.
  destruct (Z.testbit send_byte 7); reflexivity.
Qed.

Lemma put_mosi_config : forall send_byte s,
  same_config s (Wire.put_mosi send_byte s) /\
  isp_hiaddr (Wire.put_mosi send_byte s) = isp_hiaddr s.
Proof.
  intros send_byte s. unfold Wire.put_mosi, same_config.
  destruct (negb _); repeat split; reflexivity.
Qed.

(** The loop writes to [ISP_OUT] what [shift_pins] says, and to nothing
    else of the configuration. *)
Lemma shift_bits_pins : forall n fuel send_byte rec_byte s r s',
  Wire.shift_bits ISP_IN spin n fuel send_byte rec_byte s = Some (r, s') ->
  ISP_OUT s' = shift_pins n send_byte (ISP_OUT s) /\
  same_config s s' /\
  isp_hiaddr s' = isp_hiaddr s.
Proof.
  induction n as [|n IH]; intros fuel send_byte rec_byte s r s' H.
  - cbn [Wire.shift_bits] in H. injection H as _ <-.
    split; [reflexivity|]. split; [unfold same_config; repeat split; reflexivity|].
    reflexivity.
  - rewrite shift_bits_S in H. rewrite shift_pins_S.
    pose proof (put_mosi_out send_byte s) as M.
    destruct (put_mosi_config send_byte s) as [(M1 & M2 & M3 & M4 & M5 & M6) M7].
    set (m := Wire.put_mosi send_byte s) in *.
    destruct (Wire.ispDelay spin fuel _) as [c|] eqn:Hc; [|discriminate].
    destruct (Wire.ispDelay spin fuel (set_ISP_OUT _ c)) as [l|] eqn:Hl; [|discriminate].
    destruct (ispDelay_returns _ _ _ Hc)
      as [(C1 & C2 & C3 & C4 & C5 & C6 & C7 & C8 & _) _].
    destruct (ispDelay_returns _ _ _ Hl)
      as [(L1 & L2 & L3 & L4 & L5 & L6 & L7 & L8 & _) _].
    cbn [set_ISP_OUT ISP_OUT sck_sw_delay isp_hiaddr prog_sck ispTransmit SPCR SPSR
         ISP_DDR] in *.
    destruct (IH _ _ _ _ _ _ H) as (I1 & (I2 & I3 & I4 & I5 & I6 & I7) & I8).
    split; [rewrite I1, L8, C8, M; reflexivity|].
    split; [unfold same_config; repeat split; congruence | congruence].
Qed.

(** X16.  The byte-level transport [transmit] agrees with the loop of
    [ispTransmit_sw]: whenever [ispTransmit_sw] returns, it has left in
    [ISP_OUT] what [transmit] over the software transport leaves there, and
    like [transmit] it has changed neither the line directions, nor the
    speed setting, nor the SPI registers, nor the cache; and the byte and
    the time agree when the target's answer and the ticks of the exchange
    are those the loop saw. *)
Theorem transmit_agrees_with_ispTransmit_sw :
  forall target byte_ticks fuel send_byte s r s',
    0 <= send_byte < 256 ->
    Wire.ispTransmit_sw ISP_IN spin fuel send_byte s = Some (r, s') ->
    ISP_OUT (snd (transmit target byte_ticks ispTransmit_sw send_byte s)) = ISP_OUT s' /\
    same_config (snd (transmit target byte_ticks ispTransmit_sw send_byte s)) s' /\
    isp_hiaddr (snd (transmit target byte_ticks ispTransmit_sw send_byte s))
    = isp_hiaddr s' /\
    (u8 (target s send_byte) = r ->
     fst (transmit target byte_ticks ispTransmit_sw send_byte s) = r) /\
    (Z.of_nat (byte_ticks s send_byte) = ticks s' - ticks s ->
     ticks (snd (transmit target byte_ticks ispTransmit_sw send_byte s)) = ticks s').
Proof.
  intros target byte_ticks fuel send_byte s r s' Hb H.
  unfold Wire.ispTransmit_sw in H. cbv zeta in H.
  destruct (shift_bits_pins _ _ _ _ _ _ _ H) as (P & (C1 & C2 & C3 & C4 & C5 & C6) & Ph).
  unfold transmit. cbv zeta.
  cbn [fst snd ISP_OUT isp_hiaddr ticks sck_sw_delay ispTransmit SPCR SPSR prog_sck
       ISP_DDR].
  rewrite (u8_small send_byte Hb).
  split; [symmetry; exact P|].
  split; [unfold same_config;
          cbn [sck_sw_delay ispTransmit SPCR SPSR prog_sck ISP_DDR];
          repeat split; assumption|].
  split; [symmetry; exact Ph|].
  split; [intro E; exact E | intro E; lia].
Qed.

End SoftwareTransport.

(** * The model at work *)

(** C1 as stated fails at an address in the window [0xFF]: after
    [ispConnect] the cache is [0xFF], the computed high byte of
    [0x1FE0000] is [0xFF] too, and the first flash read sends its read
    command only. *)
Lemma first_access_in_window_0xFF_sends_no_load :
  u8 (Z.shiftr 0x1FE0000 17) = 0xFF /\
  sent (since (ispConnect idle)
         (snd (ispReadFlash (answers 0) (ticks_per_byte 1) 0x1FE0000 (ispConnect idle))))
  = [0x20; 0x00; 0x00; 0x00].
Proof. split; vm_compute; reflexivity. Qed.

(** On a link where a byte exchange takes one tick a readback takes four
    ticks, or eight when it loads the extended address first. *)
Lemma readback_in_window_at_one_tick : forall target address,
  readback_in_window target (ticks_per_byte 1) address.
Proof.
  intros target address s.
  assert (T : forall f b s0,
            ticks (snd (transmit target (ticks_per_byte 1) f b s0)) = ticks s0 + 1)
    by reflexivity.
  assert (U : ticks s <= ticks (ispUpdateExtended target (ticks_per_byte 1) address s)
              <= ticks s + 4).
  { unfold ispUpdateExtended.
    destruct (negb (isp_hiaddr s =? u8 (Z.shiftr address 17))); [|lia].
    repeat match goal with
           | |- context [let (_, s1) := transmit ?t ?k ?f ?b ?s0 in _] =>
               let H := fresh "H" in
               let r := fresh "r" in
               let s1 := fresh "s" in
               pose proof (T f b s0) as H;
               destruct (transmit t k f b s0) as [r s1]; cbn [snd] in H
           end.
    cbn [set_isp_hiaddr ticks] in *. lia. }
  unfold ispReadFlash.
  set (u := ispUpdateExtended target (ticks_per_byte 1) address s) in *.
  repeat match goal with
         | |- context [let (_, s1) := transmit ?t ?k ?f ?b ?s0 in _] =>
             let H := fresh "H" in
             let r := fresh "r" in
             let s1 := fresh "s" in
             pose proof (T f b s0) as H;
             destruct (transmit t k f b s0) as [r s1]; cbn [snd] in H
         end.
  match goal with
  | |- context [transmit ?t ?k ?f ?b ?s0] => pose proof (T f b s0) as H3
  end.
  unfold CLOCK_T_320us. lia.
Qed.

Lemma always_busy_answers : forall busy ticks_of address,
  0 <= busy < 256 -> always_busy (answers busy) ticks_of address busy.
Proof.
  intros busy ticks_of address H s. unfold ispReadFlash.
  repeat match goal with
         | |- context [let (_, s1) := transmit ?t ?k ?f ?b ?s0 in _] =>
             destruct (transmit t k f b s0) as [? ?]
         end.
  unfold transmit, answers. cbn [fst]. apply Z.mod_small. exact H.
Qed.

(** The budget kept: address 0, one tick to the byte, a target that answers
    [0x7F] to everything. *)
Lemma poll_times_out_at_one_tick :
  readback_in_window (answers 0x7F) (ticks_per_byte 1) 0 /\
  exists n s',
    (forall fuel, (n <= fuel)%nat ->
       ispWriteFlash (answers 0x7F) (ticks_per_byte 1) fuel 0 0 1 idle = (Some 1, s')) /\
    (forall fuel, (fuel < n)%nat ->
       fst (ispWriteFlash (answers 0x7F) (ticks_per_byte 1) fuel 0 0 1 idle) = None) /\
    30 * (CLOCK_T_320us + 1)
      <= ticks s'
         - ticks (snd (ispWriteFlash (answers 0x7F) (ticks_per_byte 1) 0 0 0 1 idle))
      <= 30 * 255.
Proof.
  split; [apply readback_in_window_at_one_tick|].
  apply (proj1 (poll_times_out_after_30_windows (answers 0x7F) (ticks_per_byte 1) 0
                  (readback_in_window_at_one_tick (answers 0x7F) 0)) 0 1 idle).
  - discriminate.
  - discriminate.
  - apply always_busy_answers. lia.
Defined.

(** A readback of address 0 in window 0 on a link where a byte exchange
    takes 64 ticks ends 256 ticks after it started. *)
Lemma readback_takes_a_full_turn : forall target s,
  isp_hiaddr s = 0 ->
  ticks (snd (ispReadFlash target (ticks_per_byte 64) 0 s)) = ticks s + 256.
Proof.
  intros target s H. unfold ispReadFlash.
  rewrite (ispUpdateExtended_same target (ticks_per_byte 64) 0 s H).
  assert (T : forall f b s0,
            ticks (snd (transmit target (ticks_per_byte 64) f b s0)) = ticks s0 + 64)
    by reflexivity.
  repeat match goal with
         | |- context [let (_, s1) := transmit ?t ?k ?f ?b ?s0 in _] =>
             let H := fresh "H" in
             let r := fresh "r" in
             let s1 := fresh "s" in
             pose proof (T f b s0) as H;
             destruct (transmit t k f b s0) as [r s1]; cbn [snd] in H
         end.
  rewrite T. lia.
Qed.

Lemma poll_stuck_on_a_full_turn : forall fuel s,
  isp_hiaddr s = 0 ->
  fst (poll_flash (answers 0x7F) (ticks_per_byte 64) fuel 0 0x7F 30 (TIMERVALUE s) s)
  = None.
Proof.
  induction fuel as [|fuel IH]; intros s H; [reflexivity|].
  rewrite poll_flash_S. change (30 =? 0) with false. cbv iota zeta.
  rewrite (always_busy_answers 0x7F (ticks_per_byte 64) 0 ltac:(lia) s).
  change (127 =? 127) with true. cbv iota.
  assert (E : TIMERVALUE (snd (ispReadFlash (answers 127) (ticks_per_byte 64) 0 s))
              = TIMERVALUE s).
  { unfold TIMERVALUE. rewrite (readback_takes_a_full_turn _ _ H).
    unfold u8. apply (Z_mod_plus_full (ticks s) 1 256). }
  rewrite E, Z.sub_diag. change (u8 0 >? CLOCK_T_320us) with false. cbv iota.
  rewrite <- E. apply IH.
  rewrite ispReadFlash_hiaddr. reflexivity.
Qed.

(** C2.  The timeout of the polling loop is missed when a readback takes
    one full turn of the 8-bit counter.  The session: [ispConnect], the
    software tier [USBASP_ISP_SCK_32] (bit delay 3, so that a byte takes 48
    ticks at least), a byte exchange that takes 64 ticks, a target that
    answers [0x7F] to every readback.  [ispWriteFlash] of data [0x00] at
    address 0 with polling requested samples
    [(uint8_t) (TIMERVALUE - starttime)] once in each pass, 256 ticks after
    the sample before: it reads 0 every time, never more than
    [CLOCK_T_320us], [retries] is never taken down from 30, and whatever
    the fuel the call is still polling: it does not return 1. *)
Lemma polling_never_times_out_on_a_full_turn :
  always_busy (answers 0x7F) (ticks_per_byte 64) 0 0x7F /\
  ispTransmit (ispSetSCKOption USBASP_ISP_SCK_32 (ispConnect idle)) = ispTransmit_sw /\
  16 * sck_sw_delay (ispSetSCKOption USBASP_ISP_SCK_32 (ispConnect idle)) <= 64 /\
  forall fuel,
    fst (ispWriteFlash (answers 0x7F) (ticks_per_byte 64) fuel 0 0 1
           (ispSetSCKOption USBASP_ISP_SCK_32 (ispConnect idle))) = None.
Proof.
  split; [apply always_busy_answers; lia|].
  split; [reflexivity|]. split; [vm_compute; discriminate|].
  intro fuel. rewrite ispWriteFlash_unfold. cbv zeta.
  change (1 =? 0) with false. change (0 =? 127) with false. cbv iota.
  apply poll_stuck_on_a_full_turn. vm_compute. reflexivity.
Qed.

(** C3, at work: a target that never answers exhausts the ladder from the
    default tier, 36 attempts, the last one at the slowest tier, over the
    software transport with bit delay 192 and the SPI peripheral off. *)
Lemma ladder_exhausted_by_silent_target :
  0 <= prog_sck idle < 256 /\
  exists s' l,
    ispEnterProgrammingMode (answers 0) (ticks_per_byte 1) false 13 idle = (Some 1, s') /\
    extends_by idle s' (attempts_events (ISP_OUT idle) l) /\
    length l = 36%nat /\
    prog_sck s' = 0 /\
    forall a, nth_error l 35 = Some a ->
      at_tier a = USBASP_ISP_SCK_0_5 /\
      at_via a = ispTransmit_sw /\
      sck_sw_delay (at_state a) = 192 /\
      SPCR (at_state a) = 0.
Proof.
  assert (H : 0 <= prog_sck idle < 256) by (cbn; lia).
  split; [exact H|].
  destruct (ispEnterProgrammingMode_ladder (answers 0) (ticks_per_byte 1) false idle H)
    as (r & s' & l & Hf & Hx & Hn & _ & Hr & _).
  assert (E : ispEnterProgrammingMode (answers 0) (ticks_per_byte 1) false 13 idle
              = (Some r, s')) by (apply Hf; cbn; lia).
  assert (Er : r = 1).
  { apply (f_equal fst) in E. cbn [fst] in E.
    assert (E1 : fst (ispEnterProgrammingMode (answers 0) (ticks_per_byte 1) false 13 idle)
                 = Some 1) by (vm_compute; reflexivity).
    congruence. }
  subst r. destruct (Hr eq_refl) as [Hl Hp].
  exists s', l.
  split; [exact E|]. split; [exact Hx|]. split; [exact Hl|]. split; [exact Hp|].
  intros a Ha. destruct (Hn 35%nat a Ha) as (E1 & _ & E3 & _ & E4 & _).
  change (at_tier a = 1) in E1.
  change (tier_config (at_tier a) (at_state a)) in E4.
  rewrite E1 in E4, E3. destruct E4 as (_ & D & C).
  split; [exact E1|]. split; [exact E3|]. split; [exact D | exact C].
Defined.

(** The testable property of the handshake: a target that answers at the
    slowest tier only is reached after the whole ladder, at the 34th
    attempt. *)
Lemma slowest_tier_is_reached :
  exists s',
    ispEnterProgrammingMode answers_slowest_only (ticks_per_byte 1) false 13 idle
    = (Some 0, s') /\
    prog_sck s' = USBASP_ISP_SCK_0_5 /\
    ispTransmit s' = ispTransmit_sw /\
    sck_sw_delay s' = 192 /\
    length (sent (since idle s')) = (4 * 34)%nat.
Proof.
  eexists. split; [vm_compute; reflexivity|].
  repeat split; vm_compute; reflexivity.
Qed.

(** C7 as stated fails when the speed was last set to a software tier and
    [prog_sck] is 0: [ispEnterProgrammingMode] shakes hands over the
    software transport at the bit delay of that tier, not over the hardware
    transport of [USBASP_ISP_SCK_1500], and leaves the SPI registers as
    they were. *)
Lemma no_speed_configured_keeps_transport_in_place :
  prog_sck (ispSetSCKOption USBASP_ISP_SCK_8 idle) = 0 /\
  ispTransmit (ispSetSCKOption USBASP_ISP_SCK_1500 (ispSetSCKOption USBASP_ISP_SCK_8 idle))
  = ispTransmit_hw /\
  exists s',
    ispEnterProgrammingMode (answers 0x53) (ticks_per_byte 1) false 13
      (ispSetSCKOption USBASP_ISP_SCK_8 idle) = (Some 0, s') /\
    since (ispSetSCKOption USBASP_ISP_SCK_8 idle) s'
    = attempt_events ispTransmit_sw 0 0x53 0x53 0x53 0x53 /\
    ispTransmit s' = ispTransmit_sw /\
    sck_sw_delay s' = 12 /\
    SPCR s' = 0 /\
    SPSR s' = 0 /\
    prog_sck s' = USBASP_ISP_SCK_1500.
Proof.
  split; [reflexivity|]. split; [reflexivity|].
  eexists. split; [vm_compute; reflexivity|].
  repeat split; vm_compute; reflexivity.
Qed.

(** C8, at work. *)
Lemma ispWriteEEPROM_at_0x1234 :
  0 <= 0x1234 < 65536 /\
  0 <= 0xAB < 256 /\
  exists r0 r1 r2 r3,
    fst (ispWriteEEPROM (answers 0) (ticks_per_byte 1) 0x1234 0xAB idle) = 0 /\
    extends_by idle (snd (ispWriteEEPROM (answers 0) (ticks_per_byte 1) 0x1234 0xAB idle))
      [Tx ispTransmit_hw 0xC0 r0; Tx ispTransmit_hw 0x12 r1;
       Tx ispTransmit_hw 0x34 r2; Tx ispTransmit_hw 0xAB r3; Wait 30].
Proof.
  assert (Ha : 0 <= 0x1234 < 65536) by lia.
  assert (Hd : 0 <= 0xAB < 256) by lia.
  split; [exact Ha|]. split; [exact Hd|].
  exact (proj1 (ispWriteEEPROM_always_succeeds (answers 0) (ticks_per_byte 1) false
                  0x1234 0xAB idle Ha Hd)).
Defined.

(** C6, at work: after [ispConnect], a read in window 1 and a read back in
    window 0, the cache is 0, the byte of the last of the two
    load-extended-address commands sent. *)
Lemma cache_after_two_windows :
  exists n s,
    reachable (answers 0) (ticks_per_byte 1) false n s /\
    sent (skipn n (trace s))
    = [0x4D; 0; 1; 0; 0x20; 0; 0; 0; 0x4D; 0; 0; 0; 0x20; 0; 0; 0] /\
    isp_hiaddr s = 0.
Proof.
  exists (length (trace (ispConnect idle))).
  exists (snd (run (answers 0) (ticks_per_byte 1) false 0 (OpReadFlash 0)
           (snd (run (answers 0) (ticks_per_byte 1) false 0 (OpReadFlash 0x20000)
              (ispConnect idle))))).
  split.
  - apply reach_op; [|discriminate]. apply reach_op; [|discriminate].
    apply reach_connect.
  - split; vm_compute; reflexivity.
Qed.

(** X6, at work: three reads in window 1 right after [ispConnect] load the
    extended address once. *)
Lemma three_reads_in_window_1 :
  Forall (fun a => u8 (Z.shiftr a 17) = 1) [0x20000; 0x20001; 0x3FFFF] /\
  [0x20000; 0x20001; 0x3FFFF] <> [] /\
  exists reads,
    sent (since (ispConnect idle)
            (run_all (answers 0) (ticks_per_byte 1) false 0
               (map OpReadFlash [0x20000; 0x20001; 0x3FFFF]) (ispConnect idle)))
    = [0x4D; 0; 1; 0] ++ reads /\
    plain_commands reads /\
    length reads = 12%nat /\
    isp_hiaddr (run_all (answers 0) (ticks_per_byte 1) false 0
                  (map OpReadFlash [0x20000; 0x20001; 0x3FFFF]) (ispConnect idle))
    = 1.
Proof.
  assert (H1 : Forall (fun a => u8 (Z.shiftr a 17) = 1) [0x20000; 0x20001; 0x3FFFF])
    by (repeat constructor).
  assert (H2 : [0x20000; 0x20001; 0x3FFFF] <> []) by discriminate.
  split; [exact H1|]. split; [exact H2|].
  exact (reads_in_one_window_load_once (answers 0) (ticks_per_byte 1) false 0 1
           [0x20000; 0x20001; 0x3FFFF] (ispConnect idle) H1 H2).
Defined.

(** X9, at work: a target that never answers. *)
Lemma silent_target_leaves_default_tier :
  0 <= prog_sck idle < 256 /\
  fst (ispEnterProgrammingMode (answers 0) (ticks_per_byte 1) false 13 idle) = Some 1 /\
  ispTransmit (snd (ispEnterProgrammingMode (answers 0) (ticks_per_byte 1) false 13 idle))
  = ispTransmit_hw /\
  spi_divider
    (SPCR (snd (ispEnterProgrammingMode (answers 0) (ticks_per_byte 1) false 13 idle)))
    (SPSR (snd (ispEnterProgrammingMode (answers 0) (ticks_per_byte 1) false 13 idle)))
  = 8 /\
  prog_sck (snd (ispEnterProgrammingMode (answers 0) (ticks_per_byte 1) false 13 idle)) = 0.
Proof.
  assert (H1 : 0 <= prog_sck idle < 256) by (cbn; lia).
  assert (H2 : fst (ispEnterProgrammingMode (answers 0) (ticks_per_byte 1) false 13 idle)
               = Some 1) by (vm_compute; reflexivity).
  split; [exact H1|]. split; [exact H2|].
  destruct (failed_handshake_leaves_default_tier (answers 0) (ticks_per_byte 1) false 13
              idle H1 H2) as (T & C & S & _ & _ & _ & P & _).
  split; [exact T|]. split; [rewrite C, S; reflexivity | exact P].
Defined.

(** X10, at work: a target that answers at the slowest tier only. *)
Lemma slowest_tier_handshake_state :
  0 <= prog_sck idle < 256 /\
  fst (ispEnterProgrammingMode answers_slowest_only (ticks_per_byte 1) false 13 idle)
  = Some 0 /\
  USBASP_ISP_SCK_0_5
  <= prog_sck (snd (ispEnterProgrammingMode answers_slowest_only (ticks_per_byte 1)
                      false 13 idle))
  <= USBASP_ISP_SCK_1500 /\
  ispTransmit (snd (ispEnterProgrammingMode answers_slowest_only (ticks_per_byte 1)
                      false 13 idle))
  = transport_of_tier
      (prog_sck (snd (ispEnterProgrammingMode answers_slowest_only (ticks_per_byte 1)
                        false 13 idle))).
Proof.
  assert (H1 : 0 <= prog_sck idle < 256) by (cbn; lia).
  assert (H2 : fst (ispEnterProgrammingMode answers_slowest_only (ticks_per_byte 1)
                      false 13 idle) = Some 0) by (vm_compute; reflexivity).
  split; [exact H1|]. split; [exact H2|].
  destruct (successful_handshake_state answers_slowest_only (ticks_per_byte 1) false 13
              idle eq_refl H1 H2) as (R & _ & _ & L).
  split; [exact R|]. apply L. vm_compute. reflexivity.
Defined.

(** X11, at work: a handshake right after [ispConnect], over the hardware
    transport, that succeeds at the default tier. *)
Lemma reset_low_after_handshake :
  (0 < 13)%nat /\
  0 <= prog_sck (ispConnect idle) /\
  Z.testbit
    (ISP_OUT (snd (ispEnterProgrammingMode (answers 0x53) (ticks_per_byte 1) false 13
                     (ispConnect idle))))
    ISP_RST = false /\
  (forall n, 0 <= n < 8 -> n <> ISP_RST ->
     Z.testbit
       (ISP_OUT (snd (ispEnterProgrammingMode (answers 0x53) (ticks_per_byte 1) false 13
                        (ispConnect idle)))) n
     = Z.testbit (ISP_OUT (ispConnect idle)) n) /\
  ISP_DDR (snd (ispEnterProgrammingMode (answers 0x53) (ticks_per_byte 1) false 13
                  (ispConnect idle)))
  = ISP_DDR (ispConnect idle).
Proof.
  assert (H1 : (0 < 13)%nat) by lia.
  assert (H2 : 0 <= prog_sck (ispConnect idle)) by (cbn; lia).
  split; [exact H1|]. split; [exact H2|].
  destruct (handshake_leaves_reset_low (answers 0x53) (ticks_per_byte 1) false 13
              (ispConnect idle) H1 H2) as (R & _ & _ & _ & K & D).
  split; [exact R|]. split; [|exact D].
  apply K; [reflexivity | cbn; lia | vm_compute; discriminate].
Defined.

Lemma one_tick_per_pass_within : forall most, 1 <= most ->
  spin_within one_tick_per_pass most.
Proof. intros most H s. unfold one_tick_per_pass. lia. Qed.

Lemma wired_back_loopback : loopback wired_back.
Proof.
  intro s. unfold wired_back.
  destruct (Z.testbit (ISP_OUT s) ISP_MOSI); reflexivity.
Qed.

(** X12, at work: the bit delay of tier [USBASP_ISP_SCK_32], 3 ticks. *)
Lemma ispDelay_at_tier_32 :
  0 <= sck_sw_delay (ispSetSCKOption USBASP_ISP_SCK_32 idle) /\
  spin_within one_tick_per_pass
    (256 - sck_sw_delay (ispSetSCKOption USBASP_ISP_SCK_32 idle)) /\
  exists s',
    (forall fuel, (3 < fuel)%nat ->
       Wire.ispDelay one_tick_per_pass fuel (ispSetSCKOption USBASP_ISP_SCK_32 idle)
       = Some s') /\
    later (ispSetSCKOption USBASP_ISP_SCK_32 idle) s' /\
    3 <= ticks s' - ticks (ispSetSCKOption USBASP_ISP_SCK_32 idle) <= 255.
Proof.
  assert (H1 : 0 <= sck_sw_delay (ispSetSCKOption USBASP_ISP_SCK_32 idle))
    by (vm_compute; discriminate).
  assert (H2 : spin_within one_tick_per_pass
                 (256 - sck_sw_delay (ispSetSCKOption USBASP_ISP_SCK_32 idle)))
    by (apply one_tick_per_pass_within; vm_compute; discriminate).
  split; [exact H1|]. split; [exact H2|].
  destruct (ispDelay_waits_sck_sw_delay one_tick_per_pass
              (ispSetSCKOption USBASP_ISP_SCK_32 idle) H1 H2) as (s' & F & L & T & _).
  exists s'. split; [exact F|]. split; [exact L | exact T].
Defined.

(** X13, at work: [0xA5] through a wired-back programmer at tier
    [USBASP_ISP_SCK_32]. *)
Lemma loopback_of_0xA5 :
  0 <= 0xA5 < 256 /\
  0 <= sck_sw_delay (ispSetSCKOption USBASP_ISP_SCK_32 idle) /\
  spin_within one_tick_per_pass
    (256 - sck_sw_delay (ispSetSCKOption USBASP_ISP_SCK_32 idle)) /\
  loopback wired_back /\
  exists s',
    forall fuel, (3 < fuel)%nat ->
      Wire.ispTransmit_sw wired_back one_tick_per_pass fuel 0xA5
        (ispSetSCKOption USBASP_ISP_SCK_32 idle)
      = Some (0xA5, s').
Proof.
  assert (H0 : 0 <= 0xA5 < 256) by lia.
  assert (H1 : 0 <= sck_sw_delay (ispSetSCKOption USBASP_ISP_SCK_32 idle))
    by (vm_compute; discriminate).
  assert (H2 : spin_within one_tick_per_pass
                 (256 - sck_sw_delay (ispSetSCKOption USBASP_ISP_SCK_32 idle)))
    by (apply one_tick_per_pass_within; vm_compute; discriminate).
  split; [exact H0|]. split; [exact H1|]. split; [exact H2|].
  split; [exact wired_back_loopback|].
  exact (ispTransmit_sw_loopback wired_back one_tick_per_pass 0xA5
           (ispSetSCKOption USBASP_ISP_SCK_32 idle) H0 H1 H2 wired_back_loopback).
Defined.

(** X14, at work: the bits of [0xA5] at the eight rising edges, and the 48
    ticks the byte takes at least at tier [USBASP_ISP_SCK_32]. *)
Lemma bits_of_0xA5_on_the_wire :
  exists r s',
    Wire.ispTransmit_sw wired_back one_tick_per_pass 4 0xA5
      (ispSetSCKOption USBASP_ISP_SCK_32 idle) = Some (r, s') /\
    mosi_at_rising_edges (since (ispSetSCKOption USBASP_ISP_SCK_32 idle) s')
    = [true; false; true; false; false; true; false; true] /\
    Z.testbit (ISP_OUT s') ISP_SCK = false /\
    Z.testbit (ISP_OUT s') ISP_MOSI = true /\
    48 <= ticks s' - ticks (ispSetSCKOption USBASP_ISP_SCK_32 idle).
Proof.
  destruct (Wire.ispTransmit_sw wired_back one_tick_per_pass 4 0xA5
              (ispSetSCKOption USBASP_ISP_SCK_32 idle)) as [[r s']|] eqn:E;
    [|vm_compute in E; discriminate].
  exists r, s'. split; [reflexivity|].
  destruct (ispTransmit_sw_shifts_msb_first wired_back one_tick_per_pass 4 0xA5
              (ispSetSCKOption USBASP_ISP_SCK_32 idle) r s' E)
    as (_ & _ & B & K & M & _ & _ & T & _).
  split; [rewrite (B eq_refl); reflexivity|].
  split; [exact K|]. split; [exact M | exact T].
Defined.

(** X15, at work: a byte at tier [USBASP_ISP_SCK_32] takes between 48 and
    4080 ticks. *)
Lemma byte_time_at_tier_32 :
  0 <= sck_sw_delay (ispSetSCKOption USBASP_ISP_SCK_32 idle) /\
  spin_within one_tick_per_pass
    (256 - sck_sw_delay (ispSetSCKOption USBASP_ISP_SCK_32 idle)) /\
  exists r s',
    (forall fuel, (3 < fuel)%nat ->
       Wire.ispTransmit_sw (fun _ => 0) one_tick_per_pass fuel 0xA5
         (ispSetSCKOption USBASP_ISP_SCK_32 idle) = Some (r, s')) /\
    48 <= ticks s' - ticks (ispSetSCKOption USBASP_ISP_SCK_32 idle) <= 4080.
Proof.
  assert (H1 : 0 <= sck_sw_delay (ispSetSCKOption USBASP_ISP_SCK_32 idle))
    by (vm_compute; discriminate).
  assert (H2 : spin_within one_tick_per_pass
                 (256 - sck_sw_delay (ispSetSCKOption USBASP_ISP_SCK_32 idle)))
    by (apply one_tick_per_pass_within; vm_compute; discriminate).
  split; [exact H1|]. split; [exact H2|].
  exact (ispTransmit_sw_returns_in_time (fun _ => 0) one_tick_per_pass 0xA5
           (ispSetSCKOption USBASP_ISP_SCK_32 idle) H1 H2).
Defined.

(** X16, at work: [0xA5] at tier [USBASP_ISP_SCK_32], bit by bit and as one
    exchange. *)
Lemma byte_and_bits_of_0xA5 :
  0 <= 0xA5 < 256 /\
  exists r s',
    Wire.ispTransmit_sw wired_back one_tick_per_pass 4 0xA5
      (ispSetSCKOption USBASP_ISP_SCK_32 idle) = Some (r, s') /\
    ISP_OUT (snd (transmit (answers 0xA5) (ticks_per_byte 48) ispTransmit_sw 0xA5
                    (ispSetSCKOption USBASP_ISP_SCK_32 idle)))
    = ISP_OUT s' /\
    ISP_OUT s' = 8.
Proof.
  assert (H0 : 0 <= 0xA5 < 256) by lia.
  split; [exact H0|].
  destruct (Wire.ispTransmit_sw wired_back one_tick_per_pass 4 0xA5
              (ispSetSCKOption USBASP_ISP_SCK_32 idle)) as [[r s']|] eqn:E;
    [|vm_compute in E; discriminate].
  exists r, s'. split; [reflexivity|].
  destruct (transmit_agrees_with_ispTransmit_sw wired_back one_tick_per_pass
              (answers 0xA5) (ticks_per_byte 48) 4 0xA5
              (ispSetSCKOption USBASP_ISP_SCK_32 idle) r s' H0 E) as (P & _).
  split; [exact P|]. rewrite <- P. vm_compute. reflexivity.
Defined.
